(** * OpenFarm GcodeOracle: toolpath interpreter, tube mesh and camera planner

    A shallow embedding of [src/GcodeOracle/GcodeManager.py],
    [src/GcodeOracle/Renderer.py] and the rendering loop of
    [src/GcodeOracle/main.py].

    Python floats are IEEE binary64 numbers: they are modelled by Rocq's
    primitive floats, so NaN, signed zeros, infinities and rounding behave as
    they do in the interpreter, and every definition below runs.  Python
    exceptions are values of an error monad.  The C library's [atan2], [pow],
    [cos] and [sin], and the builtin [float()] parser, are parameters of the
    model (record [Platform]).

    The renderer's arithmetic is written once over an interface [Arith] of
    the operations it uses.  Its instance [float_arith] is the arithmetic
    the program runs on a platform (binary64, rounded to binary32 where
    NumPy stores float32); its instance [real_arith] is exact arithmetic, in
    which the geometric statements about the camera are equalities. *)

From Stdlib Require Import ZArith List String Ascii Bool Lia Floats Reals Lra.
From Stdlib Require DecimalString QArith.
Import ListNotations.

#[local] Set Warnings "-inexact-float".

(** ** Exceptions *)

Inductive exn : Set :=
| IndexError      (* list index out of range *)
| ValueError      (* float() of a malformed literal, int() of NaN, math domain error,
                     range() with a step of zero *)
| OverflowError   (* float ** 2 out of range, int() of an infinity *)
| TypeError       (* subscripting None, range() of a float *)
| UnboundLocalError
| AttributeError
| GLError.        (* any failure of the graphics library *)

Inductive result (A : Type) : Type :=
| Ok (a : A)
| Raise (e : exn).
Arguments Ok {A} a.
Arguments Raise {A} e.

Definition bind {A B : Type} (m : result A) (k : A -> result B) : result B :=
  match m with
  | Ok a => k a
  | Raise e => Raise e
  end.

Declare Scope py_scope.
Delimit Scope py_scope with py.
Notation "x <- m ;; k" := (bind m (fun x => k))
  (at level 61, m at next level, right associativity) : py_scope.
Notation "' p <- m ;; k" := (bind m (fun x => match x with p => k end))
  (at level 61, p pattern, m at next level, right associativity) : py_scope.

(** ** Python numbers *)

(** What a function of the C library leaves in [errno]. *)
Inductive errno : Set :=
| ENONE    (* 0 *)
| ERANGE
| EDOM.

Module Py.
Local Open Scope float_scope.

(** [bool(v)] for a float: [v != 0.0]; NaN is true, both zeros are false. *)
Definition float_bool (v : float) : bool := negb (v =? 0).

(** Truth value of an attribute that holds a float or [None]. *)
Definition truthy (o : option float) : bool :=
  match o with
  | Some v => float_bool v
  | None => false
  end.

Definition is_not_None {A : Type} (o : option A) : bool :=
  match o with Some _ => true | None => false end.

(** [o if o is not None else d] *)
Definition or_else (o : option float) (d : float) : float :=
  match o with Some v => v | None => d end.

(** [v ** 2] on a float, as CPython's [float_pow] computes it for the
    exponent 2.0: NaN, the infinities, the zeros and the bases 1 and -1 are
    decided before the C library is called; otherwise [pow] is called on the
    absolute value of the base, [errno] is adjusted ([_Py_ADJUST_ERANGE1])
    and a range error becomes OverflowError. *)
Definition float_pow2 (libm_pow : float -> float -> float * errno) (v : float)
  : result float :=
  if is_nan v then Ok v
  else if is_infinity v then Ok (PrimFloat.abs v)
  else if v =? 0 then Ok 0
  else
    let iv := if v <? 0 then - v else v in
    if iv =? 1 then Ok 1
    else
      let '(ix, e) := libm_pow iv 2 in
      let e :=
        match e with
        | ENONE => if is_infinity ix then ERANGE else ENONE
        | ERANGE => if ix =? 0 then ENONE else ERANGE
        | EDOM => EDOM
        end in
      match e with
      | ENONE => Ok ix
      | ERANGE => Raise OverflowError
      | EDOM => Raise ValueError
      end.

(** [math.sqrt]: ValueError below zero, NaN and +inf pass through. *)
Definition math_sqrt (v : float) : result float :=
  if v <? 0 then Raise ValueError else Ok (PrimFloat.sqrt v).

(** [int(v)]: truncation toward zero; ValueError on NaN, OverflowError
    on an infinity. *)
Definition int_of_float (v : float) : result Z :=
  match Prim2SF v with
  | S754_zero _ => Ok 0%Z
  | S754_finite s m e => Ok (cond_Zopp s (Z.shiftl (Z.pos m) e))
  | S754_infinity _ => Raise OverflowError
  | S754_nan => Raise ValueError
  end.

(** [float(n)] for an int (nearest binary64; exact below 2^53). *)
Definition float_of_int (n : Z) : float :=
  SF2Prim (binary_normalize prec emax n 0 false).

Definition signbit (v : float) : bool :=
  match classify v with
  | NInf | NNormal | NSubn | NZero => true
  | _ => false
  end.

Definition copysign (a b : float) : float :=
  if signbit b then - PrimFloat.abs a else PrimFloat.abs a.

(** [math.pi], the binary64 number nearest to pi. *)
Definition pi : float := 0x1.921fb54442d18p+1.

(** [math.atan2] as CPython's [m_atan2] computes it: the special cases are
    decided before the C library is called. *)
Definition math_atan2 (libm_atan2 : float -> float -> float) (y x : float) : float :=
  if is_nan x || is_nan y then nan
  else if is_infinity y then
    if is_infinity x then
      if signbit x then copysign (0.75 * pi) y else copysign (0.25 * pi) y
    else copysign (0.5 * pi) y
  else if is_infinity x || (y =? 0) then
    if signbit x then copysign pi y else copysign 0 y
  else libm_atan2 y x.

(** [min(l)] and [max(l)] on a non-empty list: the first element, replaced
    by each later one that compares strictly below (above) it. *)
Definition min_list (l : list float) : float :=
  match l with
  | [] => nan
  | x :: tl => fold_left (fun m v => if v <? m then v else m) tl x
  end.

Definition max_list (l : list float) : float :=
  match l with
  | [] => nan
  | x :: tl => fold_left (fun m v => if m <? v then v else m) tl x
  end.
End Py.

(** ** Python strings

    A text is a sequence of code points below 256; [str.split()] and
    [str.splitlines()] are given for those. *)

Module Str.
Local Open Scope string_scope.

Definition code (c : ascii) : N := N_of_ascii c.

(** [c.isspace()] *)
Definition isspace (c : ascii) : bool :=
  let n := code c in
  ((9 <=? n) && (n <=? 13) || (28 <=? n) && (n <=? 32) || (n =? 133) || (n =? 160))%N.

(** Line boundaries of [str.splitlines()] other than the pair CR LF. *)
Definition islinebreak (c : ascii) : bool :=
  let n := code c in
  ((10 <=? n) && (n <=? 13) || (28 <=? n) && (n <=? 30) || (n =? 133))%N.

Definition rev_string (acc : list ascii) : string :=
  string_of_list_ascii (rev acc).

(** [s.split()]: maximal runs of non-whitespace characters. *)
Fixpoint split_from (s : string) (cur : list ascii) : list string :=
  match s with
  | EmptyString => match cur with [] => [] | _ => [rev_string cur] end
  | String c rest =>
      if isspace c then
        match cur with
        | [] => split_from rest []
        | _ => rev_string cur :: split_from rest []
        end
      else split_from rest (c :: cur)
  end.

Definition split (s : string) : list string := split_from s [].

(** [s.splitlines()]; [after_cr] remembers that the previous character was
    a carriage return, whose following line feed belongs to the same
    boundary. *)
Fixpoint splitlines_from (s : string) (cur : list ascii) (after_cr : bool)
  : list string :=
  match s with
  | EmptyString => match cur with [] => [] | _ => [rev_string cur] end
  | String c rest =>
      if after_cr && (code c =? 10)%N then splitlines_from rest cur false
      else if islinebreak c then
        rev_string cur :: splitlines_from rest [] (code c =? 13)%N
      else splitlines_from rest (c :: cur) false
  end.

Definition splitlines (s : string) : list string := splitlines_from s [] false.

(** [s.startswith(c)] for a one-character prefix. *)
Definition startswith (s : string) (c : ascii) : bool :=
  match s with
  | String c' _ => Ascii.eqb c' c
  | EmptyString => false
  end.

(** [c in s] *)
Fixpoint contains (s : string) (c : ascii) : bool :=
  match s with
  | EmptyString => false
  | String c' rest => Ascii.eqb c' c || contains rest c
  end.

(** [s.split(c)[0]]: the part of [s] before the first [c]. *)
Fixpoint before (s : string) (c : ascii) : string :=
  match s with
  | EmptyString => EmptyString
  | String c' rest => if Ascii.eqb c' c then EmptyString else String c' (before rest c)
  end.

(** [s[1:]] *)
Definition tail (s : string) : string :=
  match s with
  | String _ rest => rest
  | EmptyString => EmptyString
  end.
End Str.

(** ** What the interpreter takes from its platform *)

Record Platform : Type := {
  (** [float(s)]; [None] stands for the ValueError of a malformed literal *)
  builtin_float : string -> option float;
  (** the C library's [atan2], reached through [Py.math_atan2] *)
  libm_atan2 : float -> float -> float;
  (** the C library's [pow] with the [errno] it leaves, reached through
      [Py.float_pow2] *)
  libm_pow : float -> float -> float * errno;
  (** [math.cos] and [math.sin] (their arguments here are finite angles) *)
  math_cos : float -> float;
  math_sin : float -> float
}.

(** ** Data model of GcodeManager.py *)

Definition vec3 (T : Type) : Type := (T * T * T)%type.

(** class Segment *)
Record Segment : Type := mkSegment {
  start : vec3 float;
  end_ : vec3 float
}.

(** The result of [get_bounds]: a dict with six keys. *)
Record Bounds (T : Type) : Type := mkBounds {
  min_x : T; max_x : T;
  min_y : T; max_y : T;
  min_z : T; max_z : T
}.
Arguments mkBounds {T}.
Arguments min_x {T}. Arguments max_x {T}.
Arguments min_y {T}. Arguments max_y {T}.
Arguments min_z {T}. Arguments max_z {T}.

(** class GcodeCommand *)
Module GcodeCommand.
Local Open Scope string_scope.

Record t : Type := mk {
  type : string;
  X : option float;
  Y : option float;
  Z : option float;
  E : option float;
  F : option float;
  I : option float;  (* Arc center X offset *)
  J : option float;  (* Arc center Y offset *)
  K : option float;  (* Arc center Z offset *)
  R : option float   (* Arc radius (alternative to I/J/K) *)
}.

Definition set_X (c : t) (v : option float) : t :=
  mk (type c) v (Y c) (Z c) (E c) (F c) (I c) (J c) (K c) (R c).
Definition set_Y (c : t) (v : option float) : t :=
  mk (type c) (X c) v (Z c) (E c) (F c) (I c) (J c) (K c) (R c).
Definition set_Z (c : t) (v : option float) : t :=
  mk (type c) (X c) (Y c) v (E c) (F c) (I c) (J c) (K c) (R c).
Definition set_E (c : t) (v : option float) : t :=
  mk (type c) (X c) (Y c) (Z c) v (F c) (I c) (J c) (K c) (R c).
Definition set_F (c : t) (v : option float) : t :=
  mk (type c) (X c) (Y c) (Z c) (E c) v (I c) (J c) (K c) (R c).
Definition set_I (c : t) (v : option float) : t :=
  mk (type c) (X c) (Y c) (Z c) (E c) (F c) v (J c) (K c) (R c).
Definition set_J (c : t) (v : option float) : t :=
  mk (type c) (X c) (Y c) (Z c) (E c) (F c) (I c) v (K c) (R c).
Definition set_K (c : t) (v : option float) : t :=
  mk (type c) (X c) (Y c) (Z c) (E c) (F c) (I c) (J c) v (R c).
Definition set_R (c : t) (v : option float) : t :=
  mk (type c) (X c) (Y c) (Z c) (E c) (F c) (I c) (J c) (K c) v.

(** [float(param[1:]) if len(param) > 1 else None] *)
Definition value_of (pf : Platform) (param : string) : result (option float) :=
  if (1 <? String.length param)%nat then
    match builtin_float pf (Str.tail param) with
    | Some v => Ok (Some v)
    | None => Raise ValueError
    end
  else Ok None.

(** The [if]/[elif] chain inside the [try]. *)
Definition assign (pf : Platform) (self : t) (param : string) : result t :=
  (if Str.startswith param "X" then v <- value_of pf param ;; Ok (set_X self v)
   else if Str.startswith param "Y" then v <- value_of pf param ;; Ok (set_Y self v)
   else if Str.startswith param "Z" then v <- value_of pf param ;; Ok (set_Z self v)
   else if Str.startswith param "E" then v <- value_of pf param ;; Ok (set_E self v)
   else if Str.startswith param "F" then v <- value_of pf param ;; Ok (set_F self v)
   else if Str.startswith param "I" then v <- value_of pf param ;; Ok (set_I self v)
   else if Str.startswith param "J" then v <- value_of pf param ;; Ok (set_J self v)
   else if Str.startswith param "K" then v <- value_of pf param ;; Ok (set_K self v)
   else if Str.startswith param "R" then v <- value_of pf param ;; Ok (set_R self v)
   else Ok self)%py.

(** [for param in split[1:]]: stops at a token that starts a comment; an
    exception raised by [float] is printed and the loop goes on. *)
Fixpoint params (pf : Platform) (self : t) (rest : list string) : t :=
  match rest with
  | [] => self
  | param :: rest' =>
      if Str.startswith param ";" then self
      else
        let param := if Str.contains param ";" then Str.before param ";" else param in
        let self :=
          match assign pf self param with
          | Ok self' => self'
          | Raise _ => self
          end in
        params pf self rest'
  end.

(** [GcodeCommand.__init__]: [split[0]] raises IndexError on an empty list. *)
Definition init (pf : Platform) (command_string : string) : result t :=
  match Str.split command_string with
  | [] => Raise IndexError
  | ty :: rest => Ok (params pf (mk ty None None None None None None None None None) rest)
  end.
End GcodeCommand.

(** class GcodeManager: the attributes [parse_gcode] works on. *)
Record GcodeManager : Type := mkManager {
  nozzle_x : float;
  nozzle_y : float;
  nozzle_z : float;
  absolute_movement : bool;
  segments : list Segment
}.

Definition position (self : GcodeManager) : vec3 float :=
  (nozzle_x self, nozzle_y self, nozzle_z self).

Definition set_position (self : GcodeManager) (p : vec3 float) : GcodeManager :=
  let '(x, y, z) := p in
  mkManager x y z (absolute_movement self) (segments self).

Definition set_absolute_movement (self : GcodeManager) (b : bool) : GcodeManager :=
  mkManager (nozzle_x self) (nozzle_y self) (nozzle_z self) b (segments self).

Definition append_segments (self : GcodeManager) (l : list Segment) : GcodeManager :=
  mkManager (nozzle_x self) (nozzle_y self) (nozzle_z self) (absolute_movement self)
            (segments self ++ l).

(** [GcodeManager.__init__] before [parse_gcode] runs.  The source starts the
    nozzle at the int 0, which every operation used here treats as the
    float 0.0. *)
Definition initial : GcodeManager := mkManager 0 0 0 true [].

Section Interpreter.
Variable pf : Platform.
Local Open Scope float_scope.

(** [self.nozzle_x < 0 or self.nozzle_y < 0 or self.nozzle_z < 0] *)
Definition negative (p : vec3 float) : bool :=
  let '(x, y, z) := p in (x <? 0) || (y <? 0) || (z <? 0).

(** One axis of [update_position].  The guard is the truth value of the
    field ([if command.X:]), so a field that is absent or equal to zero
    leaves the coordinate as it is. *)
Definition update_axis (absolute : bool) (nozzle : float) (field : option float) : float :=
  if absolute then
    (* command.X if command.X is not None else self.nozzle_x *)
    if Py.truthy field then Py.or_else field nozzle else nozzle
  else
    (* self.nozzle_x += command.X *)
    match field with
    | Some v => if Py.float_bool v then nozzle + v else nozzle
    | None => nozzle
    end.

(** [command.E is not None and command.E > 0] *)
Definition extrudes (command : GcodeCommand.t) : bool :=
  match GcodeCommand.E command with
  | Some e => 0 <? e
  | None => false
  end.

(** [command.X is not None or command.Y is not None or command.Z is not None] *)
Definition commands_axis (command : GcodeCommand.t) : bool :=
  Py.is_not_None (GcodeCommand.X command)
  || Py.is_not_None (GcodeCommand.Y command)
  || Py.is_not_None (GcodeCommand.Z command).

(** [update_position]: the manager after the update and the returned pair
    [(old, new)], [None] standing for [(None, None)]. *)
Definition update_position (self : GcodeManager) (command : GcodeCommand.t)
  : GcodeManager * option (vec3 float * vec3 float) :=
  let old := position self in
  let a := absolute_movement self in
  let self := set_position self
    (update_axis a (nozzle_x self) (GcodeCommand.X command),
     update_axis a (nozzle_y self) (GcodeCommand.Y command),
     update_axis a (nozzle_z self) (GcodeCommand.Z command)) in
  if negative (position self) then (self, None)
  else if extrudes command && commands_axis command then (self, Some (old, position self))
  else (self, None).

(** End position of an arc, lines 56-63 of [process_arc]. *)
Definition arc_end (self : GcodeManager) (command : GcodeCommand.t) : vec3 float :=
  if absolute_movement self then
    (Py.or_else (GcodeCommand.X command) (nozzle_x self),
     Py.or_else (GcodeCommand.Y command) (nozzle_y self),
     Py.or_else (GcodeCommand.Z command) (nozzle_z self))
  else
    (nozzle_x self + Py.or_else (GcodeCommand.X command) 0,
     nozzle_y self + Py.or_else (GcodeCommand.Y command) 0,
     nozzle_z self + Py.or_else (GcodeCommand.Z command) 0).

(** The body of [for i in range(1, num_segments + 1)]: [count] iterations
    are left, [i] is the loop variable and [prev] the carried point.  The
    quotient [i / num_segments] of two ints is the quotient of their floats
    (the same number for ints below 2^53). *)
Fixpoint arc_loop (count : nat) (i num_segments : BinNums.Z)
         (start_angle angle_diff radius z_step nozzle_z0 : float)
         (center_x center_y : float) (end_pos prev : vec3 float)
  : list (vec3 float * vec3 float) :=
  match count with
  | O => []
  | S count' =>
      let t := Py.float_of_int i / Py.float_of_int num_segments in
      let angle := start_angle + angle_diff * t in
      let seg :=
        if (i =? num_segments)%Z then end_pos
        else (center_x + radius * math_cos pf angle,
              center_y + radius * math_sin pf angle,
              nozzle_z0 + z_step * Py.float_of_int i) in
      (prev, seg)
        :: arc_loop count' (i + 1)%Z num_segments start_angle angle_diff radius z_step
                    nozzle_z0 center_x center_y end_pos seg
  end.

(** Lines 73-80 of [process_arc]: center of the arc in the XY plane (the
    Z center is computed and never used) and the radius. *)
Definition arc_center (self : GcodeManager) (command : GcodeCommand.t) : float * float :=
  (nozzle_x self + Py.or_else (GcodeCommand.I command) 0,
   nozzle_y self + Py.or_else (GcodeCommand.J command) 0).

Definition arc_radius (self : GcodeManager) (command : GcodeCommand.t) : result float :=
  (let '(center_x, center_y) := arc_center self command in
   let start_vec_x := nozzle_x self - center_x in
   let start_vec_y := nozzle_y self - center_y in
   sx2 <- Py.float_pow2 (libm_pow pf) start_vec_x ;;
   sy2 <- Py.float_pow2 (libm_pow pf) start_vec_y ;;
   Py.math_sqrt (sx2 + sy2))%py.

(** Lines 92-95: start angle, and lines 93-106: the angular span, made
    non-positive for a clockwise arc and non-negative otherwise. *)
Definition arc_start_angle (self : GcodeManager) (command : GcodeCommand.t) : float :=
  let '(center_x, center_y) := arc_center self command in
  let start_vec_x := nozzle_x self - center_x in
  let start_vec_y := nozzle_y self - center_y in
  Py.math_atan2 (libm_atan2 pf) start_vec_y start_vec_x.

Definition arc_span (self : GcodeManager) (command : GcodeCommand.t) (clockwise : bool)
  : float :=
  let '(center_x, center_y) := arc_center self command in
  let start_angle := arc_start_angle self command in
  let '(end_x, end_y, _) := arc_end self command in
  let end_vec_x := end_x - center_x in
  let end_vec_y := end_y - center_y in
  let end_angle := Py.math_atan2 (libm_atan2 pf) end_vec_y end_vec_x in
  let angle_diff := end_angle - start_angle in
  if clockwise then
    if 0 <? angle_diff then angle_diff - 2 * Py.pi else angle_diff
  else
    if angle_diff <? 0 then angle_diff + 2 * Py.pi else angle_diff.

(** [process_arc]: the manager after the call and the returned list. *)
Definition process_arc (self : GcodeManager) (command : GcodeCommand.t) (clockwise : bool)
  : result (GcodeManager * list (vec3 float * vec3 float)) :=
  (let old := position self in
   let end_pos := arc_end self command in
   let '(_, _, end_z) := end_pos in
   (* If nozzle position is negative, skip rendering *)
   if negative (position self) then Ok (set_position self end_pos, [])
   else
     let '(center_x, center_y) := arc_center self command in
     radius <- arc_radius self command ;;
     (* If radius is too small, treat as a straight line *)
     if radius <? 0.001 then
       Ok (set_position self end_pos,
           if extrudes command then [(old, end_pos)] else [])
     else
       let start_angle := arc_start_angle self command in
       let angle_diff := arc_span self command clockwise in
       let arc_length := PrimFloat.abs angle_diff * radius in
       n <- Py.int_of_float (arc_length / 1.0) ;;
       let num_segments := Z.max 4 n in
       let z_step :=
         if (0 <? num_segments)%Z
         then (end_z - nozzle_z self) / Py.float_of_int num_segments
         else 0 in
       let segs :=
         if extrudes command then
           arc_loop (Z.to_nat num_segments) 1 num_segments start_angle angle_diff radius
                    z_step (nozzle_z self) center_x center_y end_pos old
         else [] in
       Ok (set_position self end_pos, segs))%py.

Definition to_segments (l : list (vec3 float * vec3 float)) : list Segment :=
  map (fun '(seg_start, seg_end) => mkSegment seg_start seg_end) l.

(** The [match command.type] of [parse_gcode], with the append that
    follows it. *)
Definition dispatch (self : GcodeManager) (command : GcodeCommand.t) : result GcodeManager :=
  (let ty := GcodeCommand.type command in
   if String.eqb ty ";" then Ok self
   else if String.eqb ty "G90" then Ok (set_absolute_movement self true)
   else if String.eqb ty "G91" then Ok (set_absolute_movement self false)
   else if String.eqb ty "G92" then Ok self
   else if String.eqb ty "G0" || String.eqb ty "G1" then
     let '(self, moved) := update_position self command in
     match moved with
     | Some (old_pos, new_pos) => Ok (append_segments self [mkSegment old_pos new_pos])
     | None => Ok self
     end
   else if String.eqb ty "G2" then
     '(self, arc_segments) <- process_arc self command true ;;
     Ok (append_segments self (to_segments arc_segments))
   else if String.eqb ty "G3" then
     '(self, arc_segments) <- process_arc self command false ;;
     Ok (append_segments self (to_segments arc_segments))
   else Ok self)%py.

(** One turn of the loop of [parse_gcode] over the lines of the file. *)
Definition parse_line (self : GcodeManager) (line : string) : result GcodeManager :=
  (if (String.length line =? 0)%nat || Str.startswith line ";" then Ok self
   else
     command <- GcodeCommand.init pf line ;;
     dispatch self command)%py.

Fixpoint parse_lines (self : GcodeManager) (lines : list string) : result GcodeManager :=
  match lines with
  | [] => Ok self
  | line :: rest => (self <- parse_line self line ;; parse_lines self rest)%py
  end.

(** [parse_gcode] on the text read from the file. *)
Definition parse_gcode (gcode_content : string) : result GcodeManager :=
  parse_lines initial (Str.splitlines gcode_content).
End Interpreter.

(** [get_bounds] *)
Definition coords (f : vec3 float -> float) (l : list Segment) : list float :=
  flat_map (fun segment => [f (start segment); f (end_ segment)]) l.

Definition get_bounds (self : GcodeManager) : option (Bounds float) :=
  match segments self with
  | [] => None
  | _ =>
      let all_x := coords (fun p => fst (fst p)) (segments self) in
      let all_y := coords (fun p => snd (fst p)) (segments self) in
      let all_z := coords (fun p => snd p) (segments self) in
      Some (mkBounds (Py.min_list all_x) (Py.max_list all_x)
                     (Py.min_list all_y) (Py.max_list all_y)
                     (Py.min_list all_z) (Py.max_list all_z))
  end.

(** [interpret]: segments and bounds of a text. *)
Definition interpret (pf : Platform) (gcode_text : string)
  : result (list Segment * option (Bounds float)) :=
  (self <- parse_gcode pf gcode_text ;; Ok (segments self, get_bounds self))%py.

(** ** Arithmetic of the renderer *)

Class Arith (T : Type) : Type := {
  lit : float -> T;            (* a float of the program, as a number of [T] *)
  n_add : T -> T -> T;
  n_sub : T -> T -> T;
  n_mul : T -> T -> T;
  n_div : T -> T -> T;
  n_opp : T -> T;
  n_sqrt : T -> T;             (* [np.sqrt] *)
  n_ltb : T -> T -> bool;
  n_leb : T -> T -> bool;
  py_pow2 : T -> result T;     (* [v ** 2] on a Python float *)
  f32 : T -> T                 (* storing into a float32 array *)
}.

Declare Scope num_scope.
Delimit Scope num_scope with num.
Notation "x + y" := (n_add x y) : num_scope.
Notation "x - y" := (n_sub x y) : num_scope.
Notation "x * y" := (n_mul x y) : num_scope.
Notation "x / y" := (n_div x y) : num_scope.
Notation "- x" := (n_opp x) : num_scope.
Notation "x <? y" := (n_ltb x y) : num_scope.
Notation "x <=? y" := (n_leb x y) : num_scope.
Notation "# x" := (lit x%float) (at level 9, x at level 9, format "# x") : num_scope.

(** Rounding of a binary64 number to the nearest binary32 number. *)
Definition round32 (v : float) : float :=
  match Prim2SF v with
  | S754_finite s m e => SF2Prim (binary_round 24 128 s m e)
  | _ => v
  end.

Definition float_arith (pf : Platform) : Arith float := {|
  lit v := v;
  n_add := PrimFloat.add;
  n_sub := PrimFloat.sub;
  n_mul := PrimFloat.mul;
  n_div := PrimFloat.div;
  n_opp := PrimFloat.opp;
  n_sqrt := PrimFloat.sqrt;
  n_ltb := PrimFloat.ltb;
  n_leb := PrimFloat.leb;
  py_pow2 := Py.float_pow2 (libm_pow pf);
  f32 := round32
|}.

(** The real number a float stands for (0 for an infinity or NaN). *)
Definition float_to_R (v : float) : R :=
  match Prim2SF v with
  | S754_finite s m e =>
      if (0 <=? e)%Z then IZR (cond_Zopp s (Z.pos m) * 2 ^ e)
      else (IZR (cond_Zopp s (Z.pos m)) / IZR (2 ^ (- e)))%R
  | _ => 0%R
  end.

Definition Rltb (a b : R) : bool := if Rlt_dec a b then true else false.
Definition Rleb (a b : R) : bool := if Rle_dec a b then true else false.

#[export] Instance real_arith : Arith R := {
  lit := float_to_R;
  n_add := Rplus;
  n_sub := Rminus;
  n_mul := Rmult;
  n_div := Rdiv;
  n_opp := Ropp;
  n_sqrt := R_sqrt.sqrt;
  n_ltb := Rltb;
  n_leb := Rleb;
  py_pow2 v := Ok (v * v)%R;
  f32 v := v
}.

(** ** Renderer.py *)

(** The eight views, in the order [main.py] renders them. *)
Definition views : list string :=
  ["NORTH_WEST"; "WEST"; "SOUTH_WEST"; "SOUTH"; "SOUTH_EAST"; "EAST"; "NORTH_EAST"; "NORTH"]%string.

Section Mesh.
Context {T : Type} {A : Arith T}.
Local Open Scope num_scope.

(** *** float32 arrays of three components *)

(** [np.array(p, dtype=np.float32)] *)
Definition np_array32 (p : vec3 float) : vec3 T :=
  let '(x, y, z) := p in (f32 (lit x), f32 (lit y), f32 (lit z)).

Definition arr_add (a b : vec3 T) : vec3 T :=
  let '(a0, a1, a2) := a in
  let '(b0, b1, b2) := b in
  (f32 (a0 + b0), f32 (a1 + b1), f32 (a2 + b2)).

Definition arr_sub (a b : vec3 T) : vec3 T :=
  let '(a0, a1, a2) := a in
  let '(b0, b1, b2) := b in
  (f32 (a0 - b0), f32 (a1 - b1), f32 (a2 - b2)).

Definition arr_neg (a : vec3 T) : vec3 T :=
  let '(a0, a1, a2) := a in (- a0, - a1, - a2).

(** [a / k] for a float32 scalar [k] *)
Definition arr_div (a : vec3 T) (k : T) : vec3 T :=
  let '(a0, a1, a2) := a in (f32 (a0 / k), f32 (a1 / k), f32 (a2 / k)).

(** [k * a] for a Python float [k]: the scalar takes the array's type. *)
Definition arr_scale (k : T) (a : vec3 T) : vec3 T :=
  let '(a0, a1, a2) := a in
  let k := f32 k in
  (f32 (k * a0), f32 (k * a1), f32 (k * a2)).

(** [np.cross(a, b)] *)
Definition np_cross (a b : vec3 T) : vec3 T :=
  let '(a0, a1, a2) := a in
  let '(b0, b1, b2) := b in
  (f32 (f32 (a1 * b2) - f32 (a2 * b1)),
   f32 (f32 (a2 * b0) - f32 (a0 * b2)),
   f32 (f32 (a0 * b1) - f32 (a1 * b0))).

(** [np.linalg.norm(a)] *)
Definition np_linalg_norm (a : vec3 T) : T :=
  let '(a0, a1, a2) := a in
  f32 (n_sqrt (f32 (f32 (f32 (a0 * a0) + f32 (a1 * a1)) + f32 (a2 * a2)))).

(** *** Arrays of rows

    [np.empty((n, 3))] gives [n] rows that hold nothing yet ([None]);
    a row is written by index, a block of rows by slice. *)

Definition rows : Type := list (option (vec3 T)).

Definition np_empty (n : nat) : rows := repeat None n.

(** [arr[idx] = v] *)
Fixpoint set_row (arr : rows) (idx : nat) (v : vec3 T) : result rows :=
  match arr, idx with
  | [], _ => Raise IndexError
  | _ :: tl, O => Ok (Some v :: tl)
  | r :: tl, S i => (tl' <- set_row tl i v ;; Ok (r :: tl'))%py
  end.

(** [arr[start_idx:end_idx] = block]; NumPy raises ValueError when the block
    does not have the shape of the slice. *)
Definition set_slice (arr : rows) (start_idx end_idx : nat) (block : rows) : result rows :=
  if (end_idx <=? List.length arr)%nat && (start_idx + List.length block =? end_idx)%nat then
    Ok (firstn start_idx arr ++ block ++ skipn end_idx arr)
  else Raise ValueError.

(** *** get_segment_vertices *)

Definition up : vec3 T := np_array32 (0, 0, 1)%float.

(** Lines 288-297: the unit direction of the segment, +X when its length
    is not positive. *)
Definition segment_direction (segment : Segment) : vec3 T :=
  let start := np_array32 (start segment) in
  let end_ := np_array32 (end_ segment) in
  let direction := arr_sub end_ start in
  let direction_norm := np_linalg_norm direction in
  if #0 <? direction_norm then arr_div direction direction_norm
  else np_array32 (1.0, 0.0, 0.0)%float.

(** Lines 299-307: the vector perpendicular to the direction. *)
Definition segment_right (direction : vec3 T) : vec3 T :=
  let right := np_cross direction up in
  let right_norm := np_linalg_norm right in
  if #0 <? right_norm then arr_div right right_norm
  else np_array32 (1.0, 0.0, 0.0)%float.

(** The four corners around a point: TOP, RIGHT, BOTTOM, LEFT. *)
Definition corners (p right : vec3 T) (half_width half_height : T) : list (vec3 T) :=
  [arr_add p (arr_scale half_height up);
   arr_add p (arr_scale half_width right);
   arr_add p (arr_scale half_height (arr_neg up));
   arr_add p (arr_scale half_width (arr_neg right))].

(** [start_v[k]]: the corners are a list of four, so the lookup is total. *)
Definition corner (l : list (vec3 T)) (k : nat) : vec3 T :=
  nth k l (np_array32 (0, 0, 0)%float).

Definition calculate_normal (v0 v1 v2 : vec3 T) : vec3 T :=
  let edge1 := arr_sub v1 v0 in
  let edge2 := arr_sub v2 v0 in
  let normal := np_cross edge1 edge2 in
  let norm := np_linalg_norm normal in
  if #0 <? norm then arr_div normal norm
  else np_array32 (0.0, 0.0, 1.0)%float.

(** [add_triangle] writes three rows of each array. *)
Definition add_triangle (arrays : rows * rows) (idx : nat) (v0 v1 v2 : vec3 T)
  : result (rows * rows) :=
  (let '(segment_vertices, segment_normals) := arrays in
   segment_vertices <- set_row segment_vertices idx v0 ;;
   segment_vertices <- set_row segment_vertices (idx + 1) v1 ;;
   segment_vertices <- set_row segment_vertices (idx + 2) v2 ;;
   let normal := calculate_normal v0 v1 v2 in
   segment_normals <- set_row segment_normals idx normal ;;
   segment_normals <- set_row segment_normals (idx + 1) normal ;;
   segment_normals <- set_row segment_normals (idx + 2) normal ;;
   Ok (segment_vertices, segment_normals))%py.

Definition TOP : nat := 0.
Definition RIGHT : nat := 1.
Definition BOTTOM : nat := 2.
Definition LEFT : nat := 3.

Definition get_segment_vertices (segment : Segment) (width height : T)
  : result (rows * rows) :=
  (let start := np_array32 (start segment) in
   let end_ := np_array32 (end_ segment) in
   let direction := segment_direction segment in
   let right := segment_right direction in
   let half_width := width / #2.0 in
   let half_height := height / #2.0 in
   let arrays := (np_empty 36, np_empty 36) in
   let start_v := corners start right half_width half_height in
   let end_v := corners end_ right half_width half_height in
   let idx := 0%nat in
   (* start cap *)
   arrays <- add_triangle arrays idx (corner start_v BOTTOM) (corner start_v RIGHT) (corner start_v TOP) ;;
   let idx := (idx + 3)%nat in
   arrays <- add_triangle arrays idx (corner start_v LEFT) (corner start_v BOTTOM) (corner start_v TOP) ;;
   let idx := (idx + 3)%nat in
   (* end cap *)
   arrays <- add_triangle arrays idx (corner end_v TOP) (corner end_v RIGHT) (corner end_v BOTTOM) ;;
   let idx := (idx + 3)%nat in
   arrays <- add_triangle arrays idx (corner end_v TOP) (corner end_v BOTTOM) (corner end_v LEFT) ;;
   let idx := (idx + 3)%nat in
   (* top right *)
   arrays <- add_triangle arrays idx (corner start_v RIGHT) (corner end_v TOP) (corner start_v TOP) ;;
   let idx := (idx + 3)%nat in
   arrays <- add_triangle arrays idx (corner end_v RIGHT) (corner end_v TOP) (corner start_v RIGHT) ;;
   let idx := (idx + 3)%nat in
   (* top left *)
   arrays <- add_triangle arrays idx (corner start_v LEFT) (corner end_v TOP) (corner start_v TOP) ;;
   let idx := (idx + 3)%nat in
   arrays <- add_triangle arrays idx (corner end_v LEFT) (corner end_v TOP) (corner start_v LEFT) ;;
   let idx := (idx + 3)%nat in
   (* bottom right *)
   arrays <- add_triangle arrays idx (corner start_v RIGHT) (corner end_v RIGHT) (corner start_v BOTTOM) ;;
   let idx := (idx + 3)%nat in
   arrays <- add_triangle arrays idx (corner end_v BOTTOM) (corner start_v BOTTOM) (corner end_v RIGHT) ;;
   let idx := (idx + 3)%nat in
   (* bottom left *)
   arrays <- add_triangle arrays idx (corner start_v LEFT) (corner end_v BOTTOM) (corner start_v BOTTOM) ;;
   let idx := (idx + 3)%nat in
   arrays <- add_triangle arrays idx (corner end_v LEFT) (corner end_v BOTTOM) (corner start_v LEFT) ;;
   Ok arrays)%py.

(** [_process_segment_worker] *)
Definition _process_segment_worker (segment_index : nat) (segment : Segment) (width height : T)
  : result (nat * rows * rows) :=
  ('(vertices, normals) <- get_segment_vertices segment width height ;;
   Ok (segment_index, vertices, normals))%py.
End Mesh.
Arguments rows T : clear implicits.

(** ** The reference grid of Renderer.py *)

(** A number of the printer's bed: a Python int or a Python float. *)
Inductive number : Set :=
| Int (z : BinNums.Z)
| Float (v : float).

(** [printer_info], the dict that [main.py] hands to the renderer. *)
Record PrinterInfo : Set := mkPrinterInfo {
  bed_min_x : number;
  bed_min_y : number;
  bed_min_z : number;
  bed_max_x : number;
  bed_max_y : number;
  bed_max_z : number
}.

Definition DEFAULT_PRINTER_INFO : PrinterInfo :=
  mkPrinterInfo (Int 0) (Int 0) (Int 0) (Int 250) (Int 210) (Int 220).

Section Grid.
Local Open Scope Z_scope.

(** [a + k] for an int [k] *)
Definition add_int (a : number) (k : BinNums.Z) : number :=
  match a with
  | Int z => Int (z + k)
  | Float v => Float (v + Py.float_of_int k)
  end.

(** The number of elements of [range(start, stop, step)]. *)
Definition range_length (start stop step : BinNums.Z) : BinNums.Z :=
  if 0 <? step then
    if start <? stop then (stop - start - 1) / step + 1 else 0
  else
    if stop <? start then (start - stop - 1) / (- step) + 1 else 0.

(** [range(start, stop, step)] for an int [step]: TypeError when [start] or
    [stop] is a float, then ValueError for a step of zero. *)
Definition py_range (start stop : number) (step : BinNums.Z) : result (list BinNums.Z) :=
  match start, stop with
  | Int start, Int stop =>
      if step =? 0 then Raise ValueError
      else Ok (map (fun k => start + Z.of_nat k * step)
                   (seq 0 (Z.to_nat (range_length start stop step))))
  | _, _ => Raise TypeError
  end.

(** [get_grid_vertex_list], for an int [spacing] (its caller passes 10). *)
Definition get_grid_vertex_list (printer_info : PrinterInfo) (spacing : BinNums.Z)
  : result (list number) :=
  (let x_min := bed_min_x printer_info in
   let y_min := bed_min_y printer_info in
   let x_max := bed_max_x printer_info in
   let y_max := bed_max_y printer_info in
   xs <- py_range x_min (add_int x_max 1) spacing ;;
   let grid_vertex_list :=
     flat_map (fun x => [Int x; y_min; Int 0; Int x; y_max; Int 0]) xs in
   ys <- py_range y_min (add_int y_max 1) spacing ;;
   let grid_vertex_list :=
     grid_vertex_list ++ flat_map (fun y => [x_min; Int y; Int 0; x_max; Int y; Int 0]) ys in
   (* an X in the origin square *)
   Ok (grid_vertex_list
       ++ [Int 0; Int 0; Int 0; Int spacing; Int spacing; Int 0;
           Int 0; Int spacing; Int 0; Int spacing; Int 0; Int 0]))%py.
End Grid.

(** class Renderer: the attributes of [__init__]. *)
Record Renderer (T : Type) : Type := mkRenderer {
  gcode_manager : GcodeManager;
  printer_info : PrinterInfo;
  _vertex_data : option (list (option T));
  _grid_vertex_list : option (list number);
  _bounds : option (Bounds T)
}.
Arguments mkRenderer {T}.
Arguments gcode_manager {T}.
Arguments printer_info {T}.
Arguments _vertex_data {T}.
Arguments _grid_vertex_list {T}.
Arguments _bounds {T}.

(** The graphics library, as far as [render_view] depends on it. *)
Record Graphics (T Image : Type) : Type := {
  (** lines 390-414: context, framebuffers, program and the vertex buffers
      made from the cached grid and vertex data *)
  gl_prepare : BinNums.Z -> BinNums.Z -> option (list number) -> list (option T)
               -> result unit;
  (** lines 418-489: matrices and uniforms from the bounds and the camera,
      the two draw calls and the read back *)
  gl_draw : BinNums.Z -> BinNums.Z -> Bounds T -> vec3 T -> result Image
}.
Arguments gl_prepare {T Image}.
Arguments gl_draw {T Image}.

Section Camera.
Context {T : Type} {A : Arith T}.
Local Open Scope num_scope.

Definition map_bounds (b : Bounds float) : Bounds T :=
  mkBounds (lit (min_x b)) (lit (max_x b)) (lit (min_y b)) (lit (max_y b))
           (lit (min_z b)) (lit (max_z b)).

(** [pool.starmap(_process_segment_worker, worker_args)]: results in the
    order of the arguments; an exception of a worker is raised by the call. *)
Fixpoint starmap (worker_args : list (nat * Segment * T * T))
  : result (list (nat * rows T * rows T)) :=
  match worker_args with
  | [] => Ok []
  | (i, segment, width, height) :: rest =>
      (r <- _process_segment_worker i segment width height ;;
       rs <- starmap rest ;;
       Ok (r :: rs))%py
  end.

(** [enumerate(segments)] turned into worker arguments. *)
Fixpoint worker_args_from (i : nat) (l : list Segment) : list (nat * Segment * T * T) :=
  match l with
  | [] => []
  | segment :: rest => (i, segment, #0.3, #0.3) :: worker_args_from (S i) rest
  end.

(** The loop that places each result in its slice of the two arrays. *)
Fixpoint scatter (results : list (nat * rows T * rows T)) (vertices_per_segment : nat)
         (arrays : rows T * rows T) : result (rows T * rows T) :=
  match results with
  | [] => Ok arrays
  | (segment_index, vertices, normals) :: rest =>
      (let '(vertex_array, normal_array) := arrays in
       let start_idx := (segment_index * vertices_per_segment)%nat in
       let end_idx := (start_idx + vertices_per_segment)%nat in
       vertex_array <- set_slice vertex_array start_idx end_idx vertices ;;
       normal_array <- set_slice normal_array start_idx end_idx normals ;;
       scatter rest vertices_per_segment (vertex_array, normal_array))%py
  end.

Definition row_values (r : option (vec3 T)) : list (option T) :=
  match r with
  | Some (x, y, z) => [Some x; Some y; Some z]
  | None => [None; None; None]
  end.

(** [np.hstack([vertex_array, normal_array]).flatten()] *)
Definition interleave (vertex_array normal_array : rows T) : list (option T) :=
  flat_map (fun '(v, n) => row_values v ++ row_values n) (combine vertex_array normal_array).

Definition _prepare_geometry (self : Renderer T) : result (Renderer T) :=
  match _vertex_data self with
  | Some _ => Ok self
  | None =>
      (let bounds := option_map map_bounds (get_bounds (gcode_manager self)) in
       grid_vertex_list <- get_grid_vertex_list (printer_info self) 10 ;;
       let num_segments := List.length (segments (gcode_manager self)) in
       let vertices_per_segment := 36%nat in
       let total_vertices := (num_segments * vertices_per_segment)%nat in
       let vertex_array := np_empty total_vertices in
       let normal_array := np_empty total_vertices in
       let worker_args := worker_args_from 0 (segments (gcode_manager self)) in
       results <- starmap worker_args ;;
       '(vertex_array, normal_array) <-
          scatter results vertices_per_segment (vertex_array, normal_array) ;;
       Ok (mkRenderer (gcode_manager self) (printer_info self)
                      (Some (interleave vertex_array normal_array))
                      (Some grid_vertex_list)
                      bounds))%py
  end.

(** [Renderer.__init__] on the text of the file. *)
Definition Renderer_init (pf : Platform) (gcode_content : string)
           (printer_info : PrinterInfo) : result (Renderer T) :=
  (gm <- parse_gcode pf gcode_content ;;
   _prepare_geometry (mkRenderer gm printer_info None None None))%py.

(** [max(a, b, c)]: the first argument, replaced by each later one that is
    greater.  Each argument carries whether it is a NumPy scalar. *)
Definition max3 (a b c : T * bool) : T * bool :=
  let m := a in
  let m := if fst m <? fst b then b else m in
  if fst m <? fst c then c else m.

(** The direction array of a view. *)
Definition view_direction (sqrt2_inv : T) (desired_view : string)
  : result (T * T * T) :=
  (if String.eqb desired_view "NORTH" then Ok (f32 #0.0, f32 #1.0, f32 #0.0)
   else if String.eqb desired_view "EAST" then Ok (f32 (- #1.0), f32 #0.0, f32 #0.0)
   else if String.eqb desired_view "SOUTH" then Ok (f32 #0.0, f32 (- #1.0), f32 #0.0)
   else if String.eqb desired_view "WEST" then Ok (f32 #1.0, f32 #0.0, f32 #0.0)
   else if String.eqb desired_view "NORTH_WEST" then
     Ok (f32 sqrt2_inv, f32 sqrt2_inv, f32 #0.0)
   else if String.eqb desired_view "NORTH_EAST" then
     Ok (f32 (- sqrt2_inv), f32 sqrt2_inv, f32 #0.0)
   else if String.eqb desired_view "SOUTH_EAST" then
     Ok (f32 (- sqrt2_inv), f32 (- sqrt2_inv), f32 #0.0)
   else if String.eqb desired_view "SOUTH_WEST" then
     Ok (f32 sqrt2_inv, f32 (- sqrt2_inv), f32 #0.0)
   else Raise UnboundLocalError)%string.

(** The numbers [get_camera_position] computes before it looks at the view:
    the center, the camera height and the horizontal distance.  The bounds
    are Python floats, so [**] on them can raise; [model_diagonal] and what
    derives from it are NumPy scalars, whose square does not raise. *)
Definition camera_frame (b : Bounds T) : result (T * T * T * T * T) :=
  (let center_x := (min_x b + max_x b) / #2.0 in
   let center_y := (min_y b + max_y b) / #2.0 in
   let center_z := (min_z b + max_z b) / #2.0 in
   let model_width := max_x b - min_x b in
   let model_height := max_y b - min_y b in
   let model_depth := max_z b - min_z b in
   w2 <- py_pow2 model_width ;;
   h2 <- py_pow2 model_height ;;
   d2 <- py_pow2 model_depth ;;
   let model_diagonal := n_sqrt (w2 + h2 + d2) in
   let camera_distance := model_diagonal * #1.5 in
   let '(min_height_offset, numpy) :=
     max3 (model_diagonal * #0.5, true) (model_depth * #1.0, false) (#2.0, false) in
   let camera_height := max_z b + min_height_offset in
   let rise := camera_height - center_z in
   rise2 <- (if numpy then Ok (rise * rise) else py_pow2 rise) ;;
   let horizontal_distance := n_sqrt (camera_distance * camera_distance - rise2) in
   let horizontal_distance :=
     if horizontal_distance <=? #0 then camera_distance else horizontal_distance in
   Ok (center_x, center_y, center_z, camera_height, horizontal_distance))%py.

(** [get_camera_position]; [self._bounds] may be [None], and subscripting
    it then raises TypeError. *)
Definition get_camera_position (self_bounds : option (Bounds T)) (desired_view : string)
  : result (vec3 T) :=
  match self_bounds with
  | None => Raise TypeError
  | Some b =>
      ('(center_x, center_y, center_z, camera_height, horizontal_distance) <-
          camera_frame b ;;
       let sqrt2_inv := #1.0 / n_sqrt #2.0 in
       '(d0, d1, d2) <- view_direction sqrt2_inv desired_view ;;
       Ok (f32 (center_x + d0 * horizontal_distance),
           f32 (center_y + d1 * horizontal_distance),
           f32 camera_height))%py
  end.

(** [render_view]: the renderer after the call and the image. *)
Definition render_view {Image : Type} (gl : Graphics T Image) (self : Renderer T)
           (desired_view : string) (width height : BinNums.Z)
  : result (Renderer T * Image) :=
  (self <- _prepare_geometry self ;;
   vertex_data <- match _vertex_data self with
                  | Some d => Ok d
                  | None => Raise AttributeError
                  end ;;
   _ <- gl_prepare gl width height (_grid_vertex_list self) vertex_data ;;
   camera_pos <- get_camera_position (_bounds self) desired_view ;;
   b <- match _bounds self with
        | Some b => Ok b
        | None => Raise TypeError
        end ;;
   img <- gl_draw gl width height b camera_pos ;;
   Ok (self, img))%py.
End Camera.

(** ** The rendering loop of main.py *)

Definition width : BinNums.Z := 3840.
Definition height : BinNums.Z := 2160.

(** What [render_gcode] logs for a view. *)
Inductive view_report : Set :=
| Uploaded (view_index : nat) (view : string)
| UploadFailed (view_index : nat) (view : string)
| ViewError (view_index : nat) (view : string) (e : exn).

Section RenderJob.
Context {T : Type} {A : Arith T} {Image Png : Type}.
Variable pf : Platform.
Variable gl : Graphics T Image.
(** compositing on black and encoding as PNG *)
Variable encode_png : Image -> result Png.
Variable upload_png_to_fileserver : Png -> nat -> string -> bool.

(** The body of [for view_index, view in enumerate(views)]. *)
Fixpoint render_views (renderer : Renderer T) (view_index : nat) (vs : list string)
         (upload_success_count : nat) (log : list view_report)
  : nat * list view_report :=
  match vs with
  | [] => (upload_success_count, log)
  | view :: rest =>
      match render_view gl renderer view width height with
      | Raise e =>
          render_views renderer (S view_index) rest upload_success_count
                       (log ++ [ViewError view_index view e])
      | Ok (renderer', img) =>
          match encode_png img with
          | Raise e =>
              render_views renderer' (S view_index) rest upload_success_count
                           (log ++ [ViewError view_index view e])
          | Ok png_bytes =>
              if upload_png_to_fileserver png_bytes view_index view then
                render_views renderer' (S view_index) rest (S upload_success_count)
                             (log ++ [Uploaded view_index view])
              else
                render_views renderer' (S view_index) rest upload_success_count
                             (log ++ [UploadFailed view_index view])
          end
      end
  end.

(** [render_gcode]: its return value and the per-view log. *)
Definition render_gcode (gcode_content : string) (printer_info : PrinterInfo)
  : bool * list view_report :=
  match Renderer_init pf gcode_content printer_info with
  | Raise _ => (false, [])
  | Ok renderer =>
      let '(upload_success_count, log) := render_views renderer 0 views 0 [] in
      if (upload_success_count =? List.length views)%nat then (true, log)
      else ((0 <? upload_success_count)%nat, log)
  end.
End RenderJob.

(** ** The light, the view matrix and the projection of Renderer.py *)

Section Scene.
Context {T : Type} {A : Arith T}.
Local Open Scope num_scope.

(** Lines 431-459 of [render_view]: the position of the light.  [max(a, b)]
    keeps [a] unless [b] is greater. *)
Definition light_position (b : Bounds T) : result (vec3 T) :=
  (let center_x := (min_x b + max_x b) / #2.0 in
   let center_y := (min_y b + max_y b) / #2.0 in
   let model_width := max_x b - min_x b in
   let model_height := max_y b - min_y b in
   let model_depth := max_z b - min_z b in
   w2 <- py_pow2 model_width ;;
   h2 <- py_pow2 model_height ;;
   d2 <- py_pow2 model_depth ;;
   let model_diagonal := n_sqrt (w2 + h2 + d2) in
   let light_distance :=
     if model_diagonal * #2.0 <? #10.0 then #10.0 else model_diagonal * #2.0 in
   let horizontal_offset := light_distance * #0.7 in
   let light_height := max_z b + light_distance * #1.5 in
   Ok (f32 (center_x + horizontal_offset),
       f32 (center_y + horizontal_offset),
       f32 light_height))%py.

Definition vec4 : Type := (T * T * T * T)%type.

(** A 4x4 array, as its four rows. *)
Definition mat4 : Type := (vec4 * vec4 * vec4 * vec4)%type.

(** [np.array(v, dtype=np.float32)] on three numbers *)
Definition as_float32 (v : vec3 T) : vec3 T :=
  let '(v0, v1, v2) := v in (f32 v0, f32 v1, f32 v2).

(** One entry of [a @ b]: a row of [a] and a column of [b], summed from the
    left in float32. *)
Definition dot4 (a b : vec4) : T :=
  let '(a0, a1, a2, a3) := a in
  let '(b0, b1, b2, b3) := b in
  f32 (f32 (f32 (f32 (a0 * b0) + f32 (a1 * b1)) + f32 (a2 * b2)) + f32 (a3 * b3)).

Definition column (m : mat4) (j : nat) : vec4 :=
  let pick (r : vec4) : T :=
    let '(r0, r1, r2, r3) := r in
    match j with
    | O => r0
    | S O => r1
    | S (S O) => r2
    | _ => r3
    end in
  let '(m0, m1, m2, m3) := m in (pick m0, pick m1, pick m2, pick m3).

(** [a @ b] *)
Definition matmul (a b : mat4) : mat4 :=
  let row (r : vec4) : vec4 :=
    (dot4 r (column b 0), dot4 r (column b 1), dot4 r (column b 2), dot4 r (column b 3)) in
  let '(a0, a1, a2, a3) := a in (row a0, row a1, row a2, row a3).

(** [look_at]: no test guards the two divisions. *)
Definition look_at (camera_pos target_pos up_input : vec3 T) : mat4 :=
  let camera_pos := as_float32 camera_pos in
  let target_pos := as_float32 target_pos in
  let up_input := as_float32 up_input in
  let forward := arr_sub target_pos camera_pos in
  let forward := arr_div forward (np_linalg_norm forward) in
  let right := np_cross forward up_input in
  let right := arr_div right (np_linalg_norm right) in
  let up := np_cross right forward in
  let '(r0, r1, r2) := right in
  let '(u0, u1, u2) := up in
  let '(f0, f1, f2) := arr_neg forward in
  let '(c0, c1, c2) := arr_neg camera_pos in
  let rotate : mat4 :=
    ((r0, r1, r2, f32 #0),
     (u0, u1, u2, f32 #0),
     (f0, f1, f2, f32 #0),
     (f32 #0, f32 #0, f32 #0, f32 #1)) in
  let translate : mat4 :=
    ((f32 #1, f32 #0, f32 #0, c0),
     (f32 #0, f32 #1, f32 #0, c1),
     (f32 #0, f32 #0, f32 #1, c2),
     (f32 #0, f32 #0, f32 #0, f32 #1)) in
  matmul rotate translate.

Variable np_radians : T -> T.
Variable np_tan : T -> T.

(** [perspective], with NumPy numbers as [create_mvp_matrix] passes them:
    a division by zero then gives an infinity or NaN and no exception. *)
Definition perspective (fov aspect near far : T) : mat4 :=
  let f := #1.0 / np_tan (np_radians fov / #2.0) in
  ((f32 (f / aspect), f32 #0, f32 #0, f32 #0),
   (f32 #0, f32 f, f32 #0, f32 #0),
   (f32 #0, f32 #0, f32 ((far + near) / (near - far)),
    f32 ((#2 * far * near) / (near - far))),
   (f32 #0, f32 #0, f32 (- #1.0), f32 #0)).
End Scene.
Arguments vec4 T : clear implicits.
Arguments mat4 T : clear implicits.

(** ** The name of an uploaded image (main.py) *)

(** [str.lower()], on ASCII letters. *)
Definition lower_char (c : ascii) : ascii :=
  let n := Str.code c in
  if ((65 <=? n) && (n <=? 90))%N then ascii_of_N (n + 32) else c.

Fixpoint lower (s : string) : string :=
  match s with
  | EmptyString => EmptyString
  | String c rest => String (lower_char c) (lower rest)
  end.

(** [str(n)] for a number that is not negative *)
Definition str_of_nat (n : nat) : string := DecimalString.NilEmpty.string_of_uint (Nat.to_uint n).

(** Line 300 of [upload_png_to_fileserver], on the text of the job id. *)
Definition upload_filename (job_id : string) (view_index : nat) (view_name : string)
  : string :=
  ("job_" ++ job_id ++ "_view_" ++ str_of_nat view_index ++ "_" ++ lower view_name
   ++ ".png")%string.

(** ** A platform to run the model on

    [float()] for plain decimal literals (sign, digits, optional fraction;
    exact up to 15 digits) and short polynomial stand-ins where the C library
    would be called.  The general statements below hold for every platform;
    this one only feeds the worked examples. *)

Module Sample.
Local Open Scope float_scope.

Definition digit (c : ascii) : option BinNums.Z :=
  let n := Str.code c in
  if ((48 <=? n) && (n <=? 57))%N then Some (Z.of_N n - 48)%Z else None.

(** Digits of [s] up to the first character that is not one: their value,
    their number, and the rest of the string. *)
Fixpoint digits (s : string) (value : BinNums.Z) (count : nat)
  : BinNums.Z * nat * string :=
  match s with
  | EmptyString => (value, count, s)
  | String c rest =>
      match digit c with
      | Some d => digits rest (10 * value + d)%Z (S count)
      | None => (value, count, s)
      end
  end.

Definition unsigned_decimal (s : string) : option float :=
  let '(whole, n, rest) := digits s 0%Z 0 in
  match rest with
  | EmptyString => if (0 <? n)%nat then Some (Py.float_of_int whole) else None
  | String "." frac =>
      let '(all, m, rest') := digits frac whole 0 in
      match rest' with
      | EmptyString =>
          if (0 <? n + m)%nat
          then Some (Py.float_of_int all / Py.float_of_int (10 ^ Z.of_nat m))
          else None
      | _ => None
      end
  | _ => None
  end.

Definition decimal (s : string) : option float :=
  match s with
  | String "-" rest => option_map PrimFloat.opp (unsigned_decimal rest)
  | String "+" rest => unsigned_decimal rest
  | _ => unsigned_decimal s
  end.

(** Alternating series [1 - t/(a(a+1)) (1 - t/((a+2)(a+3)) (...))]. *)
Fixpoint series (terms : nat) (a t : float) : float :=
  match terms with
  | O => 1
  | S terms' => 1 - t / (a * (a + 1)) * series terms' (a + 2) t
  end.

Definition sin (x : float) : float := x * series 12 2 (x * x).

Definition cos (x : float) : float := series 12 1 (x * x).

(** Reached only with both arguments finite and [y] not zero. *)
Definition atan2 (y x : float) : float :=
  if y <? 0 then - (0.5 * Py.pi) else 0.5 * Py.pi.

(** Reached only with the exponent 2 and a finite base: the rounded
    product, with a range error when it overflows. *)
Definition pow (x y : float) : float * errno :=
  let r := x * x in (r, if is_infinity r then ERANGE else ENONE).

Definition platform : Platform :=
  {| builtin_float := decimal; libm_atan2 := atan2; libm_pow := pow;
     math_cos := cos; math_sin := sin |}.
End Sample.


(** ** Vocabulary of the statements *)

Definition LF : string := String (ascii_of_nat 10) EmptyString.



Section ArcVocabulary.
Local Open Scope float_scope.

End ArcVocabulary.

(** A row, or a number of the buffer, that has been written. *)
Definition written {X : Type} (r : option X) : Prop := r <> None.

Section MeshVocabulary.
Context {T : Type} {A : Arith T}.

(** What a worker returns for a segment of the renderer. *)
Definition mesh_of (segment : Segment) : rows T * rows T :=
  match get_segment_vertices segment (lit 0.3%float) (lit 0.3%float) with
  | Ok r => r
  | Raise _ => ([], [])
  end.

Fixpoint results_from (i : nat) (l : list Segment) : list (nat * rows T * rows T) :=
  match l with
  | [] => []
  | segment :: rest =>
      (i, fst (mesh_of segment), snd (mesh_of segment)) :: results_from (S i) rest
  end.
End MeshVocabulary.

Section FloatVocabulary.
Local Open Scope float_scope.


End FloatVocabulary.

Definition is_view_error (entry : view_report) : Prop :=
  match entry with
  | ViewError _ _ _ => True
  | _ => False
  end.

(** A graphics library in which every call succeeds. *)
Definition ideal_graphics : Graphics float unit :=
  {| gl_prepare := fun _ _ _ _ => Ok tt; gl_draw := fun _ _ _ _ => Ok tt |}.

Section RealVocabulary.
Local Open Scope R_scope.

(** The minimum height offset of the specification. *)
Definition min_height_offset (b : Bounds R) : R :=
  let model_width := max_x b - min_x b in
  let model_height := max_y b - min_y b in
  let model_depth := max_z b - min_z b in
  let model_diagonal :=
    sqrt (model_width * model_width + model_height * model_height
          + model_depth * model_depth) in
  Rmax (Rmax (model_diagonal * / 2) (model_depth * 1)) 2.
End RealVocabulary.

(** A line that [parse_gcode] handles without an arc: it is skipped, or it
    has a first token, and that token is neither G2 nor G3. *)
Definition line_without_arc (line : string) : bool :=
  (String.length line =? 0)%nat || Str.startswith line ";"
  || match Str.split line with
     | [] => false
     | ty :: _ => negb (String.eqb ty "G2") && negb (String.eqb ty "G3")
     end.

(** A point without a NaN coordinate, and a point inside the bounds. *)
Definition no_nan (p : vec3 float) : bool :=
  let '(x, y, z) := p in negb (is_nan x) && negb (is_nan y) && negb (is_nan z).

Definition inside (b : Bounds float) (p : vec3 float) : bool :=
  let '(x, y, z) := p in
  ((min_x b <=? x) && (x <=? max_x b) && (min_y b <=? y) && (y <=? max_y b)
   && (min_z b <=? z) && (z <=? max_z b))%float.

(** The order of the floats that are not NaN, read on integers: the sign
    class first, then exponent and mantissa. *)
Definition sf_key (x : spec_float) : BinNums.Z * BinNums.Z * BinNums.Z :=
  match x with
  | S754_zero _ => (0, 0, 0)%Z
  | S754_infinity s => (if s then -2 else 2, 0, 0)%Z
  | S754_nan => (0, 0, 0)%Z
  | S754_finite s m e => if s then (-1, - e, Z.neg m)%Z else (1, e, Z.pos m)%Z
  end.

Definition key_le (a b : BinNums.Z * BinNums.Z * BinNums.Z) : Prop :=
  let '(a1, a2, a3) := a in
  let '(b1, b2, b3) := b in
  (a1 < b1 \/ (a1 = b1 /\ (a2 < b2 \/ (a2 = b2 /\ a3 <= b3))))%Z.

(** What an entry of the log of [render_gcode] is about. *)
Definition is_uploaded (entry : view_report) : bool :=
  match entry with
  | Uploaded _ _ => true
  | _ => false
  end.

Definition report_view (entry : view_report) : nat * string :=
  match entry with
  | Uploaded i view => (i, view)
  | UploadFailed i view => (i, view)
  | ViewError i view _ => (i, view)
  end.

(** [enumerate(l)], counting from [i]. *)
Fixpoint enumerate_from {X : Type} (i : nat) (l : list X) : list (nat * X) :=
  match l with
  | [] => []
  | x :: rest => (i, x) :: enumerate_from (S i) rest
  end.

Section ExactVocabulary.
Local Open Scope R_scope.

Definition dot3 (a b : vec3 R) : R :=
  let '(a0, a1, a2) := a in
  let '(b0, b1, b2) := b in
  a0 * b0 + a1 * b1 + a2 * b2.

Definition sub3 (a b : vec3 R) : vec3 R :=
  let '(a0, a1, a2) := a in
  let '(b0, b1, b2) := b in
  (a0 - b0, a1 - b1, a2 - b2).

(** The Euclidean distance of two points. *)
Definition distance3 (a b : vec3 R) : R := sqrt (dot3 (sub3 a b) (sub3 a b)).

Definition bounds_center (b : Bounds R) : vec3 R :=
  ((min_x b + max_x b) / 2, (min_y b + max_y b) / 2, (min_z b + max_z b) / 2).

(** The diagonal of the box of the bounds. *)
Definition model_diagonal (b : Bounds R) : R :=
  let model_width := max_x b - min_x b in
  let model_height := max_y b - min_y b in
  let model_depth := max_z b - min_z b in
  sqrt (model_width * model_width + model_height * model_height
        + model_depth * model_depth).
End ExactVocabulary.

(** The numbers of a vertex list, three by three. *)
Fixpoint vertices3 (l : list BinNums.Z) : list (BinNums.Z * BinNums.Z * BinNums.Z) :=
  match l with
  | x :: y :: z :: rest => (x, y, z) :: vertices3 rest
  | _ => []
  end.

(** A point of the plane z = 0 within the rectangle of a bed given in
    whole numbers. *)
Definition on_bed (x_min x_max y_min y_max : BinNums.Z)
           (v : BinNums.Z * BinNums.Z * BinNums.Z) : Prop :=
  let '(x, y, z) := v in
  (x_min <= x <= x_max /\ y_min <= y <= y_max /\ z = 0)%Z.

(** Whether a number of the bed is a float. *)
Definition is_float (n : number) : bool :=
  match n with
  | Float _ => true
  | Int _ => false
  end.

(** The number of grid lines across a side of the bed. *)
Definition lines_across (lo hi spacing : BinNums.Z) : nat :=
  Z.to_nat ((hi - lo) / spacing + 1).

(** A 4x4 matrix applied to a point, as the vertex shader applies
    [mvp_matrix] to [vec4(in_position, 1.0)]. *)
Definition transform (m : mat4 R) (p : vec3 R) : vec4 R :=
  let '(p0, p1, p2) := p in
  let apply (r : vec4 R) : R :=
    let '(r0, r1, r2, r3) := r in (r0 * p0 + r1 * p1 + r2 * p2 + r3 * 1)%R in
  let '(m0, m1, m2, m3) := m in (apply m0, apply m1, apply m2, apply m3).

(** The carriage return, and a text with every line feed turned into the
    pair carriage return, line feed. *)
Definition CR : ascii := ascii_of_N 13.

Fixpoint to_crlf (s : string) : string :=
  match s with
  | EmptyString => EmptyString
  | String c rest =>
      if (Str.code c =? 10)%N then String CR (String c (to_crlf rest))
      else String c (to_crlf rest)
  end.



(** * Properties *)

(** ** Worked examples of the specification *)

Example one_extrusion_move :
  interpret Sample.platform "G1 X10 Y10 E1" =
  Ok ([mkSegment (0, 0, 0) (10, 10, 0)]%float,
      Some (mkBounds 0 10 0 10 0 0)%float).
Proof. vm_compute. reflexivity. Qed.

Example relative_move :
  interpret Sample.platform ("G1 X10 Y10" ++ LF ++ "G91" ++ LF ++ "G1 X5 E1") =
  Ok ([mkSegment (10, 10, 0) (15, 10, 0)]%float,
      Some (mkBounds 10 15 10 10 0 0)%float).
Proof. vm_compute. reflexivity. Qed.

Example negative_move_advances_state :
  interpret Sample.platform ("G1 X-5 E1" ++ LF ++ "G91" ++ LF ++ "G1 X10 E1") =
  Ok ([mkSegment (-5, 0, 0) (5, 0, 0)]%float,
      Some (mkBounds (-5) 5 0 0 0 0)%float).
Proof. vm_compute. reflexivity. Qed.

Example bounds_of_two_segments :
  get_bounds (mkManager 0 0 0 true
                [mkSegment (0, 0, 0) (1, 1, 1); mkSegment (2, 2, 2) (3, -1, 0)]%float) =
  Some (mkBounds 0 3 (-1) 2 0 2)%float.
Proof. vm_compute. reflexivity. Qed.

(** A malformed number leaves its field as it was and the parse goes on. *)
Example malformed_number_is_skipped :
  GcodeCommand.init Sample.platform "G1 X1x0 Y7 E1 ; travel" =
  Ok (GcodeCommand.mk "G1" None (Some 7%float) None (Some 1%float) None None None None None).
Proof. vm_compute. reflexivity. Qed.

(** ** Linear moves *)

Section LinearMoves.
Variable pf : Platform.
Local Open Scope float_scope.

(** A field that is present and not zero replaces the coordinate in
    absolute mode and is added to it in relative mode; an absent field
    leaves the coordinate as it is. *)
Lemma update_axis_nonzero (absolute : bool) (nozzle v : float) :
  Py.float_bool v = true ->
  update_axis absolute nozzle (Some v) = if absolute then v else nozzle + v.
Proof.
  intros Hv. unfold update_axis. simpl. rewrite Hv. reflexivity.
Qed.

Lemma update_axis_absent (absolute : bool) (nozzle : float) :
  update_axis absolute nozzle None = nozzle.
Proof. destruct absolute; reflexivity. Qed.

(** A field equal to zero leaves the coordinate as it is, in both modes. *)
Lemma update_axis_zero (absolute : bool) (nozzle v : float) :
  Py.float_bool v = false ->
  update_axis absolute nozzle (Some v) = nozzle.
Proof.
  intros Hv. unfold update_axis. simpl. rewrite Hv. destruct absolute; reflexivity.
Qed.

Lemma update_position_position (self : GcodeManager) (command : GcodeCommand.t) :
  position (fst (update_position self command)) =
  (update_axis (absolute_movement self) (nozzle_x self) (GcodeCommand.X command),
   update_axis (absolute_movement self) (nozzle_y self) (GcodeCommand.Y command),
   update_axis (absolute_movement self) (nozzle_z self) (GcodeCommand.Z command)).
Proof.
  unfold update_position.
  repeat match goal with |- context [if ?b then _ else _] => destruct b end;
    reflexivity.
Qed.

Lemma update_position_cases (self : GcodeManager) (command : GcodeCommand.t) :
  let moved := fst (update_position self command) in
  update_position self command =
  (moved,
   if negative (position moved) then None
   else if extrudes command && commands_axis command
        then Some (position self, position moved)
        else None).
Proof.
  unfold update_position.
  set (m := set_position self _).
  destruct (negative (position m)) eqn:En; cbn [fst].
  - rewrite En. reflexivity.
  - destruct (extrudes command && commands_axis command); cbn [fst];
      rewrite En; reflexivity.
Qed.
End LinearMoves.

(** C1 (the code departs from the claim): in absolute mode a field that is
    present with value 0 does not replace the coordinate.  After
    [G1 X10 Y10 E1], the line [G1 X0 Y0 E1] leaves the nozzle at (10, 10, 0)
    and the second segment has no length, while the end position
    [process_arc] computes for the same fields is (0, 0, 0). *)
Theorem update_position_skips_zero_field :
  let text := ("G1 X10 Y10 E1" ++ LF ++ "G1 X0 Y0 E1")%string in
  exists self,
    parse_gcode Sample.platform text = Ok self /\
    position self = (10, 10, 0)%float /\
    segments self = [mkSegment (0, 0, 0) (10, 10, 0); mkSegment (10, 10, 0) (10, 10, 0)]%float /\
    GcodeCommand.init Sample.platform "G1 X0 Y0 E1" =
      Ok (GcodeCommand.mk "G1" (Some 0%float) (Some 0%float) None (Some 1%float)
                          None None None None None) /\
    arc_end (mkManager 10 10 0 true []) (GcodeCommand.mk "G1" (Some 0%float) (Some 0%float)
                                           None (Some 1%float) None None None None None)
      = (0, 0, 0)%float.
Proof.
  exists (mkManager 10 10 0 true
            [mkSegment (0, 0, 0) (10, 10, 0); mkSegment (10, 10, 0) (10, 10, 0)]%float).
  split; [vm_compute; reflexivity |].
  split; [reflexivity |].
  split; [reflexivity |].
  split; vm_compute; reflexivity.
Qed.

(** C2: a G0/G1 command always advances the nozzle to the updated position;
    it appends nothing when a coordinate of that position is negative, and
    otherwise appends the one segment from the old to the new position
    exactly when E is present and positive and one of X, Y, Z is present. *)
Theorem linear_move_segment_rule (pf : Platform) (self : GcodeManager)
        (command : GcodeCommand.t) :
  GcodeCommand.type command = "G0"%string \/ GcodeCommand.type command = "G1"%string ->
  let old := position self in
  let new := position (fst (update_position self command)) in
  let is_negative :=
    let '(x, y, z) := new in
    ((x <? 0) = true \/ (y <? 0) = true \/ (z <? 0) = true)%float in
  let extrusion := exists e, GcodeCommand.E command = Some e /\ (0 <? e)%float = true in
  let movement :=
    GcodeCommand.X command <> None \/ GcodeCommand.Y command <> None
    \/ GcodeCommand.Z command <> None in
  exists self',
    dispatch pf self command = Ok self' /\
    position self' = new /\
    absolute_movement self' = absolute_movement self /\
    (is_negative -> segments self' = segments self) /\
    (~ is_negative ->
     (extrusion /\ movement -> segments self' = segments self ++ [mkSegment old new]) /\
     (~ (extrusion /\ movement) -> segments self' = segments self)).
Proof.
  intros Hty old new is_negative extrusion movement.
  assert (Hd : dispatch pf self command =
               let '(self1, moved) := update_position self command in
               match moved with
               | Some (old_pos, new_pos) => Ok (append_segments self1 [mkSegment old_pos new_pos])
               | None => Ok self1
               end).
  { unfold dispatch. destruct Hty as [-> | ->]; reflexivity. }
  rewrite Hd. clear Hd.
  assert (Hneg : negative new = true <-> is_negative).
  { subst is_negative. unfold negative. destruct new as [[x y] z].
    rewrite !orb_true_iff. tauto. }
  assert (Hext : extrudes command = true <-> extrusion).
  { subst extrusion. unfold extrudes. destruct (GcodeCommand.E command) as [e |].
    - split.
      + intros H. exists e. auto.
      + intros [e' [He H']]. injection He as <-. exact H'.
    - split; [discriminate | intros [e' [He _]]; discriminate]. }
  assert (Hmov : commands_axis command = true <-> movement).
  { subst movement. unfold commands_axis, Py.is_not_None.
    destruct (GcodeCommand.X command), (GcodeCommand.Y command), (GcodeCommand.Z command);
      simpl; split; intros H; try reflexivity; try discriminate;
      try (left; discriminate); try (right; left; discriminate);
      try (right; right; discriminate).
    destruct H as [H | [H | H]]; contradiction. }
  rewrite (update_position_cases self command). cbv zeta.
  fold new.
  clearbody is_negative extrusion movement.
  set (moved := fst (update_position self command)) in *.
  assert (Hnew : position moved = new) by reflexivity.
  assert (Hold : position self = old) by reflexivity.
  assert (Habs : absolute_movement moved = absolute_movement self).
  { subst moved. unfold update_position.
    repeat match goal with |- context [if ?b then _ else _] => destruct b end;
      reflexivity. }
  assert (Hseg : segments moved = segments self).
  { subst moved. unfold update_position.
    repeat match goal with |- context [if ?b then _ else _] => destruct b end;
      reflexivity. }
  clearbody new old moved.
  destruct (negative new) eqn:En.
  - exists moved.
    split; [reflexivity | split; [exact Hnew | split; [exact Habs | split]]].
    + intros _. exact Hseg.
    + intros H. exfalso. apply H, Hneg. reflexivity.
  - destruct (extrudes command && commands_axis command) eqn:Ee.
    + exists (append_segments moved [mkSegment (position self) new]).
      apply andb_true_iff in Ee as [E1 E2].
      split; [reflexivity | split; [| split; [exact Habs | split]]].
      * rewrite <- Hnew. reflexivity.
      * intros H. apply Hneg in H. discriminate.
      * intros _. rewrite Hold. cbn [append_segments segments]. rewrite Hseg.
        split; [reflexivity |].
        intros H. exfalso. apply H. split; [apply Hext | apply Hmov]; assumption.
    + exists moved.
      split; [reflexivity | split; [exact Hnew | split; [exact Habs | split]]].
      * intros _. exact Hseg.
      * intros _. split; [| intros _; exact Hseg].
        intros [H1 H2]. apply Hext in H1. apply Hmov in H2.
        rewrite H1, H2 in Ee. discriminate.
Qed.

Lemma linear_move_segment_rule_witness :
  exists self',
    dispatch Sample.platform initial
             (GcodeCommand.mk "G1" (Some 10%float) (Some 10%float) None (Some 1%float)
                              None None None None None) = Ok self' /\
    position self' = (10, 10, 0)%float /\
    segments self' = [mkSegment (0, 0, 0) (10, 10, 0)]%float.
Proof.
  destruct (linear_move_segment_rule Sample.platform initial
              (GcodeCommand.mk "G1" (Some 10%float) (Some 10%float) None (Some 1%float)
                               None None None None None) (or_intror eq_refl))
    as [self' [Hd [Hp [_ [_ Hs]]]]].
  exists self'. split; [exact Hd |]. split; [exact Hp |].
  apply Hs.
  - vm_compute. intros [H | [H | H]]; discriminate.
  - split.
    + exists 1%float. split; reflexivity.
    + left. discriminate.
Defined.

(** *** Comparisons of floats *)

Lemma SFcompare_antisym (x y : spec_float) :
  SFcompare y x = option_map CompOpp (SFcompare x y).
Proof.
  destruct x as [sx | sx | | sx mx ex], y as [sy | sy | | sy my ey];
    try reflexivity;
    try (destruct sx; reflexivity); try (destruct sy; reflexivity);
    try (destruct sx, sy; reflexivity).
  cbn [SFcompare option_map]. f_equal.
  rewrite (Z.compare_antisym ex ey).
  change (PosDef.Pos.compare_cont Eq my mx) with (Pos.compare my mx).
  change (PosDef.Pos.compare_cont Eq mx my) with (Pos.compare mx my).
  rewrite (Pos.compare_antisym mx my).
  destruct sx, sy; try reflexivity;
    destruct (ex ?= ey)%Z; cbn [CompOpp]; try reflexivity;
    destruct (Pos.compare mx my); reflexivity.
Qed.

(** [a <= b] excludes [b < a]. *)
Lemma leb_not_ltb (a b : float) : (a <=? b)%float = true -> (b <? a)%float = false.
Proof.
  rewrite leb_spec, ltb_spec. unfold SFleb, SFltb.
  rewrite (SFcompare_antisym (Prim2SF a) (Prim2SF b)).
  destruct (SFcompare (Prim2SF a) (Prim2SF b)) as [[ | | ] |]; cbn; congruence.
Qed.

(** *** Signs of floats: [int()] is the floor of an arc length *)








(** ** Arcs *)

Section Arcs.
Variable pf : Platform.
Local Open Scope float_scope.




Lemma process_arc_straight self command clockwise radius :
  negative (position self) = false ->
  arc_radius pf self command = Ok radius ->
  (radius <? 0.001) = true ->
  process_arc pf self command clockwise =
  Ok (set_position self (arc_end self command),
      if extrudes command then [(position self, arc_end self command)] else []).
Proof.
  intros Hneg Hrad Hsmall. unfold process_arc.
  destruct (arc_end self command) as [[end_x end_y] end_z].
  rewrite Hneg. destruct (arc_center self command) as [center_x center_y].
  rewrite Hrad. cbn [bind]. rewrite Hsmall. reflexivity.
Qed.

Lemma process_arc_subdivided self command clockwise radius n :
  negative (position self) = false ->
  arc_radius pf self command = Ok radius ->
  (radius <? 0.001) = false ->
  Py.int_of_float (PrimFloat.abs (arc_span pf self command clockwise) * radius / 1.0) = Ok n ->
  process_arc pf self command clockwise =
  Ok (set_position self (arc_end self command),
      if extrudes command then
        let num_segments := Z.max 4 n in
        arc_loop pf (Z.to_nat num_segments) 1 num_segments
                 (arc_start_angle pf self command) (arc_span pf self command clockwise)
                 radius
                 ((snd (arc_end self command) - nozzle_z self) / Py.float_of_int num_segments)
                 (nozzle_z self) (fst (arc_center self command)) (snd (arc_center self command))
                 (arc_end self command) (position self)
      else []).
Proof.
  intros Hneg Hrad Hbig Hint. unfold process_arc.
  destruct (arc_end self command) as [[end_x end_y] end_z] eqn:Eend.
  rewrite Hneg. destruct (arc_center self command) as [center_x center_y] eqn:Ecen.
  rewrite Hrad. cbn [bind]. rewrite Hbig. rewrite Hint. cbn [bind fst snd].
  replace (0 <? Z.max 4 n)%Z with true by (symmetry; apply Z.ltb_lt; lia).
  reflexivity.
Qed.
End Arcs.


(** C3 (the code departs from the claim): [process_arc] tests the position
    the nozzle starts from, not the end position it has computed.  From the
    origin, [G2 X-10 Y0 I-5 J0 E1] ends at (-10, 0, 0), a negative position,
    and still returns 15 sub-segments (the first of them from the origin);
    the nozzle does advance to the end position.  This holds on every
    platform whose [pow] gives 25 for the square of 5. *)
Theorem process_arc_negative_end_is_rendered (pf : Platform) :
  libm_pow pf 5 2 = (25%float, ENONE) ->
  let command :=
    GcodeCommand.mk "G2" (Some (-10)%float) (Some 0%float) None (Some 1%float) None
                    (Some (-5)%float) (Some 0%float) None None in
  arc_end initial command = (-10, 0, 0)%float /\
  negative (arc_end initial command) = true /\
  match process_arc pf initial command true with
  | Ok (self', segs) =>
      position self' = (-10, 0, 0)%float /\
      List.length segs = 15%nat /\
      option_map fst (hd_error segs) = Some (0, 0, 0)%float /\
      option_map snd (hd_error (rev segs)) = Some (-10, 0, 0)%float
  | Raise _ => False
  end.
Proof.
  intros Hpow command.
  assert (Hrad : arc_radius pf initial command = Ok 5%float)
    by (destruct pf; cbn [libm_pow] in Hpow; vm_compute; rewrite Hpow; reflexivity).
  split; [reflexivity |]. split; [reflexivity |].
  rewrite (process_arc_subdivided pf initial command true 5%float 15%Z);
    [| reflexivity | exact Hrad | reflexivity | vm_compute; reflexivity].
  vm_compute. repeat (split; [reflexivity |]). reflexivity.
Qed.

Lemma process_arc_negative_end_is_rendered_witness :
  let command :=
    GcodeCommand.mk "G2" (Some (-10)%float) (Some 0%float) None (Some 1%float) None
                    (Some (-5)%float) (Some 0%float) None None in
  arc_end initial command = (-10, 0, 0)%float /\
  negative (arc_end initial command) = true /\
  match process_arc Sample.platform initial command true with
  | Ok (self', segs) =>
      position self' = (-10, 0, 0)%float /\
      List.length segs = 15%nat /\
      option_map fst (hd_error segs) = Some (0, 0, 0)%float /\
      option_map snd (hd_error (rev segs)) = Some (-10, 0, 0)%float
  | Raise _ => False
  end.
Proof.
  apply (process_arc_negative_end_is_rendered Sample.platform). reflexivity.
Defined.

(** ** Totality of the interpreter *)

(** C6 (the code departs from the claim): a line that holds only white space
    is not skipped, its list of tokens is empty, and [split[0]] raises
    IndexError, which nothing catches: the whole parse is lost. *)
Theorem interpret_raises_on_blank_line (pf : Platform) :
  GcodeCommand.init pf " " = Raise IndexError /\
  interpret pf " " = Raise IndexError /\
  interpret Sample.platform ("G1 X10 Y10 E1" ++ LF ++ "  " ++ LF ++ "G1 X20 E1")
    = Raise IndexError.
Proof.
  split; [vm_compute; reflexivity |].
  split; vm_compute; reflexivity.
Qed.

(** ** Camera *)

(** C8 (the code departs from the claim): for the toolpath [G1 X1 E1] the
    bounds are the segment from the origin to (1, 0, 0); the camera distance
    is 1.5 and the camera rises 2 above the center, so the radicand is
    2.25 - 4 < 0.  [np.sqrt] gives NaN, the test [NaN <= 0] fails, the
    fallback to the camera distance is not taken and the position is NaN. *)
Theorem camera_position_nan_on_small_model :
  match interpret Sample.platform "G1 X1 E1" with
  | Ok (segs, Some b) =>
      segs = [mkSegment (0, 0, 0) (1, 0, 0)]%float /\
      b = mkBounds 0%float 1%float 0%float 0%float 0%float 0%float /\
      @camera_frame float (float_arith Sample.platform) b = Ok (0.5, 0, 0, 2, nan)%float /\
      @get_camera_position float (float_arith Sample.platform) (Some b) "NORTH_WEST" = Ok (nan, nan, 2%float) /\
      @get_camera_position float (float_arith Sample.platform) (Some b) "WEST" = Ok (nan, nan, 2%float)
  | _ => False
  end.
Proof.
  vm_compute. repeat (split; [reflexivity |]). reflexivity.
Qed.

(** ** Arc subdivision *)



(** The same arc on any platform whose [pow] gives 25 for the square of 5:
    the count and the exact last end do not depend on the rest of the C
    library. *)
Example arc_of_the_specification (pf : Platform) :
  libm_pow pf 5 2 = (25%float, ENONE) ->
  let command :=
    GcodeCommand.mk "G2" (Some 10%float) (Some 0%float) None (Some 1%float) None
                    (Some 5%float) (Some 0%float) None None in
  match process_arc pf initial command true with
  | Ok (self', segs) =>
      position self' = (10, 0, 0)%float /\
      List.length segs = 15%nat /\
      option_map snd (hd_error (rev segs)) = Some (10, 0, 0)%float
  | Raise _ => False
  end.
Proof.
  intros Hpow command.
  assert (Hrad : arc_radius pf initial command = Ok 5%float)
    by (destruct pf; cbn [libm_pow] in Hpow; vm_compute; rewrite Hpow; reflexivity).
  rewrite (process_arc_subdivided pf initial command true 5%float 15%Z);
    [| reflexivity | exact Hrad | reflexivity | vm_compute; reflexivity].
  vm_compute. repeat (split; [reflexivity |]). reflexivity.
Qed.

(** C10: from a position without a negative coordinate, a G2/G3 command
    whose arc arithmetic is defined leaves the nozzle at the computed end
    position, whether it extrudes or not; when E is absent or E <= 0 no
    segment is appended. *)
Theorem arc_advances_nozzle (pf : Platform) (self : GcodeManager)
        (command : GcodeCommand.t) (radius : float) :
  GcodeCommand.type command = "G2"%string \/ GcodeCommand.type command = "G3"%string ->
  negative (position self) = false ->
  arc_radius pf self command = Ok radius ->
  let clockwise := String.eqb (GcodeCommand.type command) "G2" in
  ((radius <? 0.001)%float = true \/
   exists n, Py.int_of_float
               (PrimFloat.abs (arc_span pf self command clockwise) * radius / 1.0)%float
             = Ok n) ->
  exists self',
    dispatch pf self command = Ok self' /\
    position self' = arc_end self command /\
    absolute_movement self' = absolute_movement self /\
    (GcodeCommand.E command = None \/
     (exists e, GcodeCommand.E command = Some e /\ (e <=? 0)%float = true) ->
     segments self' = segments self).
Proof.
  intros Hty Hneg Hrad clockwise Hdef.
  assert (Hd : dispatch pf self command =
               bind (process_arc pf self command clockwise)
                    (fun '(self1, arc_segments) =>
                       Ok (append_segments self1 (to_segments arc_segments)))).
  { unfold dispatch. subst clockwise. destruct Hty as [-> | ->]; reflexivity. }
  rewrite Hd. clear Hd.
  assert (Hno : GcodeCommand.E command = None \/
                (exists e, GcodeCommand.E command = Some e /\ (e <=? 0)%float = true) ->
                extrudes command = false).
  { unfold extrudes. intros [-> | [e [-> He]]]; [reflexivity |].
    apply leb_not_ltb, He. }
  assert (Hpos : forall segs,
             position (append_segments (set_position self (arc_end self command)) segs)
             = arc_end self command).
  { intros segs. destruct (arc_end self command) as [[x y] z]. reflexivity. }
  assert (Habs : forall segs,
             absolute_movement (append_segments (set_position self (arc_end self command)) segs)
             = absolute_movement self).
  { intros segs. destruct (arc_end self command) as [[x y] z]. reflexivity. }
  assert (Hseg : segments (append_segments (set_position self (arc_end self command)) [])
                 = segments self).
  { destruct (arc_end self command) as [[x y] z]. cbn. apply app_nil_r. }
  destruct (radius <? 0.001)%float eqn:Hsmall.
  - rewrite (process_arc_straight pf self command clockwise radius Hneg Hrad Hsmall).
    cbn [bind]. eexists. split; [reflexivity |].
    split; [apply Hpos | split; [apply Habs |]].
    intros H. rewrite (Hno H). exact Hseg.
  - destruct Hdef as [Hc | [n Hint]]; [discriminate |].
    rewrite (process_arc_subdivided pf self command clockwise radius n Hneg Hrad Hsmall Hint).
    cbn [bind]. eexists. split; [reflexivity |].
    split; [apply Hpos | split; [apply Habs |]].
    intros H. rewrite (Hno H). exact Hseg.
Qed.

Lemma arc_advances_nozzle_witness :
  exists self',
    dispatch Sample.platform initial
             (GcodeCommand.mk "G3" (Some 10%float) (Some 0%float) None None None
                              (Some 5%float) (Some 0%float) None None) = Ok self' /\
    position self' = (10, 0, 0)%float /\
    segments self' = [].
Proof.
  destruct (arc_advances_nozzle Sample.platform initial
              (GcodeCommand.mk "G3" (Some 10%float) (Some 0%float) None None None
                               (Some 5%float) (Some 0%float) None None) 5%float)
    as [self' [Hrun [Hpos [_ Hseg]]]].
  - right. reflexivity.
  - vm_compute. reflexivity.
  - vm_compute. reflexivity.
  - right. exists 15%Z. vm_compute. reflexivity.
  - exists self'. split; [exact Hrun |]. split; [exact Hpos |].
    apply Hseg. left. reflexivity.
Defined.

(** ** Tube mesh *)

Section MeshFacts.
Context {T : Type} {A : Arith T}.

(** The twelve triangles write all 36 rows of both arrays. *)
Lemma get_segment_vertices_fills (segment : Segment) (width height : T) :
  exists vertices normals,
    get_segment_vertices segment width height = Ok (vertices, normals) /\
    List.length vertices = 36%nat /\ List.length normals = 36%nat /\
    Forall written vertices /\ Forall written normals.
Proof.
  unfold get_segment_vertices.
  cbv beta iota zeta delta [add_triangle set_row np_empty repeat bind Nat.add
                            TOP RIGHT BOTTOM LEFT].
  eexists. eexists. split; [reflexivity |].
  split; [reflexivity |]. split; [reflexivity |].
  split; repeat (constructor; [discriminate |]); constructor.
Qed.

Lemma mesh_of_fills (segment : Segment) :
  get_segment_vertices segment (lit 0.3%float) (lit 0.3%float) = Ok (mesh_of segment) /\
  List.length (fst (mesh_of segment)) = 36%nat /\
  List.length (snd (mesh_of segment)) = 36%nat /\
  Forall written (fst (mesh_of segment)) /\ Forall written (snd (mesh_of segment)).
Proof.
  unfold mesh_of.
  destruct (get_segment_vertices_fills segment (lit 0.3%float) (lit 0.3%float))
    as [vs [ns [-> H]]].
  split; [reflexivity | exact H].
Qed.

Lemma starmap_results (i : nat) (l : list Segment) :
  starmap (worker_args_from i l) = Ok (results_from i l).
Proof.
  revert i.
  induction l as [| segment rest IH]; intros i; cbn [worker_args_from starmap results_from].
  - reflexivity.
  - unfold _process_segment_worker.
    destruct (mesh_of_fills segment) as [-> _].
    destruct (mesh_of segment) as [vs ns]. cbn [bind fst snd].
    rewrite IH. reflexivity.
Qed.

Lemma set_slice_next (pre block : rows T) (m : nat) :
  List.length block = 36%nat ->
  set_slice (pre ++ np_empty (S m * 36)) (List.length pre) (List.length pre + 36) block
  = Ok ((pre ++ block) ++ np_empty (m * 36)).
Proof.
  intros Hb. unfold set_slice, np_empty.
  rewrite length_app, repeat_length, Hb.
  replace (List.length pre + 36 <=? List.length pre + S m * 36)%nat with true
    by (symmetry; apply Nat.leb_le; lia).
  rewrite Nat.eqb_refl. cbn [andb]. f_equal.
  rewrite firstn_app, firstn_all, Nat.sub_diag, firstn_O, app_nil_r.
  rewrite skipn_app, skipn_all2 by lia. cbn [app].
  replace (List.length pre + 36 - List.length pre)%nat with 36%nat by lia.
  replace (S m * 36)%nat with (36 + m * 36)%nat by lia.
  rewrite repeat_app, skipn_app, repeat_length, Nat.sub_diag.
  rewrite skipn_all2 by (rewrite repeat_length; lia).
  cbn [skipn app]. rewrite <- app_assoc. reflexivity.
Qed.

Lemma scatter_results (l : list Segment) (i : nat) (pre_v pre_n : rows T) :
  List.length pre_v = (i * 36)%nat -> List.length pre_n = (i * 36)%nat ->
  scatter (results_from i l) 36
          (pre_v ++ np_empty (List.length l * 36), pre_n ++ np_empty (List.length l * 36))
  = Ok (pre_v ++ List.concat (map (fun s => fst (mesh_of s)) l),
        pre_n ++ List.concat (map (fun s => snd (mesh_of s)) l)).
Proof.
  revert i pre_v pre_n.
  induction l as [| segment rest IH]; intros i pre_v pre_n Hv Hn.
  - cbn. reflexivity.
  - cbn [results_from scatter List.length map List.concat].
    destruct (mesh_of_fills segment) as [_ [Lv [Ln _]]].
    rewrite <- Hv at 1 2. rewrite set_slice_next by exact Lv. cbn [bind].
    rewrite <- Hn at 1 2. rewrite set_slice_next by exact Ln. cbn [bind].
    rewrite (IH (S i)) by (rewrite length_app; lia).
    rewrite <- !app_assoc. reflexivity.
Qed.

Lemma interleave_length (va na : rows T) :
  List.length va = List.length na ->
  List.length (interleave va na) = (6 * List.length va)%nat.
Proof.
  revert na. induction va as [| v va IH]; intros [| n na] H; try discriminate.
  - reflexivity.
  - unfold interleave in *. cbn [combine flat_map]. injection H as H.
    rewrite !length_app, (IH na H).
    destruct v as [[[x y] z] |], n as [[[x' y'] z'] |]; cbn; lia.
Qed.

Lemma interleave_written (va na : rows T) :
  Forall written va -> Forall written na -> Forall written (interleave va na).
Proof.
  intros Hv. revert na. induction Hv as [| v va Hw Hv IH]; intros na Hn.
  - constructor.
  - destruct Hn as [| n na Hw' Hn]; [constructor |].
    unfold interleave in *. cbn [combine flat_map].
    destruct v as [[[x y] z] |]; [| contradiction Hw; reflexivity].
    destruct n as [[[x' y'] z'] |]; [| contradiction Hw'; reflexivity].
    cbn [row_values app].
    repeat (constructor; [discriminate |]). apply IH, Hn.
Qed.

Lemma concat_length_36 (f : Segment -> rows T) (l : list Segment) :
  (forall s, List.length (f s) = 36%nat) ->
  List.length (List.concat (map f l)) = (List.length l * 36)%nat.
Proof.
  intros H. induction l as [| s l IH]; cbn [map List.concat List.length].
  - reflexivity.
  - rewrite length_app, H, IH. lia.
Qed.

Lemma concat_written (f : Segment -> rows T) (l : list Segment) :
  (forall s, Forall written (f s)) -> Forall written (List.concat (map f l)).
Proof.
  intros H. induction l as [| s l IH]; cbn [map List.concat].
  - constructor.
  - apply Forall_app. split; [apply H | exact IH].
Qed.

(** When the grid is built, the cached buffer holds 36 rows of six numbers
    for every segment, all of them written. *)
Lemma prepare_geometry_fills (gm : GcodeManager) (bed : PrinterInfo)
      (grid : list number) :
  get_grid_vertex_list bed 10 = Ok grid ->
  exists data,
    _prepare_geometry (mkRenderer gm bed None None None)
    = Ok (mkRenderer gm bed (Some data) (Some grid)
                     (option_map map_bounds (get_bounds gm))) /\
    List.length data = (6 * (36 * List.length (segments gm)))%nat /\
    Forall written data.
Proof.
  intros Hgrid.
  unfold _prepare_geometry. cbn [_vertex_data gcode_manager printer_info]. cbv zeta.
  rewrite Hgrid. cbn [bind].
  rewrite starmap_results. cbn [bind].
  pose proof (scatter_results (segments gm) 0 [] [] eq_refl eq_refl) as Hs.
  cbn [app] in Hs. unfold rows in *.
  eexists. split; [rewrite Hs; cbn [bind]; reflexivity |]. split.
  - rewrite interleave_length.
    + rewrite concat_length_36 by (intros s; apply mesh_of_fills). lia.
    + rewrite !concat_length_36 by (intros s; apply mesh_of_fills). reflexivity.
  - apply interleave_written; apply concat_written; intros s; apply mesh_of_fills.
Qed.

(** The one exception of [_prepare_geometry] is the exception of the grid. *)
Lemma prepare_geometry_raises (gm : GcodeManager) (bed : PrinterInfo) (e : exn) :
  get_grid_vertex_list bed 10 = Raise e ->
  _prepare_geometry (mkRenderer gm bed None None None) = Raise e.
Proof.
  intros Hgrid.
  unfold _prepare_geometry. cbn [_vertex_data gcode_manager printer_info]. cbv zeta.
  rewrite Hgrid. reflexivity.
Qed.
End MeshFacts.

(** *** Degenerate geometry in binary32 *)

Section Degenerate.
Variable pf : Platform.
Local Open Scope float_scope.











(** A direction along the up vector gets the right vector +X. *)
Lemma segment_right_vertical :
  @segment_right float (float_arith pf) (0, 0, 1) = (1, 0, 0) /\
  @segment_right float (float_arith pf) (0, 0, -1) = (1, 0, 0).
Proof. split; vm_compute; reflexivity. Qed.





End Degenerate.


(** ** Empty toolpaths *)

Section EmptyToolpath.
Context {T : Type} {A : Arith T} {Image Png : Type}.
Variable pf : Platform.
Variable gl : Graphics T Image.
Variable encode_png : Image -> result Png.
Variable upload_png_to_fileserver : Png -> nat -> string -> bool.

Lemma get_bounds_empty (gm : GcodeManager) :
  segments gm = [] -> get_bounds gm = None.
Proof. unfold get_bounds. intros ->. reflexivity. Qed.

Lemma get_bounds_nonempty (gm : GcodeManager) :
  segments gm <> [] -> get_bounds gm <> None.
Proof. unfold get_bounds. destruct (segments gm); [contradiction | discriminate]. Qed.

(** What [Renderer.__init__] leaves in the renderer. *)
Lemma Renderer_init_fields (gcode_content : string) (bed : PrinterInfo) (r : Renderer T) :
  Renderer_init pf gcode_content bed = Ok r ->
  parse_gcode pf gcode_content = Ok (gcode_manager r) /\
  _vertex_data r <> None /\
  _bounds r = option_map map_bounds (get_bounds (gcode_manager r)).
Proof.
  unfold Renderer_init.
  destruct (parse_gcode pf gcode_content) as [gm | e]; [| discriminate].
  cbn [bind]. destruct (get_grid_vertex_list bed 10) as [grid | e] eqn:Eg.
  - destruct (prepare_geometry_fills gm bed grid Eg) as [data [-> _]].
    intros [= <-]. cbn. split; [reflexivity |]. split; [discriminate | reflexivity].
  - rewrite (prepare_geometry_raises gm bed e Eg). discriminate.
Qed.

(** Without bounds, [render_view] raises: whatever the graphics library
    does, [get_camera_position] subscripts [None]. *)
Lemma render_view_without_bounds (r : Renderer T) (view : string) (w h : BinNums.Z) :
  _vertex_data r <> None -> _bounds r = None ->
  exists e, render_view gl r view w h = Raise e.
Proof.
  intros Hd Hb. unfold render_view, _prepare_geometry.
  destruct (_vertex_data r) as [d |] eqn:Ed; [| contradiction].
  cbn [bind]. rewrite Ed. cbn [bind].
  destruct (gl_prepare gl w h (_grid_vertex_list r) d) as [[] | e]; cbn [bind].
  - rewrite Hb. cbn. exists TypeError. reflexivity.
  - exists e. reflexivity.
Qed.

Lemma render_views_all_raise (r : Renderer T) (vs : list string) (i count : nat)
      (log : list view_report) :
  _vertex_data r <> None -> _bounds r = None ->
  exists log',
    render_views gl encode_png upload_png_to_fileserver r i vs count log
    = (count, log ++ log') /\
    List.length log' = List.length vs /\ Forall is_view_error log'.
Proof.
  intros Hd Hb. revert i log.
  induction vs as [| view rest IH]; intros i log; cbn [render_views].
  - exists []. rewrite app_nil_r. split; [reflexivity |]. split; [reflexivity | constructor].
  - destruct (render_view_without_bounds r view width height Hd Hb) as [e ->].
    destruct (IH (S i) (log ++ [ViewError i view e])) as [log' [-> [Hl Hf]]].
    exists (ViewError i view e :: log'). rewrite <- app_assoc.
    split; [reflexivity |]. split; [cbn; rewrite Hl; reflexivity |].
    constructor; [exact I | exact Hf].
Qed.
End EmptyToolpath.

(** C7 fails as stated: for the empty text the renderer is built, there are
    no segments and no bounds, and [render_view] raises TypeError even when
    every call of the graphics library succeeds. *)
Lemma render_view_raises_on_empty_toolpath :
  exists r : Renderer float,
    Renderer_init (A := float_arith Sample.platform) Sample.platform ""
                  DEFAULT_PRINTER_INFO = Ok r /\
    segments (gcode_manager r) = [] /\
    _bounds r = None /\
    render_view (A := float_arith Sample.platform) ideal_graphics r "NORTH_WEST"
                width height = Raise TypeError.
Proof.
  eexists. split; [vm_compute; reflexivity |].
  split; [reflexivity |]. split; [reflexivity |].
  vm_compute. reflexivity.
Qed.

(** C7, amended: when no segment was produced the bounds are absent;
    [render_view] then raises for every view (it is not skipped), and
    [render_gcode] catches and logs the error of each of the eight views and
    returns False. *)
Theorem empty_toolpath_fails_every_view
        (T : Type) (A : Arith T) (Image Png : Type) (pf : Platform)
        (gl : Graphics T Image) (encode_png : Image -> result Png)
        (upload_png_to_fileserver : Png -> nat -> string -> bool)
        (gcode_content : string) (bed : PrinterInfo) (r : Renderer T) :
  Renderer_init pf gcode_content bed = Ok r ->
  segments (gcode_manager r) = [] ->
  get_bounds (gcode_manager r) = None /\
  _bounds r = None /\
  (forall view w h, exists e, render_view gl r view w h = Raise e) /\
  exists log,
    render_gcode pf gl encode_png upload_png_to_fileserver gcode_content bed
    = (false, log) /\
    List.length log = 8%nat /\
    Forall is_view_error log.
Proof.
  intros Hinit Hseg.
  destruct (Renderer_init_fields pf gcode_content bed r Hinit) as [_ [Hd Hb]].
  pose proof (get_bounds_empty (gcode_manager r) Hseg) as Hnone.
  rewrite Hnone in Hb. cbn in Hb.
  split; [exact Hnone |]. split; [exact Hb |].
  split; [intros view w h; apply render_view_without_bounds; assumption |].
  unfold render_gcode. rewrite Hinit.
  destruct (render_views_all_raise gl encode_png upload_png_to_fileserver r views 0 0 [] Hd Hb)
    as [log [-> [Hl Hf]]].
  exists log. cbn. split; [reflexivity |]. split; assumption.
Qed.

Lemma empty_toolpath_fails_every_view_witness :
  exists log,
    render_gcode (A := float_arith Sample.platform) Sample.platform ideal_graphics
                 (fun img => Ok img) (fun _ _ _ => true) "G1 X10 Y10" DEFAULT_PRINTER_INFO
    = (false, log) /\ List.length log = 8%nat.
Proof.
  destruct (empty_toolpath_fails_every_view float (float_arith Sample.platform) unit unit
              Sample.platform ideal_graphics (fun img => Ok img) (fun _ _ _ => true)
              "G1 X10 Y10" DEFAULT_PRINTER_INFO
              (mkRenderer (mkManager 10 10 0 true []) DEFAULT_PRINTER_INFO (Some [])
                          (match get_grid_vertex_list DEFAULT_PRINTER_INFO 10 with
                           | Ok grid => Some grid
                           | Raise _ => None
                           end)
                          None))
    as [_ [_ [_ [log [Hrun [Hlen _]]]]]].
  - vm_compute. reflexivity.
  - reflexivity.
  - exists log. split; assumption.
Defined.

(** ** Camera positions in exact arithmetic *)

Section RealCamera.
Local Open Scope R_scope.

Ltac literal :=
  unfold float_to_R;
  match goal with
  | |- context [Prim2SF ?v] =>
      let sf := eval vm_compute in (Prim2SF v) in change (Prim2SF v) with sf
  end;
  cbv iota beta;
  match goal with
  | |- context [(0 <=? ?e)%Z] =>
      let b := eval vm_compute in (0 <=? e)%Z in change (0 <=? e)%Z with b
  end;
  cbv iota;
  repeat match goal with
         | |- context [IZR ?z] =>
             progress (let z' := eval vm_compute in z in change (IZR z) with (IZR z'))
         end;
  lra.

Lemma lit_zero : float_to_R 0 = 0.
Proof. reflexivity. Qed.
Lemma lit_one : float_to_R 1 = 1.
Proof. literal. Qed.
Lemma lit_two : float_to_R 2 = 2.
Proof. literal. Qed.
Lemma lit_half : float_to_R 0.5 = / 2.
Proof. literal. Qed.
Lemma lit_three_halves : float_to_R 1.5 = 3 / 2.
Proof. literal. Qed.

Lemma Rltb_Rmax (a b : R) : (if Rltb a b then b else a) = Rmax a b.
Proof.
  unfold Rltb, Rmax. destruct (Rlt_dec a b), (Rle_dec a b); lra.
Qed.

(** In exact arithmetic the frame is always computed. *)
Lemma camera_frame_real (b : Bounds R) :
  exists horizontal_distance,
    @camera_frame R real_arith b =
    Ok ((min_x b + max_x b) / 2, (min_y b + max_y b) / 2, (min_z b + max_z b) / 2,
        max_z b + min_height_offset b, horizontal_distance).
Proof.
  unfold camera_frame, max3, min_height_offset.
  cbn [lit n_add n_sub n_mul n_div n_sqrt n_ltb n_leb py_pow2 real_arith bind fst snd].
  rewrite lit_two, lit_half, lit_one, lit_three_halves.
  set (d := sqrt _).
  rewrite <- (Rltb_Rmax (d * / 2) ((max_z b - min_z b) * 1)).
  rewrite <- (Rltb_Rmax _ 2).
  destruct (Rltb (d * / 2) ((max_z b - min_z b) * 1));
    cbn [fst snd];
    match goal with |- context [Rltb ?x 2] => destruct (Rltb x 2) end;
    cbn [fst snd bind]; eexists; reflexivity.
Qed.

Lemma sqrt2_inv_square : (1 / sqrt 2) * (1 / sqrt 2) = / 2.
Proof.
  assert (H : sqrt 2 * sqrt 2 = 2) by (apply sqrt_def; lra).
  assert (H0 : sqrt 2 <> 0).
  { intros E. rewrite E in H. lra. }
  replace (1 / sqrt 2 * (1 / sqrt 2)) with (/ (sqrt 2 * sqrt 2)) by (field; exact H0).
  rewrite H. reflexivity.
Qed.

(** Every view direction has length one. *)
Lemma view_direction_unit (view : string) :
  In view views ->
  exists d0 d1,
    @view_direction R real_arith (1 / sqrt 2) view = Ok (d0, d1, 0) /\
    d0 * d0 + d1 * d1 = 1.
Proof.
  pose proof sqrt2_inv_square as Hs.
  set (s := 1 / sqrt 2) in *.
  intros Hin. unfold views in Hin. cbn [In] in Hin.
  repeat (destruct Hin as [<- | Hin]); [.. | contradiction];
    unfold view_direction; cbn [String.eqb Ascii.eqb Bool.eqb f32 n_opp lit real_arith];
    rewrite ?lit_zero, ?lit_one;
    eexists; eexists; (split; [reflexivity |]); try lra.
  all: try (replace (s * s + s * s) with (2 * (s * s)) by ring; rewrite Hs; lra).
  all: try (replace (- s * - s + s * s) with (2 * (s * s)) by ring; rewrite Hs; lra).
  all: try (replace (- s * - s + - s * - s) with (2 * (s * s)) by ring; rewrite Hs; lra).
  all: try (replace (s * s + - s * - s) with (2 * (s * s)) by ring; rewrite Hs; lra).
Qed.

Lemma camera_position_real (b : Bounds R) (horizontal_distance : R) (view : string) :
  @camera_frame R real_arith b =
    Ok ((min_x b + max_x b) / 2, (min_y b + max_y b) / 2, (min_z b + max_z b) / 2,
        max_z b + min_height_offset b, horizontal_distance) ->
  In view views ->
  exists x y,
    @get_camera_position R real_arith (Some b) view
      = Ok (x, y, max_z b + min_height_offset b) /\
    sqrt ((x - (min_x b + max_x b) / 2) * (x - (min_x b + max_x b) / 2)
          + (y - (min_y b + max_y b) / 2) * (y - (min_y b + max_y b) / 2))
    = Rabs horizontal_distance.
Proof.
  intros Hf Hin. unfold get_camera_position. rewrite Hf. cbn [bind].
  cbn [lit n_div n_sqrt real_arith]. rewrite lit_one, lit_two.
  destruct (view_direction_unit view Hin) as [d0 [d1 [-> Hd]]].
  cbn [bind f32 n_add n_mul real_arith].
  eexists. eexists. split; [reflexivity |].
  rewrite <- sqrt_Rsqr_abs. f_equal. unfold Rsqr.
  set (cx := (min_x b + max_x b) / 2). set (cy := (min_y b + max_y b) / 2).
  replace ((cx + d0 * horizontal_distance - cx) * (cx + d0 * horizontal_distance - cx)
           + (cy + d1 * horizontal_distance - cy) * (cy + d1 * horizontal_distance - cy))
    with ((d0 * d0 + d1 * d1) * (horizontal_distance * horizontal_distance)) by ring.
  rewrite Hd. ring.
Qed.
End RealCamera.

(** The camera height does not depend on the view, at any arithmetic. *)
Lemma camera_height_same_for_all_views (T : Type) (A : Arith T) (b : Bounds T)
      (view1 view2 : string) (p1 p2 : vec3 T) :
  get_camera_position (Some b) view1 = Ok p1 ->
  get_camera_position (Some b) view2 = Ok p2 ->
  snd p1 = snd p2.
Proof.
  unfold get_camera_position.
  destruct (camera_frame b) as [[[[[cx cy] cz] h] hd] | e]; [| discriminate].
  cbn [bind].
  destruct (view_direction _ view1) as [[[a0 a1] a2] | e1]; [| discriminate].
  destruct (view_direction _ view2) as [[[b0 b1] b2] | e2]; [| discriminate].
  cbn [bind]. intros [= <-] [= <-]. reflexivity.
Qed.



(** * Further properties of the interpreter *)

Section InterpreterFacts.
Variable pf : Platform.

Lemma update_position_segments (self : GcodeManager) (command : GcodeCommand.t) :
  segments (fst (update_position self command)) = segments self /\
  absolute_movement (fst (update_position self command)) = absolute_movement self.
Proof.
  unfold update_position.
  repeat match goal with |- context [if ?b then _ else _] => destruct b end;
    split; reflexivity.
Qed.

Lemma set_position_fields (self : GcodeManager) (p : vec3 float) :
  segments (set_position self p) = segments self /\
  absolute_movement (set_position self p) = absolute_movement self /\
  position (set_position self p) = p.
Proof. destruct p as [[x y] z]. repeat split. Qed.

(** [process_arc] leaves the recorded segments and the mode as they are and
    moves the nozzle to the end position. *)
Lemma process_arc_frame (self self' : GcodeManager) (command : GcodeCommand.t)
      (clockwise : bool) (segs : list (vec3 float * vec3 float)) :
  process_arc pf self command clockwise = Ok (self', segs) ->
  self' = set_position self (arc_end self command).
Proof.
  unfold process_arc.
  destruct (arc_end self command) as [[end_x end_y] end_z].
  destruct (negative (position self)); [intros [= <- _]; reflexivity |].
  destruct (arc_center self command) as [center_x center_y].
  destruct (arc_radius pf self command) as [radius | e]; [| discriminate].
  cbn [bind]. destruct (radius <? 0.001)%float; [intros [= <- _]; reflexivity |].
  destruct (Py.int_of_float _) as [n | e]; [| discriminate].
  cbn [bind]. intros [= <- _]. reflexivity.
Qed.

Lemma dispatch_extends (self self' : GcodeManager) (command : GcodeCommand.t) :
  dispatch pf self command = Ok self' ->
  exists added, segments self' = segments self ++ added.
Proof.
  unfold dispatch.
  repeat match goal with
         | |- context [if ?b then _ else _] => destruct b
         end;
    try (intros [= <-]; exists []; rewrite app_nil_r; reflexivity).
  - pose proof (update_position_segments self command) as [Hs _].
    destruct (update_position self command) as [self1 [[old_pos new_pos] |]];
      cbn [fst] in Hs; intros [= <-].
    + exists [mkSegment old_pos new_pos]. cbn. rewrite Hs. reflexivity.
    + exists []. rewrite app_nil_r. exact Hs.
  - destruct (process_arc pf self command true) as [[self1 segs] | e] eqn:Ep; [| discriminate].
    cbn [bind]. intros [= <-]. apply process_arc_frame in Ep. subst self1.
    exists (to_segments segs). cbn.
    destruct (set_position_fields self (arc_end self command)) as [-> _]. reflexivity.
  - destruct (process_arc pf self command false) as [[self1 segs] | e] eqn:Ep; [| discriminate].
    cbn [bind]. intros [= <-]. apply process_arc_frame in Ep. subst self1.
    exists (to_segments segs). cbn.
    destruct (set_position_fields self (arc_end self command)) as [-> _]. reflexivity.
Qed.

Lemma parse_line_extends (self self' : GcodeManager) (line : string) :
  parse_line pf self line = Ok self' ->
  exists added, segments self' = segments self ++ added.
Proof.
  unfold parse_line.
  destruct (_ || _).
  - intros [= <-]. exists []. rewrite app_nil_r. reflexivity.
  - destruct (GcodeCommand.init pf line) as [command | e]; [| discriminate].
    cbn [bind]. apply dispatch_extends.
Qed.
End InterpreterFacts.

(** X1: the list of segments only grows: whatever lines are parsed, the
    segments recorded before them are kept, in order, at the front. *)
Theorem segments_are_append_only (pf : Platform) (lines : list string)
        (self self' : GcodeManager) :
  parse_lines pf self lines = Ok self' ->
  exists added, segments self' = segments self ++ added.
Proof.
  revert self. induction lines as [| line rest IH]; intros self; cbn [parse_lines].
  - intros [= <-]. exists []. rewrite app_nil_r. reflexivity.
  - destruct (parse_line pf self line) as [self1 |] eqn:E1; [| discriminate].
    cbn [bind]. intros H. apply IH in H as [added2 H2].
    apply parse_line_extends in E1 as [added1 H1].
    exists (added1 ++ added2). rewrite H2, H1, app_assoc. reflexivity.
Qed.

Lemma segments_are_append_only_witness :
  exists added,
    segments (mkManager 15 10 0 false
                [mkSegment (0, 0, 0) (10, 10, 0); mkSegment (10, 10, 0) (15, 10, 0)]%float)
    = [mkSegment (0, 0, 0) (10, 10, 0)]%float ++ added.
Proof.
  apply (segments_are_append_only Sample.platform ["G91"; "G1 X5 E1"]%string
           (mkManager 10 10 0 true [mkSegment (0, 0, 0) (10, 10, 0)]%float)).
  vm_compute. reflexivity.
Defined.

(** X2: the fields F, K and R of a command have no effect on what the
    interpreter does with it: a feed rate, a Z offset of the arc center and
    an arc radius are parsed and then ignored. *)
Theorem dispatch_ignores_F_K_R (pf : Platform) (self : GcodeManager)
        (command : GcodeCommand.t) (f k r : option float) :
  dispatch pf self
           (GcodeCommand.mk (GcodeCommand.type command)
              (GcodeCommand.X command) (GcodeCommand.Y command) (GcodeCommand.Z command)
              (GcodeCommand.E command) f
              (GcodeCommand.I command) (GcodeCommand.J command) k r)
  = dispatch pf self command.
Proof.
  destruct command as [ty x y z e f0 i j k0 r0]. reflexivity.
Qed.

(** X3: a command whose type is none of G0, G1, G2, G3 neither moves the
    nozzle nor records a segment; G90 and G91 set the mode, every other such
    command (G92 and unknown tokens alike) leaves the whole state as it is. *)
Theorem other_commands_do_not_move (pf : Platform) (self : GcodeManager)
        (command : GcodeCommand.t) :
  let ty := GcodeCommand.type command in
  ty <> "G0"%string -> ty <> "G1"%string -> ty <> "G2"%string -> ty <> "G3"%string ->
  exists self',
    dispatch pf self command = Ok self' /\
    position self' = position self /\
    segments self' = segments self /\
    absolute_movement self' =
      (if String.eqb ty "G90" then true
       else if String.eqb ty "G91" then false
       else absolute_movement self) /\
    (ty <> "G90"%string -> ty <> "G91"%string -> self' = self).
Proof.
  intros ty H0 H1 H2 H3. unfold dispatch. fold ty.
  apply String.eqb_neq in H0, H1, H2, H3. rewrite H0, H1, H2, H3. cbn [orb].
  destruct (String.eqb ty ";") eqn:Es.
  - apply String.eqb_eq in Es. rewrite Es. cbn.
    exists self. repeat split.
  - destruct (String.eqb ty "G90") eqn:E90.
    + eexists. split; [reflexivity |]. repeat split.
      intros H. apply String.eqb_eq in E90. contradiction.
    + destruct (String.eqb ty "G91") eqn:E91.
      * eexists. split; [reflexivity |]. repeat split.
        intros _ H. apply String.eqb_eq in E91. contradiction.
      * destruct (String.eqb ty "G92"); exists self; repeat split.
Qed.

Lemma other_commands_do_not_move_witness :
  exists self',
    dispatch Sample.platform (mkManager 3 4 5 true [])
             (GcodeCommand.mk "G92" None None None (Some 0%float) None None None None None)
    = Ok self' /\
    position self' = (3, 4, 5)%float.
Proof.
  destruct (other_commands_do_not_move Sample.platform (mkManager 3 4 5 true [])
              (GcodeCommand.mk "G92" None None None (Some 0%float) None None None None None))
    as [self' [Hrun [Hpos _]]]; try discriminate.
  exists self'. split; assumption.
Defined.

Section ParserFacts.
Variable pf : Platform.

Lemma assign_type (self self' : GcodeCommand.t) (param : string) :
  GcodeCommand.assign pf self param = Ok self' ->
  GcodeCommand.type self' = GcodeCommand.type self.
Proof.
  unfold GcodeCommand.assign.
  repeat match goal with
         | |- context [if ?b then _ else _] => destruct b
         end;
    try (destruct (GcodeCommand.value_of pf param) as [v | e]; [| discriminate];
         cbn [bind]; intros [= <-]; reflexivity).
  intros [= <-]. reflexivity.
Qed.

Lemma params_type (self : GcodeCommand.t) (rest : list string) :
  GcodeCommand.type (GcodeCommand.params pf self rest) = GcodeCommand.type self.
Proof.
  revert self. induction rest as [| param rest IH]; intros self; cbn [GcodeCommand.params].
  - reflexivity.
  - destruct (Str.startswith param ";"); [reflexivity |].
    rewrite IH.
    destruct (GcodeCommand.assign pf self _) as [self' | e] eqn:Ea; [| reflexivity].
    apply (assign_type _ _ _ Ea).
Qed.

(** The type of a command is the first token of its line. *)
Lemma init_type (line ty : string) (rest : list string) :
  Str.split line = ty :: rest ->
  exists command,
    GcodeCommand.init pf line = Ok command /\ GcodeCommand.type command = ty.
Proof.
  intros Hs. unfold GcodeCommand.init. rewrite Hs.
  eexists. split; [reflexivity |]. apply params_type.
Qed.

Lemma dispatch_without_arc (self : GcodeManager) (command : GcodeCommand.t) :
  String.eqb (GcodeCommand.type command) "G2" = false ->
  String.eqb (GcodeCommand.type command) "G3" = false ->
  exists self', dispatch pf self command = Ok self'.
Proof.
  intros H2 H3. unfold dispatch. rewrite H2, H3.
  repeat match goal with
         | |- context [if ?b then _ else _] => destruct b
         end;
    try (eexists; reflexivity).
  destruct (update_position self command) as [self1 [[old_pos new_pos] |]];
    eexists; reflexivity.
Qed.

Lemma parse_line_without_arc (self : GcodeManager) (line : string) :
  line_without_arc line = true -> exists self', parse_line pf self line = Ok self'.
Proof.
  unfold line_without_arc, parse_line.
  destruct (_ || Str.startswith line ";") eqn:Eskip.
  - intros _. exists self. reflexivity.
  - cbn [orb]. destruct (Str.split line) as [| ty rest] eqn:Es; [discriminate |].
    intros H. apply andb_true_iff in H as [H2 H3].
    apply negb_true_iff in H2, H3.
    destruct (init_type line ty rest Es) as [command [-> Hty]]. cbn [bind].
    apply dispatch_without_arc; rewrite Hty; assumption.
Qed.
End ParserFacts.

(** X4: a text is parsed to the end, without an exception, when none of its
    lines consists of white space only and none is an arc command: every
    other line, with whatever tokens and malformed numbers, is handled. *)
Theorem parse_gcode_returns_without_arcs (pf : Platform) (gcode_content : string) :
  forallb line_without_arc (Str.splitlines gcode_content) = true ->
  exists self, parse_gcode pf gcode_content = Ok self.
Proof.
  unfold parse_gcode. generalize initial as self.
  induction (Str.splitlines gcode_content) as [| line rest IH]; intros self H;
    cbn [parse_lines forallb] in *.
  - exists self. reflexivity.
  - apply andb_true_iff in H as [Hl Hr].
    destruct (parse_line_without_arc pf self line Hl) as [self1 ->]. cbn [bind].
    apply IH, Hr.
Qed.

Lemma parse_gcode_returns_without_arcs_witness :
  exists self,
    parse_gcode Sample.platform
      ("; header" ++ LF ++ "M104 S2x0" ++ LF ++ LF ++ "G1 X1O Y7 E1 ; move" ++ LF ++ "T0")
    = Ok self.
Proof.
  apply (parse_gcode_returns_without_arcs Sample.platform). vm_compute. reflexivity.
Defined.

(** ** Comments *)

Section CommentFacts.
Variable pf : Platform.

Lemma split_from_space (a b : string) (cur : list ascii) :
  Str.split_from (a ++ String " " b) cur = Str.split_from a cur ++ Str.split_from b [].
Proof.
  revert cur. induction a as [| c a IH]; intros cur.
  - cbn. destruct cur; reflexivity.
  - cbn [String.append Str.split_from].
    destruct (Str.isspace c).
    + destruct cur; rewrite IH; reflexivity.
    + apply IH.
Qed.

Lemma split_from_first (s : string) (cur : list ascii) (c0 : ascii) :
  exists tok rest,
    Str.split_from s (cur ++ [c0]) = tok :: rest /\ Str.startswith tok c0 = true.
Proof.
  revert cur. induction s as [| c s IH]; intros cur; cbn [Str.split_from].
  - destruct (cur ++ [c0]) eqn:E; [destruct cur; discriminate |]. rewrite <- E.
    eexists. eexists. split; [reflexivity |].
    unfold Str.rev_string. rewrite rev_app_distr. cbn. apply Ascii.eqb_refl.
  - destruct (Str.isspace c).
    + destruct (cur ++ [c0]) eqn:E; [destruct cur; discriminate |]. rewrite <- E.
      eexists. eexists. split; [reflexivity |].
      unfold Str.rev_string. rewrite rev_app_distr. cbn. apply Ascii.eqb_refl.
    + apply (IH (c :: cur)).
Qed.

(** Nothing after a token that starts with a semicolon is read. *)
Lemma params_stop_at_comment (self : GcodeCommand.t) (l r : list string) (c : string) :
  Str.startswith c ";" = true ->
  GcodeCommand.params pf self (l ++ c :: r) = GcodeCommand.params pf self l.
Proof.
  intros Hc. revert self. induction l as [| p l IH]; intros self; cbn [app GcodeCommand.params].
  - rewrite Hc. reflexivity.
  - destruct (Str.startswith p ";"); [reflexivity |]. apply IH.
Qed.
End CommentFacts.

(** X7: a comment that follows the tokens of a line after a space does not
    change the command parsed from the line, whatever the comment holds. *)
Theorem trailing_comment_is_ignored (pf : Platform) (line comment : string) :
  Str.split line <> [] ->
  GcodeCommand.init pf (line ++ " ;" ++ comment) = GcodeCommand.init pf line.
Proof.
  intros Hne. unfold GcodeCommand.init, Str.split.
  change (line ++ " ;" ++ comment)%string with (line ++ String " " (String ";" comment))%string.
  rewrite split_from_space.
  fold (Str.split line). destruct (Str.split line) as [| ty rest]; [contradiction |].
  cbn [Str.split_from Str.isspace].
  change (Str.isspace ";") with false. cbv iota.
  destruct (split_from_first comment [] ";"%char) as [tok [more [Hs Htok]]].
  cbn [app] in Hs. rewrite Hs.
  cbn [app]. rewrite (params_stop_at_comment pf _ rest more tok Htok). reflexivity.
Qed.

Lemma trailing_comment_is_ignored_witness :
  GcodeCommand.init Sample.platform "G1 X5 E1 ;then Y3 X9" =
  GcodeCommand.init Sample.platform "G1 X5 E1".
Proof.
  apply (trailing_comment_is_ignored Sample.platform "G1 X5 E1" "then Y3 X9").
  vm_compute. discriminate.
Defined.

(** ** The order of floats and the bounds *)

Lemma SFleb_key (x y : spec_float) :
  x <> S754_nan -> y <> S754_nan ->
  (SFleb x y = true <-> key_le (sf_key x) (sf_key y)).
Proof.
  intros Hx Hy. unfold SFleb.
  destruct x as [sx | sx | | sx mx ex], y as [sy | sy | | sy my ey];
    try contradiction; cbn [SFcompare sf_key key_le].
  all: try (destruct sx; cbn; split; intros H; try discriminate; try reflexivity; lia).
  all: try (destruct sy; cbn; split; intros H; try discriminate; try reflexivity; lia).
  all: try (destruct sx, sy; cbn; split; intros H; try discriminate; try reflexivity; lia).
  change (PosDef.Pos.compare_cont Eq mx my) with (Pos.compare mx my).
  destruct sx, sy; cbn [key_le];
    try (split; intros H; try discriminate; try reflexivity; lia).
  - destruct (Z.compare_spec ex ey) as [He | He | He];
      [destruct (Pos.compare_spec mx my) as [Hm | Hm | Hm] | |];
      cbn [CompOpp]; split; intros H; try discriminate; try reflexivity; lia.
  - destruct (Z.compare_spec ex ey) as [He | He | He];
      [destruct (Pos.compare_spec mx my) as [Hm | Hm | Hm] | |];
      split; intros H; try discriminate; try reflexivity; lia.
Qed.

Lemma SFcompare_not_nan (x y : spec_float) (c : comparison) :
  SFcompare x y = Some c -> x <> S754_nan /\ y <> S754_nan.
Proof.
  destruct x, y; cbn; intros H; try discriminate; split; discriminate.
Qed.

Lemma SFcompare_refl (x : spec_float) : x <> S754_nan -> SFcompare x x = Some Eq.
Proof.
  destruct x as [s | s | | s m e]; intros H; try contradiction; cbn.
  - reflexivity.
  - destruct s; reflexivity.
  - rewrite Z.compare_refl.
    change (PosDef.Pos.compare_cont Eq m m) with (Pos.compare m m).
    rewrite Pos.compare_refl. destruct s; reflexivity.
Qed.

Lemma is_nan_false (a : float) : is_nan a = false <-> Prim2SF a <> S754_nan.
Proof.
  unfold is_nan. rewrite eqb_spec. unfold SFeqb. split.
  - intros H E. rewrite E in H. discriminate.
  - intros H. rewrite (SFcompare_refl _ H). reflexivity.
Qed.

Lemma leb_not_nan (a b : float) :
  (a <=? b)%float = true -> is_nan a = false /\ is_nan b = false.
Proof.
  rewrite leb_spec. unfold SFleb.
  destruct (SFcompare (Prim2SF a) (Prim2SF b)) as [c |] eqn:E; [| discriminate].
  intros _. apply SFcompare_not_nan in E as [Ha Hb].
  split; apply is_nan_false; assumption.
Qed.

Lemma leb_trans (a b c : float) :
  (a <=? b)%float = true -> (b <=? c)%float = true -> (a <=? c)%float = true.
Proof.
  intros Hab Hbc.
  destruct (leb_not_nan a b Hab) as [Ha Hb]. destruct (leb_not_nan b c Hbc) as [_ Hc].
  apply is_nan_false in Ha, Hb, Hc.
  rewrite leb_spec in *.
  apply SFleb_key in Hab, Hbc; try assumption. apply SFleb_key; try assumption.
  unfold key_le in *.
  destruct (sf_key (Prim2SF a)) as [[a1 a2] a3], (sf_key (Prim2SF b)) as [[b1 b2] b3],
           (sf_key (Prim2SF c)) as [[c1 c2] c3].
  lia.
Qed.

Lemma leb_refl (a : float) : is_nan a = false -> (a <=? a)%float = true.
Proof.
  intros H. apply is_nan_false in H. rewrite leb_spec. unfold SFleb.
  rewrite (SFcompare_refl _ H). reflexivity.
Qed.

Lemma ltb_leb (a b : float) : (a <? b)%float = true -> (a <=? b)%float = true.
Proof.
  rewrite ltb_spec, leb_spec. unfold SFltb, SFleb.
  destruct (SFcompare (Prim2SF a) (Prim2SF b)) as [[ | | ] |]; congruence.
Qed.

(** Two floats that are not NaN are comparable. *)
Lemma not_ltb_leb (a b : float) :
  is_nan a = false -> is_nan b = false ->
  (a <? b)%float = false -> (b <=? a)%float = true.
Proof.
  intros Ha Hb. apply is_nan_false in Ha, Hb.
  rewrite ltb_spec, leb_spec. unfold SFltb, SFleb.
  rewrite (SFcompare_antisym (Prim2SF a) (Prim2SF b)).
  destruct (SFcompare (Prim2SF a) (Prim2SF b)) as [[ | | ] |] eqn:E; cbn; try congruence.
  exfalso.
  destruct (Prim2SF a), (Prim2SF b); cbn in E; try discriminate; contradiction.
Qed.

Section MinMax.
Local Open Scope float_scope.

Lemma fold_min_spec (tl : list float) (m : float) :
  is_nan m = false -> forallb (fun v => negb (is_nan v)) tl = true ->
  let r := fold_left (fun m v => if v <? m then v else m) tl m in
  is_nan r = false /\ (r <=? m) = true /\ (forall v, In v tl -> (r <=? v) = true) /\
  (r = m \/ In r tl).
Proof.
  revert m. induction tl as [| x tl IH]; intros m Hm Hall; cbn [fold_left forallb] in *.
  - split; [exact Hm |]. split; [apply leb_refl, Hm |]. split; [contradiction | left; reflexivity].
  - apply andb_true_iff in Hall as [Hx Hall]. apply negb_true_iff in Hx.
    destruct (x <? m) eqn:E.
    + destruct (IH x Hx Hall) as [Hr [Hle [Hin Hmem]]].
      split; [exact Hr |]. split; [apply (leb_trans _ x); [exact Hle | apply ltb_leb, E] |].
      split.
      * intros v [<- | Hv]; [exact Hle | apply Hin, Hv].
      * right. destruct Hmem as [-> | Hmem]; [left; reflexivity | right; exact Hmem].
    + destruct (IH m Hm Hall) as [Hr [Hle [Hin Hmem]]].
      split; [exact Hr |]. split; [exact Hle |]. split.
      * intros v [<- | Hv]; [| apply Hin, Hv].
        apply (leb_trans _ m); [exact Hle | apply not_ltb_leb; assumption].
      * destruct Hmem as [-> | Hmem]; [left; reflexivity | right; right; exact Hmem].
Qed.

Lemma fold_max_spec (tl : list float) (m : float) :
  is_nan m = false -> forallb (fun v => negb (is_nan v)) tl = true ->
  let r := fold_left (fun m v => if m <? v then v else m) tl m in
  is_nan r = false /\ (m <=? r) = true /\ (forall v, In v tl -> (v <=? r) = true) /\
  (r = m \/ In r tl).
Proof.
  revert m. induction tl as [| x tl IH]; intros m Hm Hall; cbn [fold_left forallb] in *.
  - split; [exact Hm |]. split; [apply leb_refl, Hm |]. split; [contradiction | left; reflexivity].
  - apply andb_true_iff in Hall as [Hx Hall]. apply negb_true_iff in Hx.
    destruct (m <? x) eqn:E.
    + destruct (IH x Hx Hall) as [Hr [Hle [Hin Hmem]]].
      split; [exact Hr |]. split; [apply (leb_trans _ x); [apply ltb_leb, E | exact Hle] |].
      split.
      * intros v [<- | Hv]; [exact Hle | apply Hin, Hv].
      * right. destruct Hmem as [-> | Hmem]; [left; reflexivity | right; exact Hmem].
    + destruct (IH m Hm Hall) as [Hr [Hle [Hin Hmem]]].
      split; [exact Hr |]. split; [exact Hle |]. split.
      * intros v [<- | Hv]; [| apply Hin, Hv].
        apply (leb_trans _ m); [apply not_ltb_leb; assumption | exact Hle].
      * destruct Hmem as [-> | Hmem]; [left; reflexivity | right; right; exact Hmem].
Qed.

(** On a list without NaN, [min] is an element below all elements and
    [max] an element above all elements. *)
Lemma min_max_list_spec (l : list float) :
  l <> [] -> forallb (fun v => negb (is_nan v)) l = true ->
  In (Py.min_list l) l /\ In (Py.max_list l) l /\
  forall v, In v l -> (Py.min_list l <=? v) = true /\ (v <=? Py.max_list l) = true.
Proof.
  destruct l as [| x tl]; [contradiction |]. intros _ Hall.
  cbn [forallb] in Hall. apply andb_true_iff in Hall as [Hx Hall].
  apply negb_true_iff in Hx. unfold Py.min_list, Py.max_list.
  destruct (fold_min_spec tl x Hx Hall) as [_ [Hle [Hin Hmem]]].
  destruct (fold_max_spec tl x Hx Hall) as [_ [Hge [Hin' Hmem']]].
  split; [destruct Hmem as [-> | H]; [left; reflexivity | right; exact H] |].
  split; [destruct Hmem' as [-> | H]; [left; reflexivity | right; exact H] |].
  intros v [<- | Hv]; split; auto.
Qed.
End MinMax.

Lemma coords_in (f : vec3 float -> float) (l : list Segment) (s : Segment) :
  In s l -> In (f (start s)) (coords f l) /\ In (f (end_ s)) (coords f l).
Proof.
  intros H. unfold coords. split; apply in_flat_map; exists s; split; auto; cbn; auto.
Qed.

Lemma coords_no_nan (f : vec3 float -> float) (l : list Segment) :
  (forall p, no_nan p = true -> is_nan (f p) = false) ->
  forallb (fun s => no_nan (start s) && no_nan (end_ s)) l = true ->
  forallb (fun v => negb (is_nan v)) (coords f l) = true.
Proof.
  intros Hf. induction l as [| s l IH]; intros H; cbn [forallb coords flat_map app] in *.
  - reflexivity.
  - apply andb_true_iff in H as [Hs Hl]. apply andb_true_iff in Hs as [H1 H2].
    rewrite (Hf _ H1), (Hf _ H2). cbn. apply IH, Hl.
Qed.

(** X5: when no coordinate of a segment is NaN, the bounds exist as soon as
    there is a segment, every end point of every segment lies inside them,
    and each of the six bounds is a coordinate of some end point. *)
Theorem get_bounds_encloses (self : GcodeManager) :
  segments self <> [] ->
  forallb (fun s => no_nan (start s) && no_nan (end_ s)) (segments self) = true ->
  exists b,
    get_bounds self = Some b /\
    (forall s, In s (segments self) -> inside b (start s) = true /\ inside b (end_ s) = true) /\
    In (min_x b) (coords (fun p => fst (fst p)) (segments self)) /\
    In (max_x b) (coords (fun p => fst (fst p)) (segments self)) /\
    In (min_y b) (coords (fun p => snd (fst p)) (segments self)) /\
    In (max_y b) (coords (fun p => snd (fst p)) (segments self)) /\
    In (min_z b) (coords (fun p => snd p) (segments self)) /\
    In (max_z b) (coords (fun p => snd p) (segments self)).
Proof.
  intros Hne Hnan. unfold get_bounds.
  destruct (segments self) as [| s0 l0] eqn:El; [contradiction |]. rewrite <- El in *.
  assert (Hc : forall f, coords f (segments self) <> []).
  { intros f. rewrite El. cbn. discriminate. }
  assert (Nx : forall p, no_nan p = true -> is_nan (fst (fst p)) = false).
  { intros [[x y] z] H. cbn in *. apply andb_true_iff in H as [H _].
    apply andb_true_iff in H as [H _]. apply negb_true_iff, H. }
  assert (Ny : forall p, no_nan p = true -> is_nan (snd (fst p)) = false).
  { intros [[x y] z] H. cbn in *. apply andb_true_iff in H as [H _].
    apply andb_true_iff in H as [_ H]. apply negb_true_iff, H. }
  assert (Nz : forall p, no_nan p = true -> is_nan (snd p) = false).
  { intros [[x y] z] H. cbn in *. apply andb_true_iff in H as [_ H].
    apply negb_true_iff, H. }
  assert (Hx := min_max_list_spec (coords (fun p => fst (fst p)) (segments self)) (Hc _)
                  (coords_no_nan (fun p => fst (fst p)) _ Nx Hnan)).
  assert (Hy := min_max_list_spec (coords (fun p => snd (fst p)) (segments self)) (Hc _)
                  (coords_no_nan (fun p => snd (fst p)) _ Ny Hnan)).
  assert (Hz := min_max_list_spec (coords (fun p => snd p) (segments self)) (Hc _)
                  (coords_no_nan (fun p => snd p) _ Nz Hnan)).
  destruct Hx as [Hx1 [Hx2 Hx]], Hy as [Hy1 [Hy2 Hy]], Hz as [Hz1 [Hz2 Hz]].
  eexists. split; [reflexivity |]. cbn [min_x max_x min_y max_y min_z max_z].
  split; [| repeat split; assumption].
  intros s Hs.
  destruct (coords_in (fun p => fst (fst p)) _ s Hs) as [Sx Ex].
  destruct (coords_in (fun p => snd (fst p)) _ s Hs) as [Sy Ey].
  destruct (coords_in (fun p => snd p) _ s Hs) as [Sz Ez].
  unfold inside. cbn [min_x max_x min_y max_y min_z max_z].
  destruct (start s) as [[x1 y1] z1], (end_ s) as [[x2 y2] z2]. cbn [fst snd] in *.
  destruct (Hx _ Sx) as [-> ->], (Hx _ Ex) as [-> ->], (Hy _ Sy) as [-> ->],
           (Hy _ Ey) as [-> ->], (Hz _ Sz) as [-> ->], (Hz _ Ez) as [-> ->].
  split; reflexivity.
Qed.

Lemma get_bounds_encloses_witness :
  exists b,
    get_bounds (mkManager 0 0 0 true
                  [mkSegment (0, 0, 0) (1, 1, 1); mkSegment (2, 2, 2) (3, -1, 0)]%float)
    = Some b /\
    inside b (3, -1, 0)%float = true.
Proof.
  destruct (get_bounds_encloses
              (mkManager 0 0 0 true
                 [mkSegment (0, 0, 0) (1, 1, 1); mkSegment (2, 2, 2) (3, -1, 0)]%float))
    as [b [Hb [Hin _]]].
  - discriminate.
  - vm_compute. reflexivity.
  - exists b. split; [exact Hb |].
    apply (Hin (mkSegment (2, 2, 2) (3, -1, 0))%float). right. left. reflexivity.
Defined.

(** ** Arcs without a center *)

Lemma is_finite_cases (x : float) :
  is_finite x = true ->
  (exists s, Prim2SF x = S754_zero s) \/ (exists s m e, Prim2SF x = S754_finite s m e).
Proof.
  unfold is_finite, is_nan, is_infinity. rewrite !eqb_spec, abs_spec.
  destruct (Prim2SF x) as [s | s | | s m e] eqn:E.
  - intros _. left. exists s. reflexivity.
  - cbn. destruct s; cbn; discriminate.
  - cbn. discriminate.
  - intros _. right. exists s, m, e. reflexivity.
Qed.

(** The start vector of an arc without offset is a zero. *)
Lemma sub_add_zero (x : float) :
  is_finite x = true ->
  (x - (x + 0) = zero \/ x - (x + 0) = neg_zero)%float.
Proof.
  intros H. destruct (is_finite_cases x H) as [[s E] | [s [m [e E]]]].
  - assert (Hx : x = SF2Prim (S754_zero s)) by (rewrite <- E; symmetry; apply SF2Prim_Prim2SF).
    subst x. destruct s; [right | left]; vm_compute; reflexivity.
  - assert (Ha : (x + 0)%float = x).
    { rewrite <- (SF2Prim_Prim2SF (x + 0)), add_spec, E.
      change (Prim2SF 0) with (S754_zero false). unfold SF64add. cbn [SFadd].
      rewrite <- E. apply SF2Prim_Prim2SF. }
    rewrite Ha. left.
    rewrite <- (SF2Prim_Prim2SF (x - x)), sub_spec, E. unfold SF64sub. cbn [SFsub]. cbv zeta.
    rewrite Z.sub_diag. reflexivity.
Qed.

(** X6: from a finite position without a negative coordinate, an arc command
    that gives neither I nor J (one that gives the radius with R, say) has
    radius 0 and is handled as a straight move: one segment from the old to
    the end position when it extrudes, none otherwise. *)
Theorem arc_without_center_is_straight (pf : Platform) (self : GcodeManager)
        (command : GcodeCommand.t) (clockwise : bool) :
  is_finite (nozzle_x self) = true -> is_finite (nozzle_y self) = true ->
  negative (position self) = false ->
  GcodeCommand.I command = None -> GcodeCommand.J command = None ->
  process_arc pf self command clockwise =
  Ok (set_position self (arc_end self command),
      if extrudes command then [(position self, arc_end self command)] else []).
Proof.
  intros Fx Fy Hneg HI HJ.
  apply (process_arc_straight pf self command clockwise 0%float Hneg); [| reflexivity].
  unfold arc_radius, arc_center. rewrite HI, HJ. cbn [Py.or_else].
  destruct (sub_add_zero _ Fx) as [-> | ->], (sub_add_zero _ Fy) as [-> | ->];
    vm_compute; reflexivity.
Qed.

Lemma arc_without_center_is_straight_witness :
  process_arc Sample.platform (mkManager 10 0 0 true [])
              (GcodeCommand.mk "G2" (Some 20%float) (Some 10%float) None (Some 1%float)
                               None None None None (Some 10%float)) true
  = Ok (mkManager 20 10 0 true [], [((10, 0, 0), (20, 10, 0))]%float).
Proof.
  apply (arc_without_center_is_straight Sample.platform (mkManager 10 0 0 true [])
           (GcodeCommand.mk "G2" (Some 20%float) (Some 10%float) None (Some 1%float)
                            None None None None (Some 10%float)) true);
    reflexivity.
Defined.

(** * Further properties of the renderer *)

(** ** The log and the result of a job *)

Lemma uploaded_count (log : list view_report) :
  (0 <? List.length (filter is_uploaded log))%nat = existsb is_uploaded log.
Proof.
  induction log as [| entry log IH]; [reflexivity |].
  cbn [filter existsb]. destruct (is_uploaded entry); [reflexivity | exact IH].
Qed.

Section JobFacts.
Context {T : Type} {A : Arith T} {Image Png : Type}.
Variable pf : Platform.
Variable gl : Graphics T Image.
Variable encode_png : Image -> result Png.
Variable upload_png_to_fileserver : Png -> nat -> string -> bool.

(** The loop adds one entry for each view, in order, and counts the uploads. *)
Lemma render_views_log (vs : list string) (r : Renderer T) (i count : nat)
      (log : list view_report) :
  exists log',
    render_views gl encode_png upload_png_to_fileserver r i vs count log
    = ((count + List.length (filter is_uploaded log'))%nat, log ++ log') /\
    map report_view log' = enumerate_from i vs.
Proof.
  revert r i count log.
  induction vs as [| view rest IH]; intros r i count log; cbn [render_views].
  - exists []. rewrite app_nil_r, Nat.add_0_r. split; reflexivity.
  - destruct (render_view gl r view width height) as [[r' img] | e].
    + destruct (encode_png img) as [png | e].
      * destruct (upload_png_to_fileserver png i view).
        -- destruct (IH r' (S i) (S count) (log ++ [Uploaded i view])) as [log' [-> Hm]].
           exists (Uploaded i view :: log'). rewrite <- app_assoc.
           cbn [filter is_uploaded List.length map report_view enumerate_from app].
           rewrite Hm, Nat.add_succ_r. split; reflexivity.
        -- destruct (IH r' (S i) count (log ++ [UploadFailed i view])) as [log' [-> Hm]].
           exists (UploadFailed i view :: log'). rewrite <- app_assoc.
           cbn [filter is_uploaded List.length map report_view enumerate_from app].
           rewrite Hm. split; reflexivity.
      * destruct (IH r' (S i) count (log ++ [ViewError i view e])) as [log' [-> Hm]].
        exists (ViewError i view e :: log'). rewrite <- app_assoc.
        cbn [filter is_uploaded List.length map report_view enumerate_from app].
        rewrite Hm. split; reflexivity.
    + destruct (IH r (S i) count (log ++ [ViewError i view e])) as [log' [-> Hm]].
      exists (ViewError i view e :: log'). rewrite <- app_assoc.
      cbn [filter is_uploaded List.length map report_view enumerate_from app].
      rewrite Hm. split; reflexivity.
Qed.
End JobFacts.

(** X8: when the text of a job is parsed without an exception and the
    reference grid of the bed is built (the two steps of the renderer's
    construction that can raise), [render_gcode] goes through all eight
    views whatever happens to each of them: its log has one entry per view,
    in the order of [views] and with the indices 0 to 7, and it returns True
    exactly when at least one view was uploaded, so a job with seven failed
    views still counts as rendered. *)
Theorem render_gcode_reports_every_view
        (T : Type) (A : Arith T) (Image Png : Type) (pf : Platform)
        (gl : Graphics T Image) (encode_png : Image -> result Png)
        (upload_png_to_fileserver : Png -> nat -> string -> bool)
        (gcode_content : string) (bed : PrinterInfo) (gm : GcodeManager)
        (grid : list number) :
  parse_gcode pf gcode_content = Ok gm ->
  get_grid_vertex_list bed 10 = Ok grid ->
  exists log,
    render_gcode pf gl encode_png upload_png_to_fileserver gcode_content bed
    = (existsb is_uploaded log, log) /\
    map report_view log = enumerate_from 0 views.
Proof.
  intros Hparse Hgrid. unfold render_gcode, Renderer_init. rewrite Hparse. cbn [bind].
  destruct (prepare_geometry_fills gm bed grid Hgrid) as [data [-> _]].
  destruct (render_views_log gl encode_png upload_png_to_fileserver views
              (mkRenderer gm bed (Some data) (Some grid)
                          (option_map map_bounds (get_bounds gm))) 0 0 [])
    as [log [-> Hm]].
  exists log. cbn [app Nat.add]. split; [| exact Hm].
  rewrite <- uploaded_count.
  destruct (List.length (filter is_uploaded log) =? List.length views)%nat eqn:E;
    [| reflexivity].
  apply Nat.eqb_eq in E. rewrite E. reflexivity.
Qed.

Lemma render_gcode_reports_every_view_witness :
  exists log,
    render_gcode (A := float_arith Sample.platform) Sample.platform ideal_graphics
                 (fun img => Ok img) (fun _ i _ => (i =? 3)%nat) "G1 X10 Y10 E1"
                 DEFAULT_PRINTER_INFO
    = (existsb is_uploaded log, log) /\
    map report_view log = enumerate_from 0 views.
Proof.
  eapply (render_gcode_reports_every_view float (float_arith Sample.platform) unit unit
            Sample.platform ideal_graphics (fun img => Ok img) (fun _ i _ => (i =? 3)%nat)
            "G1 X10 Y10 E1" DEFAULT_PRINTER_INFO
            (mkManager 10 10 0 true [mkSegment (0, 0, 0)%float (10, 10, 0)%float])).
  - vm_compute. reflexivity.
  - vm_compute. reflexivity.
Defined.

(** ** The layout of the vertex buffer *)

Section BufferFacts.
Context {T : Type} {A : Arith T}.

Lemma interleave_app (a b c d : rows T) :
  List.length a = List.length c ->
  interleave (a ++ b) (c ++ d) = interleave a c ++ interleave b d.
Proof.
  revert c. induction a as [| x a IH]; intros [| y c] H; try discriminate.
  - reflexivity.
  - injection H as H. unfold interleave in *. cbn [app combine flat_map].
    rewrite (IH c H), !app_assoc. reflexivity.
Qed.

Lemma interleave_concat (l : list Segment) :
  interleave (List.concat (map (fun s => fst (mesh_of s)) l))
             (List.concat (map (fun s => snd (mesh_of s)) l))
  = List.concat (map (fun s => interleave (fst (mesh_of s)) (snd (mesh_of s))) l).
Proof.
  induction l as [| s l IH]; cbn [map List.concat]; [reflexivity |].
  destruct (mesh_of_fills s) as [_ [Lv [Ln _]]].
  rewrite interleave_app by (rewrite Lv, Ln; reflexivity).
  rewrite IH. reflexivity.
Qed.

(** The block number [i] of a list of blocks of one length. *)
Lemma concat_block {X Y : Type} (f : X -> list Y) (n : nat) (l : list X) (i : nat) (x : X) :
  (forall y, List.length (f y) = n) ->
  nth_error l i = Some x ->
  firstn n (skipn (n * i) (List.concat (map f l))) = f x.
Proof.
  intros Hn. revert i.
  induction l as [| y l IH]; intros [| i] H; try discriminate.
  - injection H as ->. rewrite Nat.mul_0_r. cbn [skipn map List.concat].
    rewrite <- (Hn x) at 1. rewrite firstn_app, firstn_all, Nat.sub_diag, firstn_O.
    apply app_nil_r.
  - cbn [nth_error] in H. cbn [map List.concat].
    replace (n * S i)%nat with (List.length (f y) + n * i)%nat by (rewrite Hn; lia).
    rewrite skipn_app, skipn_all2 by lia.
    replace (List.length (f y) + n * i - List.length (f y))%nat with (n * i)%nat by lia.
    cbn [app]. apply IH, H.
Qed.

Lemma prepare_geometry_layout (gm : GcodeManager) (bed : PrinterInfo) (grid : list number) :
  get_grid_vertex_list bed 10 = Ok grid ->
  _prepare_geometry (mkRenderer gm bed None None None)
  = Ok (mkRenderer gm bed
          (Some (List.concat (map (fun s => interleave (fst (mesh_of s)) (snd (mesh_of s)))
                                  (segments gm))))
          (Some grid)
          (option_map map_bounds (get_bounds gm))).
Proof.
  intros Hgrid.
  unfold _prepare_geometry. cbn [_vertex_data gcode_manager printer_info]. cbv zeta.
  rewrite Hgrid. cbn [bind].
  rewrite starmap_results. cbn [bind].
  pose proof (scatter_results (segments gm) 0 [] [] eq_refl eq_refl) as Hs.
  cbn [app] in Hs. unfold rows in *. rewrite Hs. cbn [bind].
  rewrite interleave_concat. reflexivity.
Qed.
End BufferFacts.

(** X9: the vertex buffer follows the toolpath.  Whenever the reference grid
    of the bed is built (the one step of [_prepare_geometry] that can
    raise), the geometry is prepared without an exception for every
    toolpath, and the 216 numbers from offset 216 i of the buffer are the
    mesh of the segment number i: its 36 vertices, each followed by its
    normal. *)
Theorem vertex_data_follows_toolpath (T : Type) (A : Arith T) (gm : GcodeManager)
        (bed : PrinterInfo) (grid : list number) :
  get_grid_vertex_list bed 10 = Ok grid ->
  exists data,
    _prepare_geometry (mkRenderer gm bed None None None)
    = Ok (mkRenderer gm bed (Some data) (Some grid)
                     (option_map map_bounds (get_bounds gm))) /\
    forall (i : nat) (segment : Segment),
      nth_error (segments gm) i = Some segment ->
      exists vertices normals,
        get_segment_vertices segment (lit 0.3%float) (lit 0.3%float) = Ok (vertices, normals) /\
        firstn 216 (skipn (216 * i) data) = interleave vertices normals.
Proof.
  intros Hgrid.
  eexists. split; [apply prepare_geometry_layout, Hgrid |].
  intros i segment Hi.
  destruct (mesh_of_fills segment) as [Hm _].
  exists (fst (mesh_of segment)), (snd (mesh_of segment)).
  split; [rewrite Hm; destruct (mesh_of segment); reflexivity |].
  apply (concat_block (fun s => interleave (fst (mesh_of s)) (snd (mesh_of s)))
                      216 (segments gm) i segment); [| exact Hi].
  intros s. destruct (mesh_of_fills s) as [_ [Lv [Ln _]]].
  rewrite interleave_length by (rewrite Lv, Ln; reflexivity).
  rewrite Lv. reflexivity.
Qed.

Lemma vertex_data_follows_toolpath_witness :
  let gm := mkManager 10 10 0 true [mkSegment (0, 0, 0)%float (10, 10, 0)%float] in
  exists data grid,
    _prepare_geometry (A := float_arith Sample.platform)
                      (mkRenderer gm DEFAULT_PRINTER_INFO None None None)
    = Ok (mkRenderer gm DEFAULT_PRINTER_INFO (Some data) (Some grid)
                     (option_map (map_bounds (A := float_arith Sample.platform))
                                 (get_bounds gm))) /\
    exists vertices normals,
      get_segment_vertices (A := float_arith Sample.platform)
                           (mkSegment (0, 0, 0)%float (10, 10, 0)%float) 0.3%float 0.3%float
      = Ok (vertices, normals) /\
      firstn 216 data = interleave vertices normals.
Proof.
  intros gm.
  destruct (vertex_data_follows_toolpath float (float_arith Sample.platform) gm
              DEFAULT_PRINTER_INFO
              (match get_grid_vertex_list DEFAULT_PRINTER_INFO 10 with
               | Ok grid => grid
               | Raise _ => []
               end))
    as [data [Hrun Hlayout]].
  - vm_compute. reflexivity.
  - exists data. eexists. split; [exact Hrun |].
    apply (Hlayout 0%nat (mkSegment (0, 0, 0)%float (10, 10, 0)%float)). reflexivity.
Defined.

(** ** Flat shading *)

(** X10: the twelve triangles of a segment are shaded flat.  Rows 3k, 3k+1
    and 3k+2 of the vertex array hold the corners of triangle k, and the same
    three rows of the normal array all hold the one normal that
    [calculate_normal] gives for these corners in this order. *)
Theorem triangles_are_flat_shaded (T : Type) (A : Arith T) (segment : Segment)
        (width height : T) :
  exists vertices normals,
    get_segment_vertices segment width height = Ok (vertices, normals) /\
    forall k : nat, (k < 12)%nat ->
      exists v0 v1 v2,
        nth_error vertices (3 * k) = Some (Some v0) /\
        nth_error vertices (3 * k + 1) = Some (Some v1) /\
        nth_error vertices (3 * k + 2) = Some (Some v2) /\
        nth_error normals (3 * k) = Some (Some (calculate_normal v0 v1 v2)) /\
        nth_error normals (3 * k + 1) = Some (Some (calculate_normal v0 v1 v2)) /\
        nth_error normals (3 * k + 2) = Some (Some (calculate_normal v0 v1 v2)).
Proof.
  unfold get_segment_vertices.
  cbv beta iota zeta delta [add_triangle set_row np_empty repeat bind Nat.add
                            TOP RIGHT BOTTOM LEFT].
  eexists. eexists. split; [reflexivity |].
  intros k Hk.
  do 12 (destruct k as [| k];
         [eexists; eexists; eexists;
          cbn [Nat.mul Nat.add nth_error];
          split; [reflexivity |]; split; [reflexivity |]; split; [reflexivity |];
          split; [reflexivity |]; split; reflexivity |]).
  lia.
Qed.

(** ** Normals in exact arithmetic *)

Section ExactNormals.
Local Open Scope R_scope.

(** X11: in exact arithmetic the normal of a triangle has length one.  When
    the cross product of the two edges that leave the first corner is not
    zero, the normal is that cross product divided by its length, and it is
    perpendicular to both edges; when the cross product is zero (a triangle
    without area) the normal is the fixed vector (0, 0, 1). *)
Theorem normal_is_unit_and_perpendicular (v0 v1 v2 : vec3 R) :
  let n := @calculate_normal R real_arith v0 v1 v2 in
  let c := @np_cross R real_arith (sub3 v1 v0) (sub3 v2 v0) in
  dot3 n n = 1 /\
  (c = (0, 0, 0) -> n = (0, 0, 1)) /\
  (c <> (0, 0, 0) ->
   n = (let '(c0, c1, c2) := c in
        (c0 / sqrt (dot3 c c), c1 / sqrt (dot3 c c), c2 / sqrt (dot3 c c))) /\
   dot3 n (sub3 v1 v0) = 0 /\ dot3 n (sub3 v2 v0) = 0).
Proof.
  destruct v0 as [[x0 y0] z0], v1 as [[x1 y1] z1], v2 as [[x2 y2] z2].
  unfold calculate_normal, arr_sub, np_cross, np_linalg_norm, arr_div, np_array32, sub3.
  cbn [f32 lit n_sub n_mul n_add n_div n_sqrt n_ltb real_arith].
  rewrite lit_zero, lit_one.
  set (c0 := (y1 - y0) * (z2 - z0) - (z1 - z0) * (y2 - y0)).
  set (c1 := (z1 - z0) * (x2 - x0) - (x1 - x0) * (z2 - z0)).
  set (c2 := (x1 - x0) * (y2 - y0) - (y1 - y0) * (x2 - x0)).
  cbv zeta. unfold dot3 at 2 3 4. 
  set (N := sqrt (c0 * c0 + c1 * c1 + c2 * c2)).
  assert (HNpos : 0 <= N) by apply sqrt_pos.
  unfold Rltb. destruct (Rlt_dec 0 N) as [HN | HN].
  - assert (HS : N * N = c0 * c0 + c1 * c1 + c2 * c2) by (apply sqrt_def; nra).
    assert (HN0 : N <> 0) by lra.
    split; [| split].
    + unfold dot3.
      replace (c0 / N * (c0 / N) + c1 / N * (c1 / N) + c2 / N * (c2 / N))
        with ((c0 * c0 + c1 * c1 + c2 * c2) / (N * N)) by (field; exact HN0).
      rewrite <- HS. field. exact HN0.
    + intros [= E0 E1 E2]. exfalso. apply HN0. unfold N.
      rewrite E0, E1, E2. replace (0 * 0 + 0 * 0 + 0 * 0) with 0 by ring. apply sqrt_0.
    + intros _. split; [reflexivity |]. unfold dot3. split.
      * replace (c0 / N * (x1 - x0) + c1 / N * (y1 - y0) + c2 / N * (z1 - z0))
          with ((c0 * (x1 - x0) + c1 * (y1 - y0) + c2 * (z1 - z0)) / N)
          by (field; exact HN0).
        replace (c0 * (x1 - x0) + c1 * (y1 - y0) + c2 * (z1 - z0)) with 0
          by (unfold c0, c1, c2; ring).
        field. exact HN0.
      * replace (c0 / N * (x2 - x0) + c1 / N * (y2 - y0) + c2 / N * (z2 - z0))
          with ((c0 * (x2 - x0) + c1 * (y2 - y0) + c2 * (z2 - z0)) / N)
          by (field; exact HN0).
        replace (c0 * (x2 - x0) + c1 * (y2 - y0) + c2 * (z2 - z0)) with 0
          by (unfold c0, c1, c2; ring).
        field. exact HN0.
  - assert (HN0 : N = 0) by lra.
    split; [unfold dot3; ring |]. split; [intros _; reflexivity |].
    intros Hc. exfalso. apply Hc.
    apply sqrt_eq_0 in HN0; [| nra].
    assert (H0 : c0 = 0) by nra. assert (H1 : c1 = 0) by nra. assert (H2 : c2 = 0) by nra.
    rewrite H0, H1, H2. reflexivity.
Qed.
End ExactNormals.

(** ** The distance of the camera in exact arithmetic *)

Section ExactCamera.
Local Open Scope R_scope.

(** The frame with its horizontal distance. *)
Lemma camera_frame_exact (b : Bounds R) :
  let camera_distance := model_diagonal b * (3 / 2) in
  let rise := max_z b + min_height_offset b - (min_z b + max_z b) / 2 in
  let horizontal_distance := sqrt (camera_distance * camera_distance - rise * rise) in
  @camera_frame R real_arith b =
  Ok ((min_x b + max_x b) / 2, (min_y b + max_y b) / 2, (min_z b + max_z b) / 2,
      max_z b + min_height_offset b,
      if Rleb horizontal_distance 0 then camera_distance else horizontal_distance).
Proof.
  unfold camera_frame, max3, min_height_offset, model_diagonal.
  cbn [lit n_add n_sub n_mul n_div n_sqrt n_ltb n_leb py_pow2 real_arith bind fst snd].
  rewrite lit_two, lit_half, lit_one, lit_three_halves, lit_zero.
  set (d := sqrt _).
  rewrite <- (Rltb_Rmax (d * / 2) ((max_z b - min_z b) * 1)).
  rewrite <- (Rltb_Rmax _ 2).
  destruct (Rltb (d * / 2) ((max_z b - min_z b) * 1));
    cbn [fst snd];
    match goal with |- context [Rltb ?x 2] => destruct (Rltb x 2) end;
    cbn [fst snd bind]; reflexivity.
Qed.

Lemma min_height_offset_lower (b : Bounds R) :
  model_diagonal b * / 2 <= min_height_offset b /\ 2 <= min_height_offset b.
Proof.
  unfold min_height_offset, model_diagonal. cbv zeta.
  set (d := sqrt _). set (e := (max_z b - min_z b) * 1).
  unfold Rmax. destruct (Rle_dec (d * / 2) e); destruct (Rle_dec _ 2); lra.
Qed.

Lemma model_diagonal_depth (b : Bounds R) :
  0 <= model_diagonal b /\ min_z b - max_z b <= model_diagonal b.
Proof.
  unfold model_diagonal. cbv zeta.
  set (w := max_x b - min_x b). set (h := max_y b - min_y b). set (d := max_z b - min_z b).
  assert (H0 : 0 <= w * w + h * h + d * d) by nra.
  pose proof (sqrt_pos (w * w + h * h + d * d)) as Hp.
  pose proof (sqrt_def _ H0) as Hd.
  split; [exact Hp |].
  replace (min_z b - max_z b) with (- d) by (unfold d; ring).
  destruct (Rle_dec (- d) (sqrt (w * w + h * h + d * d))) as [Hle | Hgt]; [exact Hle |].
  exfalso. nra.
Qed.

(** X12: in exact arithmetic, when the camera height stays below one and a
    half diagonals above the center of the bounds, the camera of every view
    is at that distance, 1.5 times the diagonal of the model, from the center
    of the bounds. *)
Theorem camera_at_camera_distance (b : Bounds R) (view : string) :
  In view views ->
  max_z b + min_height_offset b - (min_z b + max_z b) / 2 < 3 / 2 * model_diagonal b ->
  exists camera_pos,
    @get_camera_position R real_arith (Some b) view = Ok camera_pos /\
    distance3 camera_pos (bounds_center b) = 3 / 2 * model_diagonal b.
Proof.
  intros Hin Hlt.
  pose proof (camera_frame_exact b) as Hf. cbv zeta in Hf.
  destruct (min_height_offset_lower b) as [Hm1 Hm2].
  destruct (model_diagonal_depth b) as [HD0 HDd].
  set (D := model_diagonal b) in *. set (m := min_height_offset b) in *.
  set (rise := max_z b + m - (min_z b + max_z b) / 2) in *.
  set (cd := D * (3 / 2)) in *.
  assert (Hrise : 0 <= rise) by (unfold rise; lra).
  assert (Hcd : rise < cd) by (unfold cd; lra).
  assert (Hpos : 0 < cd * cd - rise * rise) by nra.
  pose proof (sqrt_lt_R0 _ Hpos) as Hhd.
  assert (Hsq : sqrt (cd * cd - rise * rise) * sqrt (cd * cd - rise * rise)
                = cd * cd - rise * rise) by (apply sqrt_def; lra).
  set (hd := sqrt (cd * cd - rise * rise)) in *.
  assert (Hleb : Rleb hd 0 = false).
  { unfold Rleb. destruct (Rle_dec hd 0); [lra | reflexivity]. }
  rewrite Hleb in Hf.
  unfold get_camera_position. rewrite Hf. cbn [bind].
  cbn [lit n_div n_sqrt real_arith]. rewrite lit_one, lit_two.
  destruct (view_direction_unit view Hin) as [d0 [d1 [-> Hd]]].
  cbn [bind f32 n_add n_mul real_arith].
  eexists. split; [reflexivity |].
  unfold distance3, bounds_center, sub3, dot3.
  set (cx := (min_x b + max_x b) / 2). set (cy := (min_y b + max_y b) / 2).
  fold rise.
  replace ((cx + d0 * hd - cx) * (cx + d0 * hd - cx)
           + (cy + d1 * hd - cy) * (cy + d1 * hd - cy) + rise * rise)
    with ((d0 * d0 + d1 * d1) * (hd * hd) + rise * rise) by ring.
  rewrite Hd, Hsq.
  replace (1 * (cd * cd - rise * rise) + rise * rise) with (cd * cd) by ring.
  rewrite sqrt_square by lra. unfold cd. ring.
Qed.

Lemma camera_at_camera_distance_witness :
  exists camera_pos,
    @get_camera_position R real_arith (Some (mkBounds 0 8 0 6 0 0)) "NORTH" = Ok camera_pos /\
    distance3 camera_pos (bounds_center (mkBounds 0 8 0 6 0 0))
    = 3 / 2 * model_diagonal (mkBounds 0 8 0 6 0 0).
Proof.
  apply (camera_at_camera_distance (mkBounds 0 8 0 6 0 0) "NORTH").
  - unfold views. cbn [In]. do 7 right. left. reflexivity.
  - unfold min_height_offset, model_diagonal. cbn [min_x max_x min_y max_y min_z max_z].
    replace ((8 - 0) * (8 - 0) + (6 - 0) * (6 - 0) + (0 - 0) * (0 - 0)) with (10 * 10) by lra.
    rewrite sqrt_square by lra.
    unfold Rmax. destruct (Rle_dec (10 * / 2) ((0 - 0) * 1)); destruct (Rle_dec _ 2); lra.
Defined.
End ExactCamera.

(** ** The reference grid *)

Section GridFacts.
Local Open Scope Z_scope.

Lemma py_range_up (lo hi spacing : BinNums.Z) :
  0 < spacing -> lo <= hi ->
  exists l,
    py_range (Int lo) (add_int (Int hi) 1) spacing = Ok l /\
    List.length l = lines_across lo hi spacing /\
    Forall (fun x => lo <= x <= hi) l.
Proof.
  intros Hs Hle. unfold py_range, add_int, range_length, lines_across.
  replace (spacing =? 0) with false by (symmetry; apply Z.eqb_neq; lia).
  replace (0 <? spacing) with true by (symmetry; apply Z.ltb_lt; lia).
  replace (lo <? hi + 1) with true by (symmetry; apply Z.ltb_lt; lia).
  replace (hi + 1 - lo - 1) with (hi - lo) by lia.
  eexists. split; [reflexivity |]. split.
  - rewrite length_map, length_seq. reflexivity.
  - apply Forall_forall. intros x Hx. apply in_map_iff in Hx.
    destruct Hx as [k [<- Hk]]. apply in_seq in Hk.
    assert (H0 : 0 <= (hi - lo) / spacing) by (apply Z.div_pos; lia).
    assert (Hk' : Z.of_nat k <= (hi - lo) / spacing) by lia.
    pose proof (Z.mul_div_le (hi - lo) spacing Hs) as Hm.
    nia.
Qed.

Lemma map_lines {X Y : Type} (f : X -> Y) (g : BinNums.Z -> list X) (l : list BinNums.Z) :
  flat_map (fun t => map f (g t)) l = map f (flat_map g l).
Proof.
  induction l as [| t l IH]; cbn [flat_map]; [reflexivity |].
  rewrite map_app, IH. reflexivity.
Qed.

Lemma vertices3_lines (f : BinNums.Z -> BinNums.Z * BinNums.Z * BinNums.Z)
      (g : BinNums.Z -> BinNums.Z * BinNums.Z * BinNums.Z) (l : list BinNums.Z)
      (rest : list BinNums.Z) :
  vertices3 (flat_map (fun t => let '(a, b, c) := f t in
                                let '(d, e, h) := g t in [a; b; c; d; e; h]) l ++ rest)
  = flat_map (fun t => [f t; g t]) l ++ vertices3 rest.
Proof.
  induction l as [| t l IH]; [reflexivity |].
  cbn [flat_map]. destruct (f t) as [[a b] c] eqn:Ef, (g t) as [[d e] h] eqn:Eg.
  cbn [app vertices3]. rewrite IH. reflexivity.
Qed.

Lemma length_lines {X : Type} (f : BinNums.Z -> list X) (n : nat) (l : list BinNums.Z) :
  (forall t, List.length (f t) = n) ->
  List.length (flat_map f l) = (n * List.length l)%nat.
Proof.
  intros H. induction l as [| t l IH]; cbn [flat_map List.length]; [lia |].
  rewrite length_app, H, IH. lia.
Qed.
End GridFacts.

(** X13: for a positive spacing and a bed given in whole numbers whose
    minimum is not above its maximum on either axis, the grid is built
    without an exception.  It holds six numbers for each line, with
    (max - min) div spacing + 1 lines across each side of the bed and every
    end point of a line in the plane z = 0 and within the bed; then come the
    twelve numbers of the mark, which sits at the origin whatever the
    position of the bed.  All its numbers are whole. *)
Theorem grid_lines_stay_on_the_bed (x_min y_min x_max y_max : BinNums.Z)
        (z_min z_max : number) (spacing : BinNums.Z) :
  (0 < spacing)%Z -> (x_min <= x_max)%Z -> (y_min <= y_max)%Z ->
  exists lines,
    get_grid_vertex_list
      (mkPrinterInfo (Int x_min) (Int y_min) z_min (Int x_max) (Int y_max) z_max) spacing
    = Ok (map Int (lines ++ [0; 0; 0; spacing; spacing; 0; 0; spacing; 0; spacing; 0; 0])%Z) /\
    List.length lines
    = (6 * (lines_across x_min x_max spacing + lines_across y_min y_max spacing))%nat /\
    Forall (on_bed x_min x_max y_min y_max) (vertices3 lines).
Proof.
  intros Hs Hx Hy. unfold get_grid_vertex_list.
  cbn [bed_min_x bed_min_y bed_max_x bed_max_y]. cbv zeta.
  destruct (py_range_up x_min x_max spacing Hs Hx) as [xs [-> [Lx Fx]]].
  destruct (py_range_up y_min y_max spacing Hs Hy) as [ys [-> [Ly Fy]]].
  cbn [bind].
  exists (flat_map (fun x => [x; y_min; 0; x; y_max; 0]%Z) xs
          ++ flat_map (fun y => [x_min; y; 0; x_max; y; 0]%Z) ys).
  split; [| split].
  - rewrite !map_app, <- !map_lines. reflexivity.
  - rewrite length_app.
    rewrite (length_lines _ 6 xs) by reflexivity.
    rewrite (length_lines _ 6 ys) by reflexivity.
    rewrite Lx, Ly. lia.
  - pose proof (vertices3_lines
                  (fun x => (x, y_min, 0%Z)) (fun x => (x, y_max, 0%Z)) xs
                  (flat_map (fun y => [x_min; y; 0%Z; x_max; y; 0%Z]) ys)) as H1.
    cbv beta iota in H1. rewrite H1. clear H1.
    pose proof (vertices3_lines
                  (fun y => (x_min, y, 0%Z)) (fun y => (x_max, y, 0%Z)) ys []) as H2.
    cbv beta iota in H2. rewrite app_nil_r in H2. rewrite H2. clear H2.
    cbn [vertices3]. rewrite app_nil_r.
    apply Forall_app. split; apply Forall_forall; intros v Hv;
      apply in_flat_map in Hv; destruct Hv as [t [Ht Hv]];
      [rewrite Forall_forall in Fx; specialize (Fx t Ht)
      | rewrite Forall_forall in Fy; specialize (Fy t Ht)];
      cbn [In] in Hv; destruct Hv as [<- | [<- | []]]; unfold on_bed; lia.
Qed.

Lemma grid_lines_stay_on_the_bed_witness :
  exists lines,
    get_grid_vertex_list DEFAULT_PRINTER_INFO 10
    = Ok (map Int (lines ++ [0; 0; 0; 10; 10; 0; 0; 10; 0; 10; 0; 0])%Z) /\
    List.length lines = (6 * (26 + 22))%nat /\
    Forall (on_bed 0 250 0 210) (vertices3 lines).
Proof.
  apply (grid_lines_stay_on_the_bed 0 0 250 210 (Int 0) (Int 220) 10);
    vm_compute; congruence.
Defined.

(** ** The names of the uploaded images *)

Lemma append_cancel (p a b : string) : (p ++ a)%string = (p ++ b)%string -> a = b.
Proof.
  induction p as [| c p IH]; cbn [append]; [trivial |].
  intros [= H]. apply IH, H.
Qed.

Lemma NoDup_map_injective {X Y : Type} (f : X -> Y) (l : list X) :
  (forall a b, f a = f b -> a = b) -> NoDup l -> NoDup (map f l).
Proof.
  intros Hf Hl. induction Hl as [| x l Hx Hl IH]; cbn [map]; constructor.
  - intros Hin. apply in_map_iff in Hin. destruct Hin as [y [Hy Hin]].
    apply Hf in Hy. subst y. contradiction.
  - exact IH.
Qed.

(** X14: the eight images of a job are uploaded under eight different names,
    whatever the job id, so no view overwrites another one. *)
Theorem upload_filenames_differ (job_id : string) :
  NoDup (map (fun '(view_index, view) => upload_filename job_id view_index view)
             (enumerate_from 0 views)).
Proof.
  assert (Hmap :
    map (fun '(view_index, view) => upload_filename job_id view_index view)
        (enumerate_from 0 views)
    = map (fun t => ("job_" ++ job_id ++ "_view_" ++ t)%string)
          (map (fun '(view_index, view) =>
                  (str_of_nat view_index ++ "_" ++ lower view ++ ".png")%string)
               (enumerate_from 0 views))).
  { rewrite map_map. apply map_ext. intros [i v]. reflexivity. }
  rewrite Hmap. apply NoDup_map_injective.
  - intros a b H. apply append_cancel in H. apply append_cancel in H.
    apply append_cancel in H. exact H.
  - vm_compute.
    repeat (constructor;
            [intros H; cbn [In] in H;
             repeat (destruct H as [H | H]; [discriminate H |]); exact H |]).
    constructor.
Qed.

(** ** The light, the view matrix and the projection in exact arithmetic *)

Section ExactScene.
Local Open Scope R_scope.

Ltac literal :=
  unfold float_to_R;
  match goal with
  | |- context [Prim2SF ?v] =>
      let sf := eval vm_compute in (Prim2SF v) in change (Prim2SF v) with sf
  end;
  cbv iota beta;
  match goal with
  | |- context [(0 <=? ?e)%Z] =>
      let b := eval vm_compute in (0 <=? e)%Z in change (0 <=? e)%Z with b
  end;
  cbv iota;
  repeat match goal with
         | |- context [IZR ?z] =>
             progress (let z' := eval vm_compute in z in change (IZR z) with (IZR z'))
         end;
  lra.

Lemma lit_ten : float_to_R 10 = 10.
Proof. literal. Qed.

Lemma model_diagonal_depth_upper (b : Bounds R) : max_z b - min_z b <= model_diagonal b.
Proof.
  unfold model_diagonal. cbv zeta.
  set (w := max_x b - min_x b). set (h := max_y b - min_y b). set (d := max_z b - min_z b).
  assert (H0 : 0 <= w * w + h * h + d * d) by nra.
  pose proof (sqrt_pos (w * w + h * h + d * d)) as Hp.
  pose proof (sqrt_def _ H0) as Hd.
  destruct (Rle_dec d (sqrt (w * w + h * h + d * d))) as [Hle | Hgt]; [exact Hle |].
  exfalso. nra.
Qed.

Lemma light_position_exact (b : Bounds R) :
  exists x y,
    @light_position R real_arith b
    = Ok (x, y, max_z b + Rmax (model_diagonal b * 2) 10 * (3 / 2)).
Proof.
  unfold light_position, model_diagonal.
  cbn [lit n_add n_sub n_mul n_div n_sqrt n_ltb py_pow2 f32 real_arith bind].
  rewrite lit_two, lit_ten, lit_three_halves.
  rewrite Rltb_Rmax. eexists. eexists. reflexivity.
Qed.

Lemma min_height_offset_upper (b : Bounds R) :
  min_height_offset b < Rmax (model_diagonal b * 2) 10 * (3 / 2).
Proof.
  destruct (model_diagonal_depth b) as [HD0 _].
  pose proof (model_diagonal_depth_upper b) as Hd.
  unfold min_height_offset. fold (model_diagonal b).
  set (D := model_diagonal b) in *. set (d := max_z b - min_z b) in *.
  unfold Rmax.
  destruct (Rle_dec (D * / 2) (d * 1)); destruct (Rle_dec _ 2);
    destruct (Rle_dec (D * 2) 10); lra.
Qed.
End ExactScene.

(** X15: in exact arithmetic the light is computed for every bounds, and it
    is higher than the camera of each of the eight views. *)
Theorem light_is_above_the_camera (b : Bounds R) :
  exists light_pos,
    @light_position R real_arith b = Ok light_pos /\
    Forall (fun view =>
              exists camera_pos,
                @get_camera_position R real_arith (Some b) view = Ok camera_pos /\
                (snd camera_pos < snd light_pos)%R)
           views.
Proof.
  destruct (light_position_exact b) as [lx [ly Hl]].
  eexists. split; [exact Hl |].
  destruct (camera_frame_real b) as [hd Hf].
  apply Forall_forall. intros view Hin.
  destruct (camera_position_real b hd view Hf Hin) as [x [y [Hc _]]].
  eexists. split; [exact Hc |].
  cbn [snd]. pose proof (min_height_offset_upper b). lra.
Qed.

Section ExactMatrices.
Local Open Scope R_scope.

Lemma sum_squares_zero (a b c : R) : a * a + b * b + c * c = 0 -> a = 0 /\ b = 0 /\ c = 0.
Proof. intros H. repeat split; nra. Qed.

Lemma norm_nonzero (a b c : R) :
  (a, b, c) <> (0, 0, 0) -> sqrt (a * a + b * b + c * c) <> 0.
Proof.
  intros Hne Hs. apply sqrt_eq_0 in Hs; [| nra].
  destruct (sum_squares_zero a b c Hs) as [-> [-> ->]]. apply Hne. reflexivity.
Qed.

(** X16: in exact arithmetic, when the camera is not at the target and does
    not look along the up vector, the view matrix of [look_at] takes the
    camera to the origin and the target to the point of the negative Z axis
    at the distance of the target from the camera. *)
Theorem look_at_centers_the_target (camera_pos target_pos up_input : vec3 R) :
  camera_pos <> target_pos ->
  @np_cross R real_arith (sub3 target_pos camera_pos) up_input <> (0, 0, 0) ->
  transform (@look_at R real_arith camera_pos target_pos up_input) camera_pos
  = (0, 0, 0, 1) /\
  transform (@look_at R real_arith camera_pos target_pos up_input) target_pos
  = (0, 0, - distance3 target_pos camera_pos, 1).
Proof.
  destruct camera_pos as [[c0 c1] c2], target_pos as [[t0 t1] t2],
           up_input as [[u0 u1] u2].
  intros Hne Hcross.
  unfold np_cross, sub3 in Hcross. cbn [f32 n_sub n_mul real_arith] in Hcross.
  unfold distance3, sub3, dot3.
  unfold look_at, matmul, column, dot4, as_float32, arr_sub, arr_div, arr_neg,
         np_linalg_norm, np_cross, transform.
  cbn [f32 lit n_add n_sub n_mul n_div n_opp n_sqrt real_arith].
  rewrite lit_zero, lit_one.
  set (d0 := t0 - c0) in *. set (d1 := t1 - c1) in *. set (d2 := t2 - c2) in *.
  assert (HN : sqrt (d0 * d0 + d1 * d1 + d2 * d2) <> 0).
  { apply norm_nonzero. intros [= E0 E1 E2]. apply Hne.
    unfold d0, d1, d2 in *. f_equal; [f_equal |]; lra. }
  assert (HS : sqrt (d0 * d0 + d1 * d1 + d2 * d2) * sqrt (d0 * d0 + d1 * d1 + d2 * d2)
               = d0 * d0 + d1 * d1 + d2 * d2) by (apply sqrt_def; nra).
  set (N := sqrt (d0 * d0 + d1 * d1 + d2 * d2)) in *.
  set (x0 := d1 / N * u2 - d2 / N * u1).
  set (x1 := d2 / N * u0 - d0 / N * u2).
  set (x2 := d0 / N * u1 - d1 / N * u0).
  assert (HM : sqrt (x0 * x0 + x1 * x1 + x2 * x2) <> 0).
  { apply norm_nonzero. intros [= E0 E1 E2]. apply Hcross.
    f_equal; [f_equal |].
    - replace (d1 * u2 - d2 * u1) with (x0 * N) by (unfold x0; field; exact HN).
      rewrite E0. ring.
    - replace (d2 * u0 - d0 * u2) with (x1 * N) by (unfold x1; field; exact HN).
      rewrite E1. ring.
    - replace (d0 * u1 - d1 * u0) with (x2 * N) by (unfold x2; field; exact HN).
      rewrite E2. ring. }
  set (M := sqrt (x0 * x0 + x1 * x1 + x2 * x2)) in *.
  split.
  - f_equal; [f_equal; [f_equal |] |]; ring.
  - f_equal; [f_equal; [f_equal |] |].
    + unfold x0, x1, x2, d0, d1, d2. field. split; assumption.
    + unfold x0, x1, x2, d0, d1, d2. field. split; assumption.
    + replace (- (d0 / N) * 1 + - (d1 / N) * 0 + - (d2 / N) * 0 + 0 * 0) with (- (d0 / N)) by ring.
      replace (- (d0 / N) * 0 + - (d1 / N) * 1 + - (d2 / N) * 0 + 0 * 0) with (- (d1 / N)) by ring.
      replace (- (d0 / N) * 0 + - (d1 / N) * 0 + - (d2 / N) * 1 + 0 * 0) with (- (d2 / N)) by ring.
      replace (- (d0 / N) * t0 + - (d1 / N) * t1 + - (d2 / N) * t2
               + (- (d0 / N) * - c0 + - (d1 / N) * - c1 + - (d2 / N) * - c2 + 0 * 1) * 1)
        with (- ((d0 * d0 + d1 * d1 + d2 * d2) / N))
        by (unfold d0, d1, d2; field; exact HN).
      rewrite <- HS. field. exact HN.
    + ring.
Qed.

Lemma look_at_centers_the_target_witness :
  transform (@look_at R real_arith (10, 0, 0) (0, 0, 0) (0, 0, 1)) (10, 0, 0)
  = (0, 0, 0, 1) /\
  transform (@look_at R real_arith (10, 0, 0) (0, 0, 0) (0, 0, 1)) (0, 0, 0)
  = (0, 0, - distance3 (0, 0, 0) (10, 0, 0), 1).
Proof.
  apply (look_at_centers_the_target (10, 0, 0) (0, 0, 0) (0, 0, 1)).
  - intros [= H]. lra.
  - unfold np_cross, sub3. cbn [f32 n_sub n_mul real_arith]. intros [= H1 H2 H3]. lra.
Defined.

(** X17: in exact arithmetic and for near and far planes that differ, the
    projection matrix takes a point at depth [near] in front of the camera
    to z = -w, and a point at depth [far] to z = w, whatever the field of
    view and the aspect ratio are: the two planes bound the depth range that
    is drawn. *)
Theorem perspective_depth_range (np_radians np_tan : R -> R)
        (fov aspect near far x y : R) :
  near <> far ->
  (exists cx cy,
     transform (@perspective R real_arith np_radians np_tan fov aspect near far)
               (x, y, - near) = (cx, cy, - near, near)) /\
  (exists cx cy,
     transform (@perspective R real_arith np_radians np_tan fov aspect near far)
               (x, y, - far) = (cx, cy, far, far)).
Proof.
  intros Hne. assert (H : near - far <> 0) by lra.
  unfold perspective, transform.
  cbn [f32 lit n_add n_sub n_mul n_div n_opp real_arith].
  rewrite lit_zero, lit_one, lit_two.
  split; eexists; eexists;
    (apply (f_equal2 pair); [apply (f_equal2 pair); [reflexivity |] |]);
    field; exact H.
Qed.

Lemma perspective_depth_range_witness :
  (exists cx cy,
     transform (@perspective R real_arith (fun v => v) (fun v => v) 60 (16 / 9) (1 / 10) 100)
               (0, 0, - (1 / 10)) = (cx, cy, - (1 / 10), 1 / 10)) /\
  (exists cx cy,
     transform (@perspective R real_arith (fun v => v) (fun v => v) 60 (16 / 9) (1 / 10) 100)
               (0, 0, - 100) = (cx, cy, 100, 100)).
Proof.
  apply (perspective_depth_range (fun v => v) (fun v => v) 60 (16 / 9) (1 / 10) 100 0 0).
  lra.
Defined.
End ExactMatrices.

(** * Further properties of the parser *)

Section GluedComments.
Local Open Scope string_scope.

Lemma startswith_append (head rest : string) (c : ascii) :
  head <> "" -> Str.startswith (head ++ rest) c = Str.startswith head c.
Proof. destruct head; [contradiction | reflexivity]. Qed.

Lemma contains_append (head rest : string) (c : ascii) :
  Str.contains (head ++ String c rest) c = true.
Proof.
  induction head as [| c' head IH]; cbn [append Str.contains].
  - rewrite Ascii.eqb_refl. reflexivity.
  - rewrite IH. apply orb_true_r.
Qed.

Lemma before_append (head rest : string) (c : ascii) :
  Str.contains head c = false -> Str.before (head ++ String c rest) c = head.
Proof.
  induction head as [| c' head IH]; cbn [append Str.contains Str.before].
  - rewrite Ascii.eqb_refl. reflexivity.
  - intros H. apply orb_false_iff in H as [Hc Hr]. rewrite Hc, (IH Hr). reflexivity.
Qed.
End GluedComments.

(** X18: a comment glued to a parameter, as in [X10;note], does not end the
    scan of the line.  The token is read as its part before the semicolon,
    and the tokens that follow it, which are the rest of the comment, are
    still read as parameters. *)
Theorem glued_comment_does_not_end_the_scan (pf : Platform) (self : GcodeCommand.t)
        (head comment : string) (rest : list string) :
  head <> ""%string ->
  Str.startswith head ";" = false ->
  Str.contains head ";" = false ->
  GcodeCommand.params pf self ((head ++ ";" ++ comment)%string :: rest)
  = GcodeCommand.params pf self (head :: rest).
Proof.
  intros Hne Hs Hc. cbn [GcodeCommand.params].
  change (head ++ ";" ++ comment)%string with (head ++ String ";" comment)%string.
  rewrite (startswith_append head _ ";"%char Hne), Hs.
  rewrite contains_append, (before_append head comment ";"%char Hc), Hc.
  reflexivity.
Qed.

Lemma glued_comment_does_not_end_the_scan_witness :
  GcodeCommand.params Sample.platform
    (GcodeCommand.mk "G1" None None None None None None None None None)
    ["X10;then"; "Y5"; "E1"]%string
  = GcodeCommand.params Sample.platform
      (GcodeCommand.mk "G1" None None None None None None None None None)
      ["X10"; "Y5"; "E1"]%string.
Proof.
  refine (glued_comment_does_not_end_the_scan Sample.platform
            (GcodeCommand.mk "G1" None None None None None None None None None)
            "X10" "then" ["Y5"; "E1"]%string _ _ _).
  - discriminate.
  - reflexivity.
  - reflexivity.
Defined.

(** ** Linear moves and negative coordinates *)

Section NegativeEnds.
Variable pf : Platform.

Lemma dispatch_keeps_ends (self self' : GcodeManager) (command : GcodeCommand.t) :
  String.eqb (GcodeCommand.type command) "G2" = false ->
  String.eqb (GcodeCommand.type command) "G3" = false ->
  dispatch pf self command = Ok self' ->
  Forall (fun s => negative (end_ s) = false) (segments self) ->
  Forall (fun s => negative (end_ s) = false) (segments self').
Proof.
  intros H2 H3. unfold dispatch. rewrite H2, H3.
  repeat match goal with
         | |- context [if ?b then _ else _] => destruct b
         end;
    try (intros [= <-]; trivial).
  pose proof (update_position_cases self command) as Hc. cbv zeta in Hc.
  pose proof (update_position_segments self command) as [Hs _].
  destruct (update_position self command) as [self1 moved].
  change (fst (self1, moved)) with self1 in Hc, Hs.
  destruct (negative (position self1)) eqn:En.
  - injection Hc as Hm. subst moved. intros [= <-]. rewrite Hs. trivial.
  - destruct (extrudes command && commands_axis command); injection Hc as Hm; subst moved;
      intros [= <-] HF.
    + cbn [append_segments segments]. rewrite Hs. apply Forall_app. split; [exact HF |].
      constructor; [exact En | constructor].
    + rewrite Hs. exact HF.
Qed.

Lemma parse_line_keeps_ends (self self' : GcodeManager) (line : string) :
  line_without_arc line = true ->
  parse_line pf self line = Ok self' ->
  Forall (fun s => negative (end_ s) = false) (segments self) ->
  Forall (fun s => negative (end_ s) = false) (segments self').
Proof.
  unfold line_without_arc, parse_line.
  destruct (_ || Str.startswith line ";") eqn:Eskip.
  - intros _ [= <-]. trivial.
  - cbn [orb]. destruct (Str.split line) as [| ty rest] eqn:Es; [discriminate |].
    intros H. apply andb_true_iff in H as [H2 H3].
    apply negb_true_iff in H2, H3.
    destruct (init_type pf line ty rest Es) as [command [-> Hty]]. cbn [bind].
    apply dispatch_keeps_ends; rewrite Hty; assumption.
Qed.

Lemma parse_lines_keeps_ends (lines : list string) (self self' : GcodeManager) :
  forallb line_without_arc lines = true ->
  parse_lines pf self lines = Ok self' ->
  Forall (fun s => negative (end_ s) = false) (segments self) ->
  Forall (fun s => negative (end_ s) = false) (segments self').
Proof.
  revert self. induction lines as [| line rest IH]; intros self H;
    cbn [parse_lines forallb] in *.
  - intros [= <-]. trivial.
  - apply andb_true_iff in H as [Hl Hr].
    destruct (parse_line pf self line) as [self1 | e] eqn:E1; [| discriminate].
    cbn [bind]. intros Hp HF.
    apply (IH self1 Hr Hp). apply (parse_line_keeps_ends self self1 line Hl E1 HF).
Qed.
End NegativeEnds.

(** X19: in a text without arc commands no recorded segment ends at a
    position with a negative coordinate: a linear move that ends there is
    never rendered.  Nothing is said of the start of a segment, which the
    code does not test. *)
Theorem linear_segments_end_non_negative (pf : Platform) (gcode_content : string)
        (self : GcodeManager) :
  forallb line_without_arc (Str.splitlines gcode_content) = true ->
  parse_gcode pf gcode_content = Ok self ->
  Forall (fun s => negative (end_ s) = false) (segments self).
Proof.
  intros Hl Hp.
  apply (parse_lines_keeps_ends pf (Str.splitlines gcode_content) initial self Hl Hp).
  constructor.
Qed.

Lemma linear_segments_end_non_negative_witness :
  Forall (fun s => negative (end_ s) = false)
         [mkSegment (-5, 0, 0)%float (10, 0, 0)%float].
Proof.
  apply (linear_segments_end_non_negative Sample.platform
           ("G1 X-5 E1" ++ LF ++ "G1 X10 E1")
           (mkManager 10 0 0 true [mkSegment (-5, 0, 0)%float (10, 0, 0)%float])).
  - vm_compute. reflexivity.
  - vm_compute. reflexivity.
Defined.

(** ** The cross-section of the tube in exact arithmetic *)

Section ExactTube.
Local Open Scope R_scope.

(** The vector across the tube has length one. *)
Lemma segment_right_unit (direction : vec3 R) :
  dot3 (@segment_right R real_arith direction) (@segment_right R real_arith direction) = 1.
Proof.
  destruct direction as [[d0 d1] d2].
  unfold segment_right, up, np_cross, np_linalg_norm, arr_div, np_array32.
  cbn [f32 lit n_sub n_mul n_add n_div n_sqrt n_ltb real_arith].
  rewrite lit_zero, lit_one.
  set (c0 := d1 * 1 - d2 * 0). set (c1 := d2 * 0 - d0 * 1). set (c2 := d0 * 0 - d1 * 0).
  set (N := sqrt (c0 * c0 + c1 * c1 + c2 * c2)).
  unfold Rltb. destruct (Rlt_dec 0 N) as [HN | HN]; cbv zeta.
  - assert (HS : N * N = c0 * c0 + c1 * c1 + c2 * c2) by (apply sqrt_def; nra).
    assert (HN0 : N <> 0) by lra.
    unfold dot3.
    replace (c0 / N * (c0 / N) + c1 / N * (c1 / N) + c2 / N * (c2 / N))
      with ((c0 * c0 + c1 * c1 + c2 * c2) / (N * N)) by (field; exact HN0).
    rewrite <- HS. field. exact HN0.
  - unfold dot3. ring.
Qed.

(** X20: in exact arithmetic the tube has the size that is asked for.  The
    first four rows of the vertex array are the bottom, right, top and left
    corners around the start of the segment; top and bottom are [height]
    apart and right and left are [width] apart, whatever the direction of
    the segment is. *)
Theorem tube_cross_section (segment : Segment) (width height : R) :
  0 <= width -> 0 <= height ->
  exists vertices normals bottom right top left,
    @get_segment_vertices R real_arith segment width height = Ok (vertices, normals) /\
    nth_error vertices 0 = Some (Some bottom) /\
    nth_error vertices 1 = Some (Some right) /\
    nth_error vertices 2 = Some (Some top) /\
    nth_error vertices 3 = Some (Some left) /\
    distance3 top bottom = height /\
    distance3 right left = width.
Proof.
  intros Hw Hh.
  pose proof (segment_right_unit (@segment_direction R real_arith segment)) as Hr.
  unfold get_segment_vertices.
  cbv beta iota zeta delta [add_triangle set_row np_empty repeat bind Nat.add
                            TOP RIGHT BOTTOM LEFT].
  destruct (segment_right (segment_direction segment)) as [[r0 r1] r2].
  destruct (np_array32 (start segment)) as [[p0 p1] p2].
  unfold dot3 in Hr.
  eexists. eexists. eexists. eexists. eexists. eexists.
  split; [reflexivity |].
  cbn [nth_error].
  split; [reflexivity |]. split; [reflexivity |].
  split; [reflexivity |]. split; [reflexivity |].
  unfold corner, corners, arr_add, arr_scale, arr_neg, up, np_array32.
  cbn [nth f32 lit n_add n_mul n_div n_opp real_arith].
  rewrite lit_zero, lit_one, lit_two.
  unfold distance3, sub3, dot3.
  split.
  - match goal with
    | |- sqrt ?e = _ => replace e with (height * height) by field
    end.
    apply sqrt_square, Hh.
  - match goal with
    | |- sqrt ?e = _ =>
        replace e with (width * width * (r0 * r0 + r1 * r1 + r2 * r2)) by field
    end.
    rewrite Hr, Rmult_1_r. apply sqrt_square, Hw.
Qed.

Lemma tube_cross_section_witness :
  exists vertices normals bottom right top left,
    @get_segment_vertices R real_arith (mkSegment (0, 0, 0)%float (10, 5, 1)%float)
                          (3 / 10) (3 / 10)
    = Ok (vertices, normals) /\
    nth_error vertices 0 = Some (Some bottom) /\
    nth_error vertices 1 = Some (Some right) /\
    nth_error vertices 2 = Some (Some top) /\
    nth_error vertices 3 = Some (Some left) /\
    distance3 top bottom = 3 / 10 /\
    distance3 right left = 3 / 10.
Proof.
  apply (tube_cross_section (mkSegment (0, 0, 0)%float (10, 5, 1)%float) (3 / 10) (3 / 10));
    lra.
Defined.
End ExactTube.

(** ** Line ends *)

Lemma code_not_CR (c : ascii) : Ascii.eqb c CR = false -> (Str.code c =? 13)%N = false.
Proof.
  intros H. apply N.eqb_neq. intros E. unfold Str.code in E.
  assert (Hc : c = CR) by (rewrite <- (ascii_N_embedding c), E; reflexivity).
  subst c. discriminate H.
Qed.

Lemma splitlines_from_crlf (s : string) (cur : list ascii) :
  Str.contains s CR = false ->
  Str.splitlines_from (to_crlf s) cur false = Str.splitlines_from s cur false.
Proof.
  revert cur. induction s as [| c s IH]; intros cur H; [reflexivity |].
  cbn [Str.contains] in H. apply orb_false_iff in H as [Hc Hs].
  apply code_not_CR in Hc.
  cbn [to_crlf]. destruct (Str.code c =? 10)%N eqn:E10.
  - apply N.eqb_eq in E10.
    cbn [Str.splitlines_from andb].
    change (Str.islinebreak CR) with true. cbv iota.
    change (Str.code CR =? 13)%N with true. cbn [andb].
    unfold Str.islinebreak. rewrite E10. cbn.
    rewrite (IH [] Hs). reflexivity.
  - cbn [Str.splitlines_from andb]. rewrite Hc.
    destruct (Str.islinebreak c); rewrite IH by exact Hs; reflexivity.
Qed.

(** X21: the loop over the lines takes Windows line ends as it takes plain
    line feeds: turning every line feed of a text that holds no carriage
    return into carriage return and line feed changes neither the manager
    that [parse_gcode] returns for the text nor the exception it raises. *)
Theorem windows_line_ends_are_accepted (pf : Platform) (gcode_content : string) :
  Str.contains gcode_content CR = false ->
  parse_gcode pf (to_crlf gcode_content) = parse_gcode pf gcode_content.
Proof.
  intros H. unfold parse_gcode, Str.splitlines.
  rewrite (splitlines_from_crlf gcode_content [] H). reflexivity.
Qed.

Lemma windows_line_ends_are_accepted_witness :
  parse_gcode Sample.platform (to_crlf ("G1 X10 E1" ++ LF ++ "G1 Y5 E1"))
  = parse_gcode Sample.platform ("G1 X10 E1" ++ LF ++ "G1 Y5 E1").
Proof.
  apply (windows_line_ends_are_accepted Sample.platform ("G1 X10 E1" ++ LF ++ "G1 Y5 E1")).
  vm_compute. reflexivity.
Defined.

(** ** Views that do not exist *)

(** X22: for a view name that is not one of the eight, [get_camera_position]
    returns no position at any arithmetic: no case of the [match] binds the
    direction, so the call raises (UnboundLocalError, unless an earlier step
    has raised already). *)
Theorem unknown_view_has_no_camera (T : Type) (A : Arith T)
        (self_bounds : option (Bounds T)) (desired_view : string) :
  ~ In desired_view views ->
  exists e, get_camera_position self_bounds desired_view = Raise e.
Proof.
  intros Hn. unfold get_camera_position.
  destruct self_bounds as [b |]; [| eexists; reflexivity].
  destruct (camera_frame b) as [[[[[cx cy] cz] h] hd] | e]; cbn [bind];
    [| eexists; reflexivity].
  assert (Hd : view_direction (n_div (lit 1) (n_sqrt (lit 2))) desired_view
               = Raise UnboundLocalError).
  { unfold view_direction.
    repeat match goal with
           | |- context [String.eqb desired_view ?s] =>
               destruct (String.eqb_spec desired_view s) as [E | _];
               [exfalso; apply Hn; rewrite E; unfold views; cbn [In]; tauto |]
           end.
    reflexivity. }
  rewrite Hd. eexists. reflexivity.
Qed.

Lemma unknown_view_has_no_camera_witness :
  exists e,
    @get_camera_position float (float_arith Sample.platform) (Some (mkBounds 0 10 0 10 0 10)%float) "TOP"
    = Raise e.
Proof.
  apply (unknown_view_has_no_camera float (float_arith Sample.platform)
           (Some (mkBounds 0 10 0 10 0 10)%float) "TOP").
  unfold views. cbn [In]. intros H.
  repeat (destruct H as [H | H]; [discriminate H |]). exact H.
Defined.

(** * The camera positions of the eight views *)


Section Equidistance.
Local Open Scope R_scope.

End Equidistance.



(** * Arcs that start at a negative position *)


(** * A bed given in floats *)

Lemma grid_of_float_bed (bed : PrinterInfo) :
  is_float (bed_min_x bed) || is_float (bed_max_x bed)
  || is_float (bed_min_y bed) || is_float (bed_max_y bed) = true ->
  get_grid_vertex_list bed 10 = Raise TypeError.
Proof.
  unfold get_grid_vertex_list. cbv zeta.
  destruct (bed_min_x bed) as [x0 | x0], (bed_max_x bed) as [x1 | x1];
    cbn [is_float orb add_int py_range bind]; try reflexivity.
  change (10 =? 0)%Z with false. cbv iota. cbn [bind].
  destruct (bed_min_y bed) as [y0 | y0], (bed_max_y bed) as [y1 | y1];
    cbn [is_float orb add_int py_range bind]; try reflexivity.
  discriminate.
Qed.

(** X23: a bed with a float among its X and Y limits stops the job before
    any view is tried.  [range] takes whole numbers only, so the reference
    grid raises TypeError, the renderer is not constructed, and
    [render_gcode] returns False with an empty log, whatever the text of the
    job is. *)
Theorem float_bed_fails_the_job
        (T : Type) (A : Arith T) (Image Png : Type) (pf : Platform)
        (gl : Graphics T Image) (encode_png : Image -> result Png)
        (upload_png_to_fileserver : Png -> nat -> string -> bool)
        (gcode_content : string) (bed : PrinterInfo) :
  is_float (bed_min_x bed) || is_float (bed_max_x bed)
  || is_float (bed_min_y bed) || is_float (bed_max_y bed) = true ->
  get_grid_vertex_list bed 10 = Raise TypeError /\
  (exists e, Renderer_init (T := T) pf gcode_content bed = Raise e) /\
  render_gcode pf gl encode_png upload_png_to_fileserver gcode_content bed = (false, []).
Proof.
  intros Hf. pose proof (grid_of_float_bed bed Hf) as Hg.
  split; [exact Hg |].
  assert (Hinit : exists e, Renderer_init (T := T) pf gcode_content bed = Raise e).
  { unfold Renderer_init.
    destruct (parse_gcode pf gcode_content) as [gm | e]; cbn [bind].
    - exists TypeError. apply prepare_geometry_raises, Hg.
    - exists e. reflexivity. }
  split; [exact Hinit |].
  destruct Hinit as [e He]. unfold render_gcode. rewrite He. reflexivity.
Qed.

Lemma float_bed_fails_the_job_witness :
  render_gcode (A := float_arith Sample.platform) Sample.platform ideal_graphics
               (fun img => Ok img) (fun _ _ _ => true) "G1 X10 Y10 E1"
               (mkPrinterInfo (Int 0) (Int 0) (Int 0) (Float 250) (Int 210) (Int 220))
  = (false, []).
Proof.
  apply (float_bed_fails_the_job float (float_arith Sample.platform) unit unit
           Sample.platform ideal_graphics (fun img => Ok img) (fun _ _ _ => true)
           "G1 X10 Y10 E1"
           (mkPrinterInfo (Int 0) (Int 0) (Int 0) (Float 250) (Int 210) (Int 220))).
  reflexivity.
Defined.
